(** * Train-step compilation and SPMD expansion: a shallow embedding

    This development embeds two Python modules,

      - [torch/_dynamo/backends/train_step.py]  (the train-step compiler) and
      - [torch/distributed/_spmd/parallel_mode.py] (the parallel modes),

    and proves properties of their functions.  Python objects that are
    mutated in place live in an explicit store ([World]); functions that
    can raise return an [Outcome]. *)

From Stdlib Require Import ZArith.
From stdpp Require Import base option list strings gmap fin_maps.

Local Open Scope string_scope.
Local Open Scope list_scope.
Set Warnings "-register-all".

(** * Part I: the embedding *)

(** ** Python dictionaries that keep insertion order *)

Module PyDict.
Section Ops.
Context {K V : Type} `{EqDecision K}.

(** [d[k]], [None] standing for [KeyError]. *)
Fixpoint get (k : K) (d : list (K * V)) : option V :=
  match d with
  | [] => None
  | (k', v) :: d' => if decide (k' = k) then Some v else get k d'
  end.

(** [d[k] = v]: an existing key keeps its position, a new one is appended. *)
Fixpoint set (k : K) (v : V) (d : list (K * V)) : list (K * V) :=
  match d with
  | [] => [(k, v)]
  | (k', v') :: d' =>
      if decide (k' = k) then (k, v) :: d' else (k', v') :: set k v d'
  end.

Definition keys (d : list (K * V)) : list K := map fst d.
Definition values (d : list (K * V)) : list V := map snd d.

(** [dict(pairs)]: a later pair with the same key overrides the value. *)
Definition of_pairs (l : list (K * V)) : list (K * V) :=
  fold_left (fun acc kv => set kv.1 kv.2 acc) l [].

(** [{**a, **b}]. *)
Definition merge (a b : list (K * V)) : list (K * V) :=
  fold_left (fun acc kv => set kv.1 kv.2 acc) b a.
End Ops.
End PyDict.

(** ** The structure flattener ([torch.utils._pytree]) *)

Module PyTree.
Section Tree.
Context {A : Type}.

(** A nested container with leaves of type [A]: dictionaries (in
    insertion order), lists and tuples. *)
Inductive tree : Type :=
| Leaf (a : A)
| Dict (items : list (string * tree))
| PyList (elems : list tree)
| PyTuple (elems : list tree).

(** The reconstruction descriptor: the container kind of each node, with
    the keys of a dictionary, and the descriptors of the children. *)
Inductive NodeKind := KDict (ks : list string) | KList | KTuple.

Inductive TreeSpec : Type :=
| LeafSpec
| NodeSpec (kind : NodeKind) (children : list TreeSpec).

Definition mk_node (k : NodeKind) (ts : list tree) : tree :=
  match k with
  | KDict ks => Dict (zip ks ts)
  | KList => PyList ts
  | KTuple => PyTuple ts
  end.

(** The leaves, left to right. *)
Fixpoint leaves (t : tree) : list A :=
  match t with
  | Leaf a => [a]
  | Dict items => flat_map (fun kv => leaves kv.2) items
  | PyList ts | PyTuple ts => flat_map leaves ts
  end.

Fixpoint spec_of (t : tree) : TreeSpec :=
  match t with
  | Leaf _ => LeafSpec
  | Dict items =>
      NodeSpec (KDict (map fst items)) (map (fun kv => spec_of kv.2) items)
  | PyList ts => NodeSpec KList (map spec_of ts)
  | PyTuple ts => NodeSpec KTuple (map spec_of ts)
  end.

Fixpoint num_leaves (s : TreeSpec) : nat :=
  match s with
  | LeafSpec => 1
  | NodeSpec _ cs => foldr (fun c n => num_leaves c + n) 0 cs
  end.

(** Rebuild the children of a node one after the other, each from the
    leaves its elder siblings have left. *)
Fixpoint build_children
    (build_one : TreeSpec -> list A -> option (tree * list A))
    (l : list TreeSpec) (xs : list A) : option (list tree * list A) :=
  match l with
  | [] => Some ([], xs)
  | c :: l' =>
      match build_one c xs with
      | Some (t, rest) =>
          match build_children build_one l' rest with
          | Some (ts, rest') => Some (t :: ts, rest')
          | None => None
          end
      | None => None
      end
  end.

(** Rebuild one subtree from the front of the sequence, returning the
    leaves that are left. *)
Fixpoint build (s : TreeSpec) (xs : list A) : option (tree * list A) :=
  match s with
  | LeafSpec =>
      match xs with
      | a :: rest => Some (Leaf a, rest)
      | [] => None
      end
  | NodeSpec k cs =>
      match build_children build cs xs with
      | Some (ts, rest) => Some (mk_node k ts, rest)
      | None => None
      end
  end.
End Tree.
Global Arguments tree : clear implicits.

Section Flatten.
Context {A : Type}.

(** Modelled from the spec: [torch.utils._pytree.tree_flatten] is not part
    of the two modules embedded here.  The spec has it turn a nested
    mapping into a flat ordered sequence (insertion order) plus a
    reconstruction descriptor. *)
Definition tree_flatten (t : tree A) : list A * TreeSpec :=
  (leaves t, spec_of t).

(** Modelled from the spec: [torch.utils._pytree.tree_unflatten] is not
    part of the two modules embedded here.  The spec has it rebuild the
    nested structure from the sequence and the descriptor, and fail with
    [StructureMismatch] ([None] here) when the length of the sequence
    disagrees with the descriptor. *)
Definition tree_unflatten (xs : list A) (s : TreeSpec) : option (tree A) :=
  if decide (length xs = num_leaves s) then
    match build s xs with
    | Some (t, []) => Some t
    | _ => None
    end
  else None.

(** The view of a one-level dictionary as a mapping from names to leaves. *)
Definition flat_items (t : tree A) : option (list (string * A)) :=
  match t with
  | Dict items =>
      mapM (fun kv : string * tree A =>
              match kv.2 with
              | Leaf a => Some (kv.1, a)
              | _ => None
              end) items
  | _ => None
  end.

Definition of_flat_items (d : list (string * A)) : tree A :=
  Dict (map (fun kv => (kv.1, Leaf kv.2)) d).
End Flatten.
End PyTree.

(** ** Python objects, exceptions and the store *)

Module Py.

(** [id(x)]: the identity of an object. *)
Definition ObjId := positive.

(** The exceptions that occur.  [ReferenceError] stands for the use of an
    identity that names no record; it cannot arise in Python, where a
    reference keeps its object alive.  [PlacementConversionFailure] is the
    failure of the distributed converter.  [OtherError] is any exception of
    the code that is called and not modelled. *)
Inductive Exn :=
| AssertionError (msg : string)
| AttributeError (msg : string)
| KeyError (key : string)
| IndexError
| ValueError (msg : string)
| TypeError (msg : string)
| RuntimeError (msg : string)
| NotImplementedError
| ReferenceError (id : ObjId)
| PlacementConversionFailure
| OtherError (msg : string).

Inductive Outcome (A : Type) :=
| Return (a : A)
| Raise (e : Exn).
Global Arguments Return {A} a.
Global Arguments Raise {A} e.

Inductive Device := cpu | cuda (index : nat).
Inductive DType := float32 | float64 | int64.

(** What the attribute [fake_mode] of a tensor holds. *)
Inductive ModeObj := FakeTensorMode (m : ObjId) | NotAMode.

(** A tensor object.  [t_fake_mode] is [Some _] exactly for an instance of
    [FakeTensor] (a placeholder: shape, dtype and device, no data); [t_data]
    holds the elements of a real tensor (only whether they are zero matters
    here). *)
Record Tensor := mkTensor {
  t_shape : list nat;
  t_dtype : DType;
  t_device : Device;
  t_fake_mode : option ModeObj;
  t_data : list Z;
}.

(** A leaf of a nested structure (a value of a state record, an argument):
    a tensor object, by identity, or a value that is no tensor, for which
    a Python [int] stands. *)
Inductive LeafVal := LTensor (id : ObjId) | LOther (z : Z).

(** [type(x)] as an f-string prints it. *)
Definition type_repr (x : LeafVal) : string :=
  match x with
  | LTensor _ => "<class 'torch.Tensor'>"
  | LOther _ => "<class 'int'>"
  end.

(** A value held in a parameter group: some object (the list of parameters,
    by identity), the view [params.values()] of a name-to-parameter mapping,
    or a number (a hyperparameter). *)
Inductive GroupVal :=
| GObj (id : ObjId)
| GDictValues (d : list (string * ObjId))
| GNum (z : Z).

(** A value returned by the train step. *)
Inductive Value :=
| VTensor (id : ObjId)
| VNone
| VNum (z : Z)
| VTuple (vs : list Value)
| VList (vs : list Value).

(** The store.  Tensors, per-parameter state records ([dict] objects) and
    parameter groups ([dict] objects) are held by identity, so that an
    in-place update is seen through every reference.  [opt_state] is
    [opt.state], keyed by the identity of the parameter and holding the
    identity of the record; [opt_param_groups] is [opt.param_groups];
    [allow_non_fake_inputs] is that attribute of each [FakeTensorMode];
    [module_params] is what the module's parameters and buffers are bound
    to at the moment. *)
Record World := mkWorld {
  grad_enabled : bool;
  inference_mode : bool;
  allow_non_fake_inputs : gmap ObjId bool;
  tensors : gmap ObjId Tensor;
  records : gmap ObjId (list (string * LeafVal));
  groups : gmap ObjId (gmap string GroupVal);
  opt_state : gmap ObjId ObjId;
  opt_param_groups : list ObjId;
  module_params : list (string * ObjId);
}.

Definition set_grad_enabled_w (b : bool) (w : World) : World :=
  mkWorld b (inference_mode w) (allow_non_fake_inputs w) (tensors w)
    (records w) (groups w) (opt_state w) (opt_param_groups w)
    (module_params w).

Definition set_inference_mode_w (b : bool) (w : World) : World :=
  mkWorld (grad_enabled w) b (allow_non_fake_inputs w) (tensors w)
    (records w) (groups w) (opt_state w) (opt_param_groups w)
    (module_params w).

Definition set_allow_non_fake_inputs_w (f : gmap ObjId bool) (w : World)
  : World :=
  mkWorld (grad_enabled w) (inference_mode w) f (tensors w)
    (records w) (groups w) (opt_state w) (opt_param_groups w)
    (module_params w).

Definition set_tensors (ts : gmap ObjId Tensor) (w : World) : World :=
  mkWorld (grad_enabled w) (inference_mode w) (allow_non_fake_inputs w) ts
    (records w) (groups w) (opt_state w) (opt_param_groups w)
    (module_params w).

Definition set_records (rs : gmap ObjId (list (string * LeafVal))) (w : World)
  : World :=
  mkWorld (grad_enabled w) (inference_mode w) (allow_non_fake_inputs w)
    (tensors w) rs (groups w) (opt_state w) (opt_param_groups w)
    (module_params w).

Definition set_groups (gs : gmap ObjId (gmap string GroupVal)) (w : World)
  : World :=
  mkWorld (grad_enabled w) (inference_mode w) (allow_non_fake_inputs w)
    (tensors w) (records w) gs (opt_state w) (opt_param_groups w)
    (module_params w).

Definition set_opt_state (st : gmap ObjId ObjId) (w : World) : World :=
  mkWorld (grad_enabled w) (inference_mode w) (allow_non_fake_inputs w)
    (tensors w) (records w) (groups w) st (opt_param_groups w)
    (module_params w).

Definition set_module_params (ps : list (string * ObjId)) (w : World)
  : World :=
  mkWorld (grad_enabled w) (inference_mode w) (allow_non_fake_inputs w)
    (tensors w) (records w) (groups w) (opt_state w) (opt_param_groups w)
    ps.

(** A computation: it runs in a store, leaves a store, and returns or
    raises.  What was written to the store before an exception stays
    written. *)
Definition M (A : Type) : Type := World -> World * Outcome A.

Definition ret {A} (a : A) : M A := fun w => (w, Return a).
Definition raise {A} (e : Exn) : M A := fun w => (w, Raise e).

Definition bind {A B} (c : M A) (k : A -> M B) : M B :=
  fun w =>
    match c w with
    | (w1, Return a) => k a w1
    | (w1, Raise e) => (w1, Raise e)
    end.

Definition gets {A} (f : World -> A) : M A := fun w => (w, Return (f w)).

(** A check that reads the store and returns or raises. *)
Definition check {A} (f : World -> Outcome A) : M A := fun w => (w, f w).
Definition modify (f : World -> World) : M unit := fun w => (f w, Return tt).

(** [assert c, msg]. *)
Definition assert_ (c : bool) (msg : string) : M unit :=
  if c then ret tt else raise (AssertionError msg).

(** [None] of a lookup becomes the exception [e]. *)
Definition lift_opt {A} (o : option A) (e : Exn) : M A :=
  match o with
  | Some a => ret a
  | None => raise e
  end.

(** [for x in l: f(x)], stopping at the first exception. *)
Fixpoint for_each {A} (l : list A) (f : A -> M unit) : M unit :=
  match l with
  | [] => ret tt
  | x :: l' => bind (f x) (fun _ => for_each l' f)
  end.

(** [[f(x) for x in l]]. *)
Fixpoint map_m {A B} (f : A -> M B) (l : list A) : M (list B) :=
  match l with
  | [] => ret []
  | x :: l' => bind (f x) (fun y => bind (map_m f l') (fun ys => ret (y :: ys)))
  end.

(** [try: body finally: cleanup]. *)
Definition try_finally {A} (body : M A) (cleanup : M unit) : M A :=
  fun w =>
    match body w with
    | (w1, r) =>
        match cleanup w1 with
        | (w2, Return _) => (w2, r)
        | (w2, Raise e) => (w2, Raise e)
        end
    end.

(** [with cm: body] for a context manager written as a generator
    ([@contextmanager]): the code before [try: yield] is [enter], what it
    keeps in local variables is [S], and the [finally] block is [leave]. *)
Definition with_ {S A} (enter : M S) (leave : S -> M unit) (body : M A)
  : M A :=
  bind enter (fun s => try_finally body (leave s)).

(** A Python callable over positional arguments, each given by identity. *)
Definition Callable : Type := list ObjId -> M Value.

Declare Scope py_scope.
Delimit Scope py_scope with py.
Notation "x <- c ;; k" := (bind c (fun x => k))
  (at level 20, c at level 99, k at level 200, only parsing) : py_scope.
Notation "' pat <- c ;; k" := (bind c (fun x => match x with pat => k end))
  (at level 20, pat pattern, c at level 99, k at level 200, only parsing)
  : py_scope.
Notation "c ;; k" := (bind c (fun _ => k))
  (at level 100, k at level 200, only parsing, right associativity)
  : py_scope.

(** *** Operations on the store *)

Local Open Scope py_scope.

(** The tensor behind an identity; an object that is no tensor has no
    tensor attributes. *)
Definition get_tensor (x : ObjId) : M Tensor :=
  fun w => lift_opt (tensors w !! x) (AttributeError "not a tensor") w.

Definition new_tensor (t : Tensor) : M ObjId :=
  fun w =>
    let id := fresh (dom (tensors w)) in
    (set_tensors (<[id := t]> (tensors w)) w, Return id).

Definition put_tensor (x : ObjId) (t : Tensor) : M unit :=
  modify (fun w => set_tensors (<[x := t]> (tensors w)) w).

Definition get_record (r : ObjId) : M (list (string * LeafVal)) :=
  fun w => lift_opt (records w !! r) (ReferenceError r) w.

Definition new_record (rec : list (string * LeafVal)) : M ObjId :=
  fun w =>
    let id := fresh (dom (records w)) in
    (set_records (<[id := rec]> (records w)) w, Return id).

(** [state_dict[name] = v] on the record object [r]. *)
Definition record_setitem (r : ObjId) (name : string) (v : LeafVal) : M unit :=
  rec <- get_record r ;;
  modify (fun w => set_records (<[r := PyDict.set name v rec]> (records w)) w).

(** The dictionary behind a parameter group. *)
Definition group_of (w : World) (g : ObjId) : gmap string GroupVal :=
  default ∅ (groups w !! g).

Definition group_getitem (g : ObjId) (k : string) : M GroupVal :=
  fun w => lift_opt (group_of w g !! k) (KeyError k) w.

Definition group_setitem (g : ObjId) (k : string) (v : GroupVal) : M unit :=
  modify (fun w => set_groups (<[g := <[k := v]> (group_of w g)]> (groups w)) w).

(** [torch.set_grad_enabled(b)]. *)
Definition set_grad_enabled (b : bool) : M unit :=
  modify (set_grad_enabled_w b).

(** [with torch.no_grad(): body]: gradient tracking is off inside and set
    back to what it was on the way out. *)
Definition no_grad {A} (body : M A) : M A :=
  with_ (prev <- gets grad_enabled ;; set_grad_enabled false ;; ret prev)
        (fun prev => set_grad_enabled prev)
        body.

(** [with torch.inference_mode(): body]. *)
Definition with_inference_mode {A} (body : M A) : M A :=
  with_ (prev <- gets inference_mode ;;
         modify (set_inference_mode_w true) ;; ret prev)
        (fun prev => modify (set_inference_mode_w prev))
        body.

(** [fake_mode.allow_non_fake_inputs = b] on the mode object [m]. *)
Definition set_allow_non_fake_inputs (m : ObjId) (b : bool) : M unit :=
  modify (fun w =>
    set_allow_non_fake_inputs_w (<[m := b]> (allow_non_fake_inputs w)) w).

Definition numel (shape : list nat) : nat := foldr Nat.mul 1 shape.

(** The tensor [torch.zeros(shape, dtype=dtype, device=device)] builds. *)
Definition zeros_tensor (shape : list nat) (dtype : DType) (device : Device)
  : Tensor :=
  mkTensor shape dtype device None (replicate (numel shape) 0%Z).

Definition torch_zeros (shape : list nat) (dtype : DType) (device : Device)
  : M ObjId :=
  new_tensor (zeros_tensor shape dtype device).

Definition zero_data (t : Tensor) : Tensor :=
  mkTensor (t_shape t) (t_dtype t) (t_device t) (t_fake_mode t)
    (map (fun _ => 0%Z) (t_data t)).

(** [x.zero_()]: in place on a tensor; another value has no such method.
    The tensors of the store carry no autograd attributes, so the refusals
    of torch itself (an in-place write to a leaf that requires grad while
    gradient tracking is on) are not part of this model: on a tensor the
    call here always goes through.  No property below concludes from this
    that a conversion returns, except from a conversion of the same tensors
    that has returned. *)
Definition zero_ (x : LeafVal) : M unit :=
  match x with
  | LTensor id => t <- get_tensor id ;; put_tensor id (zero_data t)
  | LOther _ => raise (AttributeError "zero_")
  end.

(** [isinstance(x, FakeTensor)], returning the placeholder. *)
Definition as_fake_tensor (w : World) (x : LeafVal) : option Tensor :=
  match x with
  | LTensor id =>
      match tensors w !! id with
      | Some t =>
          match t_fake_mode t with
          | Some _ => Some t
          | None => None
          end
      | None => None
      end
  | LOther _ => None
  end.

Definition is_real (t : Tensor) : Prop := t_fake_mode t = None.
Definition all_zero (t : Tensor) : Prop := Forall (fun z => z = 0%Z) (t_data t).

End Py.

(** ** [torch/_dynamo/backends/train_step.py] *)

Module TrainStep.
Import Py PyTree.
Local Open Scope py_scope.

(** A reference to the optimizer object.  The store holds one optimizer,
    the one dynamo attaches to the graph module as [__optimizer_0]. *)
Inductive Optimizer := optimizer_obj.

(** *** [_rematerialize_optimizer] *)

(** The local variables the generator holds across its [yield]. *)
Record Saved := mkSaved {
  orig_states : gmap ObjId ObjId;
  param_group : ObjId;
  orig_params : GroupVal;
}.

(** [if named_states:] is false for [None] and for an empty mapping. *)
Definition truthy {A} (d : option (list A)) : list A := default [] d.

(** Lines 24-37: everything before [try: yield]. *)
Definition _rematerialize_optimizer_enter
    (opt : option Optimizer)
    (named_states : option (list (string * ObjId)))
    (params : list (string * ObjId)) : M Saved :=
  assert_ (bool_decide (is_Some opt)) "" ;;
  orig_states <- gets opt_state ;;
  for_each (PyDict.keys (truthy named_states)) (fun n =>
    v <- lift_opt (PyDict.get n (truthy named_states)) (KeyError n) ;;
    p <- lift_opt (PyDict.get n params) (KeyError n) ;;
    modify (fun w => set_opt_state (<[p := v]> (opt_state w)) w)) ;;
  param_group <- (fun w => lift_opt (opt_param_groups w !! 0%nat) IndexError w) ;;
  orig_params <- group_getitem param_group "params" ;;
  group_setitem param_group "params" (GDictValues params) ;;
  ret (mkSaved orig_states param_group orig_params).

(** Lines 42-43: the [finally] block.  [opt.state.update(orig_states)]
    writes every saved entry over the current map and removes nothing. *)
Definition _rematerialize_optimizer_leave (s : Saved) : M unit :=
  group_setitem (param_group s) "params" (orig_params s) ;;
  modify (fun w => set_opt_state (orig_states s ∪ opt_state w) w).

(** [with _rematerialize_optimizer(opt, named_states, params): body]. *)
Definition _rematerialize_optimizer {A}
    (opt : option Optimizer)
    (named_states : option (list (string * ObjId)))
    (params : list (string * ObjId)) (body : M A) : M A :=
  with_ (_rematerialize_optimizer_enter opt named_states params)
        _rematerialize_optimizer_leave body.

(** *** Collaborators outside this module *)

(** Modelled from the spec: [torch.nn.utils.stateless._reparametrize_module]
    is not part of this module.  The spec has it rebind the module's
    parameters to the given values for the duration of the call and restore
    the original bindings on every exit path. *)
Definition _reparametrize_module {A}
    (params : list (string * ObjId)) (body : M A) : M A :=
  with_ (orig <- gets module_params ;;
         modify (set_module_params (PyDict.merge orig params)) ;;
         ret orig)
        (fun orig => modify (set_module_params orig))
        body.

(** Modelled from the spec: [FakeTensorMode.from_tensor] is not part of this
    module.  The spec has the shape-inference context produce a shape-only
    placeholder for a tensor: an object with the shape, dtype and device of
    the tensor and no data.  The spec does not say which object: here it is
    a new one at every call, where a mode that keeps a cache would give the
    placeholder it made before for the same tensor.  Nothing that is proved
    depends on the placeholders being new or distinct. *)
Definition from_tensor (fake_mode : ObjId) (t : Tensor) : M ObjId :=
  new_tensor
    (mkTensor (t_shape t) (t_dtype t) (t_device t)
       (Some (FakeTensorMode fake_mode)) []).

(** The graph module dynamo hands to the backend: its named parameters and
    buffers (as listed with [remove_duplicate=False]), whether the
    attribute [__optimizer_0] is set on it, the value of that attribute when
    it is (an optimizer or [None]), and what calling it does: the captured
    train step, which may read and write the whole store.  The wrappers of
    this file call it with positional arguments only. *)
Record GraphModule := mkGraphModule {
  named_parameters : list (string * ObjId);
  named_buffers : list (string * ObjId);
  has___optimizer_0 : bool;
  __optimizer_0 : option Optimizer;
  forward : Callable;
}.

(** Line 89, [mod.__optimizer_0]: reading an attribute that is not set
    raises [AttributeError]. *)
Definition getattr___optimizer_0 (mod_ : GraphModule) : M (option Optimizer) :=
  if has___optimizer_0 mod_ then ret (__optimizer_0 mod_)
  else raise (AttributeError "__optimizer_0").

(** The functions of [torch] this module calls and does not define:
    [torch._dynamo.utils.assert_no_fake_params_or_buffers] (an assertion
    about the module: it reads the store and returns or raises),
    [torch.fx.experimental.proxy_tensor.make_fx] (which traces a callable on
    sample arguments and returns the traced graph, itself callable),
    [torch.func.functionalize] and [torch.fx.Interpreter(g).run]. *)
Class Torch := mkTorch {
  assert_no_fake_params_or_buffers : GraphModule -> World -> Outcome unit;
  make_fx : Callable -> list ObjId -> M Callable;
  functionalize : Callable -> Callable;
  Interpreter_run : Callable -> Callable;
}.

(** [isinstance(x, FakeTensor)]. *)
Definition is_fake (w : World) (x : ObjId) : bool :=
  match as_fake_tensor w (LTensor x) with
  | Some _ => true
  | None => false
  end.

(** What the name of [assert_no_fake_params_or_buffers] says: an assertion
    that no buffer and no parameter of the module is a [FakeTensor]. *)
Definition no_fake_params_or_buffers (mod_ : GraphModule) (w : World)
  : Outcome unit :=
  if forallb (fun np : string * ObjId => negb (is_fake w np.2))
       (named_buffers mod_ ++ named_parameters mod_)
  then Return tt
  else Raise (AssertionError "Unexpected fake param or buffer").

(** *** The wrappers traced by [_compile_fn] *)

Definition output_error : Exn :=
  RuntimeError
    "Graph output must be a tuple() to avoid pytree processing of the ouputs.".

(** [isinstance(out, (tuple, list))]. *)
Definition is_tuple_or_list (out : Value) : bool :=
  match out with
  | VTuple _ | VList _ => true
  | _ => false
  end.

(** A flat sequence: a tuple or a list none of whose elements is itself a
    tuple or a list. *)
Definition is_flat_sequence (out : Value) : bool :=
  match out with
  | VTuple vs | VList vs => forallb (fun v => negb (is_tuple_or_list v)) vs
  | _ => false
  end.

(** Lines 105-109 and 173-177. *)
Definition check_output (out : Value) : M Value :=
  if is_tuple_or_list out then ret out else raise output_error.

(** [pytree.tree_unflatten(xs, spec)] for a mapping from names to tensors. *)
Definition unflatten_dict (xs : list ObjId) (spec : TreeSpec)
  : M (list (string * ObjId)) :=
  match tree_unflatten xs spec with
  | None => raise (ValueError "length of the leaves disagrees with the spec")
  | Some t => lift_opt (flat_items t) (TypeError "not a mapping of tensors")
  end.

(** [pytree.tree_unflatten(xs, spec)] for the named states: a mapping from
    parameter names to state records; each record is a new [dict]. *)
Definition unflatten_named_states (xs : list ObjId) (spec : TreeSpec)
  : M (list (string * ObjId)) :=
  match tree_unflatten xs spec with
  | Some (Dict items) =>
      map_m (fun kv : string * tree ObjId =>
               rec <- lift_opt (flat_items kv.2)
                        (TypeError "not a mapping of tensors") ;;
               r <- new_record (map (fun x => (x.1, LTensor x.2)) rec) ;;
               ret (kv.1, r)) items
  | Some _ => raise (TypeError "not a mapping of records")
  | None => raise (ValueError "length of the leaves disagrees with the spec")
  end.

(** Lines 100-103 and 168-171: the call of the module inside the two
    scopes. *)
Definition call_module
    (mod_ : GraphModule) (opt : option Optimizer)
    (named_states : option (list (string * ObjId)))
    (_params_dict : list (string * ObjId)) (_user_args : list ObjId)
  : M Value :=
  _reparametrize_module _params_dict
    (_rematerialize_optimizer opt named_states _params_dict
       (forward mod_ _user_args)).

(** Lines 92-109.  [named_states_len] is the value the enclosing variable
    has when the wrapper is called. *)
Definition functional_call
    (mod_ : GraphModule) (opt : option Optimizer)
    (params_len named_states_len : nat) (params_spec : TreeSpec)
    (lifted_args : list ObjId) : M Value :=
  let _params := take params_len lifted_args in
  _params_dict <- unflatten_dict _params params_spec ;;
  let _user_args := drop (params_len + named_states_len) lifted_args in
  out <- call_module mod_ opt None _params_dict _user_args ;;
  check_output out.

(** Lines 158-177. *)
Definition functional_call_2
    (mod_ : GraphModule) (opt : option Optimizer)
    (params_len named_states_len : nat)
    (params_spec named_states_spec : TreeSpec)
    (lifted_args : list ObjId) : M Value :=
  let _params := take params_len lifted_args in
  _params_dict <- unflatten_dict _params params_spec ;;
  let _named_states :=
    take named_states_len (drop params_len lifted_args) in
  _named_states_dict <-
    unflatten_named_states _named_states named_states_spec ;;
  let _user_args := drop (params_len + named_states_len) lifted_args in
  out <- call_module mod_ opt (Some _named_states_dict) _params_dict
           _user_args ;;
  check_output out.

(** *** [_compile_fn] *)

(** Lines 70-76: [assert isinstance(x, torch.Tensor)], then the mode's
    placeholder for [x]. *)
Definition fakeify_inputs (fake_mode : ObjId) (flat_args : list LeafVal)
  : M (list ObjId) :=
  map_m (fun x =>
    match x with
    | LTensor id =>
        o <- gets (fun w => tensors w !! id) ;;
        match o with
        | Some t => from_tensor fake_mode t
        | None => raise (AssertionError "")
        end
    | LOther _ => raise (AssertionError "")
    end) flat_args.

(** Lines 136-141, one entry of one state record.  [items()] is a live view:
    the entry is read when the loop reaches its key. *)
Definition convert_state (dev : Device) (state_dict : ObjId) (name : string)
  : M unit :=
  rec <- get_record state_dict ;;
  state <- lift_opt (PyDict.get name rec) (KeyError name) ;;
  fk <- gets (fun w => as_fake_tensor w state) ;;
  match fk with
  | Some t =>
      z <- torch_zeros (t_shape t) (t_dtype t) dev ;;
      record_setitem state_dict name (LTensor z)
  | None => ret tt
  end ;;
  rec' <- get_record state_dict ;;
  cur <- lift_opt (PyDict.get name rec') (KeyError name) ;;
  zero_ cur.

(** Lines 134-141, one entry [(fake_param, state_dict)] of [opt.state]. *)
Definition convert_record (dev : Device) (kv : ObjId * ObjId) : M unit :=
  rec <- get_record kv.2 ;;
  for_each (PyDict.keys rec) (convert_state dev kv.2).

(** Lines 134-141: the conversion of the fake optimizer states to real
    ones. *)
Definition convert_fake_states (dev : Device) : M unit :=
  st <- gets opt_state ;;
  for_each (map_to_list st) (convert_record dev).

(** Lines 143-147. *)
Definition build_named_states (fake_params : list (string * ObjId))
  : M (list (string * ObjId)) :=
  st <- gets opt_state ;;
  ret (fold_left (fun acc np =>
                    match st !! np.2 with
                    | Some r => PyDict.set np.1 r acc
                    | None => acc
                    end) fake_params []).

(** Line 149: [pytree.tree_flatten(named_states)] reads the records the
    mapping refers to. *)
Definition flatten_named_states (named_states : list (string * ObjId))
  : M (list LeafVal * TreeSpec) :=
  items <- map_m (fun nr =>
             rec <- get_record nr.2 ;;
             ret (nr.1, of_flat_items rec)) named_states ;;
  ret (tree_flatten (Dict items)).

(** The identities of the tensors among the leaves. *)
Definition leaf_ids (xs : list LeafVal) : list ObjId :=
  omap (fun x => match x with LTensor id => Some id | LOther _ => None end) xs.

(** Lines 201-205. *)
Definition call_without_params
    (functional_fx_g : Callable) (params_flat named_states_flat : list ObjId)
    (runtime_args : list ObjId) : M Value :=
  no_grad (functional_fx_g (params_flat ++ named_states_flat ++ runtime_args)).

(** [t.copy_(d)], the elements only. *)
Definition with_data (t : Tensor) (d : list Z) : Tensor :=
  mkTensor (t_shape t) (t_dtype t) (t_device t) (t_fake_mode t) d.

Definition copy_ (dst : ObjId) (d : list Z) : M unit :=
  t <- get_tensor dst ;; put_tensor dst (with_data t d).

(** Modelled from the spec: [torch.func.functionalize] and the graph that
    [make_fx] makes of its result are not part of this module.  The spec has
    the functionalized graph compute without side effects and end with an
    epilogue that copies every new value back into the slot it came from.
    [step] is the computation without side effects: from the tensors of the
    arguments to the new elements of the first [n] of them, and the
    output. *)
Definition functionalized_graph (n : nat)
    (step : list Tensor -> list (list Z) * Value) : Callable :=
  fun args =>
    ts <- map_m get_tensor args ;;
    for_each (zip (take n args) (step ts).1) (fun dn => copy_ dn.1 dn.2) ;;
    ret (step ts).2.

Section Compile.
Context `{Torch}.

(** Lines 60-207.  [print] writes to the standard output, which is not part
    of the store, and is left out.  After [fakeify_inputs] has asserted that
    every element of [named_states_flat] is a tensor, the sequence is kept
    as the identities of these tensors. *)
Definition _compile_fn (mod_ : GraphModule) (fake_inputs : list ObjId)
  : M Callable :=
  set_grad_enabled true ;;
  check (assert_no_fake_params_or_buffers mod_) ;;
  assert_ (bool_decide (0 < length fake_inputs)) "Expected at least one input" ;;
  x0 <- lift_opt (fake_inputs !! 0%nat) IndexError ;;
  fm <- (fun w => lift_opt (tensors w !! x0 ≫= t_fake_mode)
                    (AttributeError "fake_mode") w) ;;
  fake_mode <- match fm with
               | FakeTensorMode m => ret m
               | NotAMode =>
                   raise (AssertionError
                            "Expected a valid FakeTensorMode on dynamo inputs")
               end ;;
  let params :=
    PyDict.merge (PyDict.of_pairs (named_parameters mod_))
                 (PyDict.of_pairs (named_buffers mod_)) in
  let '(params_flat, params_spec) := tree_flatten (of_flat_items params) in
  let params_len := length params_flat in
  fake_params_flat <- fakeify_inputs fake_mode (map LTensor params_flat) ;;
  opt <- getattr___optimizer_0 mod_ ;;
  p0 <- lift_opt (params_flat !! 0%nat) IndexError ;;
  t0 <- get_tensor p0 ;;
  let dev := t_device t0 in
  set_allow_non_fake_inputs fake_mode true ;;
  first_loss <- functional_call mod_ opt params_len 0 params_spec
                  (fake_params_flat ++ fake_inputs) ;;
  set_allow_non_fake_inputs fake_mode false ;;
  convert_fake_states dev ;;
  fake_params <- unflatten_dict fake_params_flat params_spec ;;
  named_states <- build_named_states fake_params ;;
  '(named_states_flat, named_states_spec) <-
     flatten_named_states named_states ;;
  fake_named_states_flat <- fakeify_inputs fake_mode named_states_flat ;;
  let named_states_len := length named_states_flat in
  let full_fake_args :=
    fake_params_flat ++ fake_named_states_flat ++ fake_inputs in
  fx_g <- make_fx (functional_call_2 mod_ opt params_len named_states_len
                     params_spec named_states_spec) full_fake_args ;;
  set_grad_enabled false ;;
  let retraced_f := Interpreter_run fx_g in
  functional_fx_g <-
    with_inference_mode (make_fx (functionalize retraced_f) full_fake_args) ;;
  ret (call_without_params functional_fx_g params_flat
         (leaf_ids named_states_flat)).

(** Lines 46-209: the backend argument is not used. *)
Definition train_step_compiler {B} (backend_compile_fn : B)
  : GraphModule -> list ObjId -> M Callable :=
  _compile_fn.

End Compile.

End TrainStep.

(** ** [torch/distributed/_spmd/parallel_mode.py] *)

Module ParallelMode.
Import Py PyTree.

(** [torch.distributed._tensor]: placements, device meshes, schemas. *)
Inductive Placement := Replicate | Shard (dim : nat).

Record DeviceMesh := mkDeviceMesh {
  device_type : string;
  mesh : list nat;
}.

Record Schema := mkSchema {
  schema_mesh : DeviceMesh;
  placements : list Placement;
}.

(** A value handed to the converter: a tensor the caller gave, by identity,
    or the new empty tensor [torch.empty(0)]. *)
Inductive Inp := Given (id : ObjId) | Empty0.

(** The result of the conversion: the source graph with its inputs annotated
    by the schema each was placed under. *)
Record DistGraph (GM : Type) := mkDistGraph {
  dg_source : GM;
  dg_inputs : list (Inp * Schema);
}.
Global Arguments mkDistGraph {GM} _ _.
Global Arguments dg_source {GM} _.
Global Arguments dg_inputs {GM} _.

(** An instance of [DTensorFallbackMode] (lines 45-47). *)
Record DTensorFallbackMode := mkDTensorFallbackMode {
  _placements_override : gmap ObjId (list Placement);
  _optimization_passes : list ObjId;
}.

Definition __init__ : DTensorFallbackMode := mkDTensorFallbackMode ∅ [].

Definition obind {A B} (o : Outcome A) (k : A -> Outcome B) : Outcome B :=
  match o with
  | Return a => k a
  | Raise e => Raise e
  end.

Section Expand.
Context {GM : Type}.

(** Modelled from the spec:
    [torch.distributed._spmd.distribute._convert_to_distributed] is not part
    of this module.  The spec has it take the single-device graph, the value
    sequence and the schema sequence; when partial (best-effort) conversion
    is disallowed, a value that cannot be placed under its schema is the
    hard failure [PlacementConversionFailure]; a best-effort conversion
    would fall back to replication for such a value.  [can_place] says
    which values can be placed under which schema. *)
Definition _convert_to_distributed (can_place : Inp -> Schema -> bool)
    (gm : GM) (inps : list Inp) (schemas : list Schema)
    (_allow_partial : bool) : Outcome (DistGraph GM) :=
  let placed := zip inps schemas in
  if forallb (fun vs => can_place vs.1 vs.2) placed then
    Return (mkDistGraph gm placed)
  else if _allow_partial then
    Return (mkDistGraph gm
              (map (fun vs : Inp * Schema =>
                      if can_place vs.1 vs.2 then vs
                      else (vs.1, mkSchema (schema_mesh vs.2) [Replicate]))
                   placed))
  else Raise PlacementConversionFailure.

(** Lines 66-69: one step of the loop over the parameters and buffers. *)
Definition add_param (replicate_schema : Schema)
    (acc : list Inp * list Schema) (p : LeafVal)
  : Outcome (list Inp * list Schema) :=
  match p with
  | LTensor id => Return (acc.1 ++ [Given id], acc.2 ++ [replicate_schema])
  | LOther _ =>
      Raise (AssertionError
               (String.append "expecting Tensor but got " (type_repr p)))
  end.

(** Lines 71-77: one step of the loop over the named states. *)
Definition add_state (replicate_schema : Schema)
    (acc : list Inp * list Schema) (o : LeafVal) : list Inp * list Schema :=
  match o with
  | LTensor id => (acc.1 ++ [Given id], acc.2 ++ [replicate_schema])
  | LOther _ => (acc.1 ++ [Empty0], acc.2 ++ [replicate_schema])
  end.

(** Lines 79-95: one step of the loop over the arguments. *)
Definition add_arg (self : DTensorFallbackMode) (m : DeviceMesh)
    (shard_schema : Schema)
    (acc : list Inp * list Schema) (a : LeafVal) : list Inp * list Schema :=
  match a with
  | LTensor id =>
      (acc.1 ++ [Given id],
       acc.2 ++ [match _placements_override self !! id with
                 | Some pl => mkSchema m pl
                 | None => shard_schema
                 end])
  | LOther _ => (acc.1 ++ [Empty0], acc.2 ++ [shard_schema])
  end.

Fixpoint fold_outcome {A B} (f : B -> A -> Outcome B) (l : list A) (b : B)
  : Outcome B :=
  match l with
  | [] => Return b
  | x :: l' => obind (f b x) (fold_outcome f l')
  end.

(** Lines 57-95: the two sequences [inps] and [schemas].  [world_size] is
    [dist.get_world_size()]. *)
Definition expand_inputs (self : DTensorFallbackMode) (world_size : nat)
    (params_and_buffers named_states : list (string * tree LeafVal))
    (args : list (tree LeafVal)) (kwargs : list (string * tree LeafVal))
  : Outcome (list Inp * list Schema) :=
  let flat_args := (tree_flatten (PyList (args ++ PyDict.values kwargs))).1 in
  let m := mkDeviceMesh "cuda" (seq 0 world_size) in
  let shard_schema := mkSchema m [Shard 0] in
  let replicate_schema := mkSchema m [Replicate] in
  obind
    (fold_outcome (add_param replicate_schema)
       (tree_flatten (Dict params_and_buffers)).1 ([], []))
    (fun acc =>
       let acc := fold_left (add_state replicate_schema)
                    (tree_flatten (Dict named_states)).1 acc in
       Return (fold_left (add_arg self m shard_schema) flat_args acc)).

(** Lines 49-97, for any converter. *)
Definition expand_with
    (convert : GM -> list Inp -> list Schema -> bool -> Outcome (DistGraph GM))
    (self : DTensorFallbackMode) (world_size : nat) (gm : GM)
    (params_and_buffers named_states : list (string * tree LeafVal))
    (args : list (tree LeafVal)) (kwargs : list (string * tree LeafVal))
  : Outcome (DistGraph GM) :=
  obind (expand_inputs self world_size params_and_buffers named_states
           args kwargs)
    (fun iv => convert gm iv.1 iv.2 false).

(** [DTensorFallbackMode.expand]. *)
Definition expand (can_place : Inp -> Schema -> bool) :=
  expand_with (_convert_to_distributed can_place).

(** *** Classes, abstract methods and method lookup *)

Inductive MethodName := m_expand | m_optimize | m_configure_optimization_passes.

(** The method bodies this file contains. *)
Inductive Body := RaiseNotImplementedError | FallbackExpand.

Record MethodDef := mkMethodDef {
  is_abstractmethod : bool;
  body : Body;
}.

Inductive PyClass :=
| ABC
| Class_ (base : PyClass) (methods : list (MethodName * MethodDef)).

(** Lines 13-36. *)
Definition ParallelMode_class : PyClass :=
  Class_ ABC
    [(m_expand, mkMethodDef true RaiseNotImplementedError);
     (m_optimize, mkMethodDef true RaiseNotImplementedError);
     (m_configure_optimization_passes,
        mkMethodDef false RaiseNotImplementedError)].

(** Lines 39-101. *)
Definition DTensorFallbackMode_class : PyClass :=
  Class_ ParallelMode_class
    [(m_expand, mkMethodDef false FallbackExpand);
     (m_optimize, mkMethodDef false RaiseNotImplementedError)].

Global Instance MethodName_eq_dec : EqDecision MethodName.
Proof. solve_decision. Defined.

(** Attribute lookup along the base classes. *)
Fixpoint lookup_method (c : PyClass) (m : MethodName) : option MethodDef :=
  match c with
  | ABC => None
  | Class_ base methods =>
      match PyDict.get m methods with
      | Some d => Some d
      | None => lookup_method base m
      end
  end.

(** [cls.__abstractmethods__]: the names whose definition, as the class sees
    it, is still marked abstract. *)
Definition abstractmethods (c : PyClass) : list MethodName :=
  List.filter (fun m => match lookup_method c m with
                        | Some d => is_abstractmethod d
                        | None => false
                        end)
    [m_expand; m_optimize; m_configure_optimization_passes].

(** [cls()]: a class with abstract methods left cannot be instantiated. *)
Definition instantiate (c : PyClass) : Outcome DTensorFallbackMode :=
  match abstractmethods c with
  | [] => Return __init__
  | _ :: _ =>
      Raise (TypeError "Can't instantiate abstract class with abstract methods")
  end.

Inductive MethodCall :=
| call_expand (world_size : nat) (gm : GM)
    (params_and_buffers named_states : list (string * tree LeafVal))
    (args : list (tree LeafVal)) (kwargs : list (string * tree LeafVal))
| call_optimize (gm : GM)
| call_configure_optimization_passes (passes : list ObjId).

Definition method_of (c : MethodCall) : MethodName :=
  match c with
  | call_expand _ _ _ _ _ _ => m_expand
  | call_optimize _ => m_optimize
  | call_configure_optimization_passes _ => m_configure_optimization_passes
  end.

(** [self.method(...)] on an instance [self] of class [c]. *)
Definition invoke (can_place : Inp -> Schema -> bool) (c : PyClass)
    (self : DTensorFallbackMode) (call : MethodCall)
  : Outcome (option (DistGraph GM)) :=
  match lookup_method c (method_of call) with
  | None => Raise (AttributeError "no such method")
  | Some d =>
      match body d, call with
      | FallbackExpand, call_expand ws gm ps ns args kwargs =>
          obind (expand can_place self ws gm ps ns args kwargs)
            (fun g => Return (Some g))
      | FallbackExpand, _ => Raise (TypeError "wrong arguments")
      | RaiseNotImplementedError, _ => Raise NotImplementedError
      end
  end.

End Expand.
End ParallelMode.

(** ** Predicates used to state the properties of the warm-up pass *)

Module WarmUpPredicates.
Import Py TrainStep.

Section Pass.
Variable dev : Device.
(** The store when the pass begins. *)
Variable w0 : World.

(** What the pass leaves under an entry that began as [x0]: a real tensor,
    all zero; new, with the shape and dtype of the placeholder and on
    [dev], when [x0] was a placeholder; the tensor [x0] itself, zeroed in
    place, otherwise. *)
Definition converted (x0 : LeafVal) (w : World) (x : LeafVal) : Prop :=
  ∃ id t,
    x = LTensor id ∧ tensors w !! id = Some t ∧ is_real t ∧ all_zero t ∧
    match as_fake_tensor w0 x0 with
    | Some ph =>
        tensors w0 !! id = None ∧
        t = zeros_tensor (t_shape ph) (t_dtype ph) dev
    | None =>
        x0 = x ∧ ∀ t0, tensors w0 !! id = Some t0 → t = zero_data t0
    end.

(** The invariant of the two loops; [V r name] says that the entry [name]
    of the record [r] has been visited. *)
Record pass_inv (V : ObjId → string → Prop) (w : World) : Prop := mk_pass_inv {
  inv_opt_state : opt_state w = opt_state w0;
  inv_old : ∀ id t0, tensors w0 !! id = Some t0 →
    tensors w !! id = Some t0 ∨
    (t_fake_mode t0 = None ∧ tensors w !! id = Some (zero_data t0));
  inv_new : ∀ id t, tensors w0 !! id = None → tensors w !! id = Some t →
    is_real t ∧ all_zero t;
  inv_no_new_record : ∀ r, records w0 !! r = None → records w !! r = None;
  inv_records : ∀ r rec0, records w0 !! r = Some rec0 →
    ∃ rec, records w !! r = Some rec ∧
      PyDict.keys rec = PyDict.keys rec0 ∧
      ∀ name x0, PyDict.get name rec0 = Some x0 →
        ∃ x, PyDict.get name rec = Some x ∧
          (converted x0 w x ∨ (¬ V r name ∧ x = x0));
}.

End Pass.
Global Arguments inv_opt_state {dev w0 V w} _.
Global Arguments inv_old {dev w0 V w} _ _ _ _.
Global Arguments inv_new {dev w0 V w} _ _ _ _ _.
Global Arguments inv_no_new_record {dev w0 V w} _ _ _.
Global Arguments inv_records {dev w0 V w} _ _ _ _.
End WarmUpPredicates.


(** ** Computations that leave [allow_non_fake_inputs] alone *)

Module FlagPredicates.
Import Py TrainStep.

(** The computation does not write the attribute [allow_non_fake_inputs]
    of any mode, whether it returns or raises. *)
Definition keeps_flags {A} (c : M A) : Prop :=
  ∀ w, allow_non_fake_inputs (c w).1 = allow_non_fake_inputs w.

Definition callable_keeps_flags (f : Callable) : Prop :=
  ∀ args, keeps_flags (f args).

(** Tracing, functionalization and interpretation do not write the
    attribute themselves: they write it only if the callable they run
    does, and the graphs they return are like the callable in this. *)
Record tracing_keeps_flags (T : Torch) : Prop := mk_tracing_keeps_flags {
  make_fx_keeps : ∀ f args,
    callable_keeps_flags f → keeps_flags (make_fx f args);
  make_fx_graph_keeps : ∀ f args w w' g,
    callable_keeps_flags f → make_fx f args w = (w', Return g) →
    callable_keeps_flags g;
  functionalize_keeps : ∀ f,
    callable_keeps_flags f → callable_keeps_flags (functionalize f);
  Interpreter_run_keeps : ∀ f,
    callable_keeps_flags f → callable_keeps_flags (Interpreter_run f);
}.

(** The mapping [params] of line 81 and its flat sequence [params_flat]. *)
Definition params_of (mod_ : GraphModule) : list (string * ObjId) :=
  PyDict.merge (PyDict.of_pairs (named_parameters mod_))
               (PyDict.of_pairs (named_buffers mod_)).

Definition params_flat_of (mod_ : GraphModule) : list ObjId :=
  PyTree.leaves (PyTree.of_flat_items (params_of mod_)).

Definition params_spec_of (mod_ : GraphModule) : PyTree.TreeSpec :=
  PyTree.spec_of (PyTree.of_flat_items (params_of mod_)).

End FlagPredicates.

(** ** What [expand] gives each leaf *)

Module ParallelPredicates.
Import Py ParallelMode.

(** The value a leaf contributes to [inps]. *)
Definition inp_of (x : LeafVal) : Inp :=
  match x with
  | LTensor id => Given id
  | LOther _ => Empty0
  end.

Definition is_tensor (x : LeafVal) : bool :=
  match x with
  | LTensor _ => true
  | LOther _ => false
  end.

(** The schema an argument gets (lines 80-95). *)
Definition arg_schema (self : DTensorFallbackMode) (world_size : nat) (a : LeafVal) : Schema :=
  let m := mkDeviceMesh "cuda" (seq 0 world_size) in
  match a with
  | LTensor id =>
      match _placements_override self !! id with
      | Some pl => mkSchema m pl
      | None => mkSchema m [Shard 0]
      end
  | LOther _ => mkSchema m [Shard 0]
  end.

End ParallelPredicates.

(** ** Concrete stores and modules used in the examples *)

Module Examples.
Import Py PyTree TrainStep.
Local Open Scope py_scope.

(** A store with an empty state map and one parameter group. *)
Definition remat_world : World :=
  mkWorld true false ∅ ∅ ∅
    (<[20%positive := <["params" := GObj 30%positive]> ∅]> ∅)
    ∅ [20%positive] [].

(** A store whose optimizer holds one state record, the record 50 of the
    parameter 1, with a real tensor under ["exp_avg"]. *)
Definition stateful_world : World :=
  mkWorld true false ∅
    (<[1%positive := mkTensor [2] float32 cpu None [5%Z; 7%Z]]>
       (<[4%positive := mkTensor [2] float32 cpu None [1%Z; 2%Z]]>
          (<[6%positive := mkTensor [2] float32 cpu None [8%Z; 9%Z]]> ∅)))
    (<[50%positive := [("exp_avg", LTensor 4%positive)]]> ∅)
    (<[20%positive := <["params" := GObj 30%positive]> ∅]> ∅)
    (<[1%positive := 50%positive]> ∅) [20%positive] [].

(** A store whose optimizer holds a state that is no tensor (a step count
    kept as a number). *)
Definition counting_world : World :=
  set_records (<[50%positive := [("step", LOther 0)]]> ∅) stateful_world.

(** A store as a warm-up call leaves it.  Tensor 1 is the real parameter,
    on [cuda:0]; tensor 3 is its placeholder, under which the optimizer has
    filed a state record with two placeholders: ["step"], a scalar on the
    CPU, and ["exp_avg"], shaped like the parameter and on its device. *)
Definition warm_world : World :=
  mkWorld true false (<[9%positive := false]> ∅)
    (<[1%positive := mkTensor [2] float32 (cuda 0) None [5%Z; 7%Z]]>
       (<[3%positive :=
            mkTensor [2] float32 (cuda 0) (Some (FakeTensorMode 9%positive)) []]>
          (<[4%positive :=
               mkTensor [] float32 cpu (Some (FakeTensorMode 9%positive)) []]>
             (<[5%positive :=
                  mkTensor [2] float32 (cuda 0)
                    (Some (FakeTensorMode 9%positive)) []]> ∅))))
    (<[50%positive := [("step", LTensor 4%positive);
                       ("exp_avg", LTensor 5%positive)]]> ∅)
    (<[20%positive := <["params" := GObj 30%positive]> ∅]> ∅)
    (<[3%positive := 50%positive]> ∅) [20%positive] [].

(** A [make_fx] that traces by running the callable once on the sample
    arguments; the graph it returns behaves as the callable does. *)
Definition trace_by_running (f : Callable) (args : list ObjId) : M Callable :=
  f args ;; ret f.

Definition demo_torch : Torch :=
  mkTorch no_fake_params_or_buffers trace_by_running (fun f => f) (fun f => f).

(** An optimizer step in the manner of Adam: for a parameter without state,
    file a record with a scalar ["step"] on the CPU and an ["exp_avg"] like
    the parameter, both placeholders when the parameter is one. *)
Definition adam_like_init (p : ObjId) : M unit :=
  st <- gets opt_state ;;
  match st !! p with
  | Some _ => ret tt
  | None =>
      t <- get_tensor p ;;
      s1 <- new_tensor (mkTensor [] float32 cpu (t_fake_mode t) []) ;;
      s2 <- new_tensor (mkTensor (t_shape t) (t_dtype t) (t_device t)
                          (t_fake_mode t) []) ;;
      r <- new_record [("step", LTensor s1); ("exp_avg", LTensor s2)] ;;
      modify (fun w => set_opt_state (<[p := r]> (opt_state w)) w)
  end.

(** A train step: the optimizer steps over the parameters of its first
    group, and the step returns [out]. *)
Definition train_step (out : Value) : Callable := fun _ =>
  g <- (fun w => lift_opt (opt_param_groups w !! 0%nat) IndexError w) ;;
  ps <- group_getitem g "params" ;;
  match ps with
  | GDictValues d => for_each (PyDict.values d) adam_like_init
  | _ => ret tt
  end ;;
  ret out.

(** A module with one parameter, the tensor 1. *)
Definition demo_module (out : Value) : GraphModule :=
  mkGraphModule [("w", 1%positive)] [] true (Some optimizer_obj)
    (train_step out).

(** A store for it: the real parameter 1 on [cuda:0], the placeholder input
    2 of the mode 9, whose [allow_non_fake_inputs] is [flag], and an
    optimizer with no state and one parameter group. *)
Definition compile_world (flag : bool) : World :=
  mkWorld false false (<[9%positive := flag]> ∅)
    (<[1%positive := mkTensor [2] float32 (cuda 0) None [5%Z; 7%Z]]>
       (<[2%positive :=
            mkTensor [3] float32 (cuda 0) (Some (FakeTensorMode 9%positive)) []]>
          ∅))
    ∅
    (<[20%positive := <["params" := GObj 30%positive]> ∅]> ∅)
    ∅ [20%positive] [("w", 1%positive)].

(** The same store with the parameter 1 a placeholder. *)
Definition fake_param_world : World :=
  set_tensors
    (<[1%positive :=
         mkTensor [2] float32 (cuda 0) (Some (FakeTensorMode 9%positive)) []]>
       (tensors (compile_world false)))
    (compile_world false).

(** An output that is a tuple without being flat: a tuple inside a tuple. *)
Definition nested_output : Value := VTuple [VNone; VTuple [VNone; VNone]].

(** Whether a computation returned. *)
Definition returned {A} (r : World * Outcome A) : bool :=
  match r.2 with
  | Return _ => true
  | Raise _ => false
  end.

End Examples.

Module ParallelExamples.
Import Py PyTree ParallelMode.

(** A fallback mode in which the tensor 7 is registered with the override
    placement [Replicate]. *)
Definition mode_with_override : DTensorFallbackMode :=
  mkDTensorFallbackMode (<[7%positive := [Replicate]]> ∅) [].

(** A strategy that defines [expand] and nothing else. *)
Definition ExpandOnly_class : PyClass :=
  Class_ ParallelMode_class [(m_expand, mkMethodDef false FallbackExpand)].

(** A converter that can shard on dimension 0 every tensor but the tensor 8
    (as a tensor of dimension 0 cannot be), and can replicate anything. *)
Definition cannot_shard_8 (v : Inp) (s : Schema) : bool :=
  match v, placements s with
  | Given 8%positive, [Shard 0] => false
  | _, _ => true
  end.

End ParallelExamples.

(** ** Closed forms and predicates for the scope and the conversion *)

Module ScopePredicates.
Import Py TrainStep.

(** Lines 28-31 as a function of the state map: the map the loop leaves
    after it has run over [names]. *)
Definition merge_states (named_states params : list (string * ObjId))
    (names : list string) (st : gmap ObjId ObjId) : gmap ObjId ObjId :=
  fold_left (fun st n =>
               match PyDict.get n named_states, PyDict.get n params with
               | Some v, Some p => <[p := v]> st
               | _, _ => st
               end) names st.

(** The exception of lines 34-35 when the optimizer has no parameter group,
    or its first group has no entry ["params"]. *)
Definition no_params_entry (w : World) : Exn :=
  match opt_param_groups w !! 0%nat with
  | None => IndexError
  | Some _ => KeyError "params"
  end.

End ScopePredicates.

Module StatePredicates.
Import Py TrainStep.

(** A leaf that refers to a tensor refers to one the store holds. *)
Definition leaf_live (w : World) (x : LeafVal) : bool :=
  match x with
  | LTensor id =>
      match tensors w !! id with
      | Some _ => true
      | None => false
      end
  | LOther _ => true
  end.

(** [isinstance(x, torch.Tensor)]. *)
Definition is_tensor_leaf (x : LeafVal) : bool :=
  match x with
  | LTensor _ => true
  | LOther _ => false
  end.

(** The leaf is a real tensor all of whose elements are zero. *)
Definition zero_entry (w : World) (x : LeafVal) : Prop :=
  exists id t, x = LTensor id /\ tensors w !! id = Some t /\
    is_real t /\ all_zero t.

(** The store apart from its tensors and its records. *)
Definition without_tensors_and_records (w : World) : World :=
  set_tensors ∅ (set_records ∅ w).

(** The placeholder [from_tensor] makes of [t] in the mode [m]. *)
Definition placeholder_of (m : ObjId) (t : Tensor) : Tensor :=
  mkTensor (t_shape t) (t_dtype t) (t_device t) (Some (FakeTensorMode m)) [].

End StatePredicates.

(** ** Computations that leave an observation of the store alone *)

Module FramePredicates.
Import Py TrainStep.

(** The computation leaves the observation [f] of the store as it found it,
    whether it returns or raises. *)
Definition preserves {X A} (f : World -> X) (c : M A) : Prop :=
  forall w, f (c w).1 = f w.

Definition callable_preserves {X} (f : World -> X) (g : Callable) : Prop :=
  forall args, preserves f (g args).

(** Tracing, functionalization and interpretation change [f] only if the
    callable they run does, and the graphs they return are like the
    callable in this. *)
Record tracing_preserves {X} (f : World -> X) (T : Torch) : Prop :=
  mk_tracing_preserves {
  make_fx_preserves : forall g args,
    callable_preserves f g -> preserves f (make_fx g args);
  make_fx_graph_preserves : forall g args w w' fx_g,
    callable_preserves f g -> make_fx g args w = (w', Return fx_g) ->
    callable_preserves f fx_g;
  functionalize_preserves : forall g,
    callable_preserves f g -> callable_preserves f (functionalize g);
  Interpreter_run_preserves : forall g,
    callable_preserves f g -> callable_preserves f (Interpreter_run g);
}.

End FramePredicates.

(** ** The run of [_compile_fn], line by line *)

Module TracePredicates.
Import Py PyTree TrainStep FlagPredicates.

(** The values a run of [_compile_fn] that returns goes through. *)
Record Trace := mkTrace {
  (** line 65 *)
  tr_fake_mode : ObjId;
  (** line 87, and the store it leaves *)
  tr_fake_params_flat : list ObjId;
  tr_after_fakeify : World;
  (** line 118 *)
  tr_dev : Device;
  (** line 130, and the store it leaves *)
  tr_first_loss : Value;
  tr_after_warm_up : World;
  (** the store lines 134-141 leave *)
  tr_after_conversion : World;
  (** line 144 *)
  tr_fake_params : list (string * ObjId);
  (** lines 143-147 *)
  tr_named_states : list (string * ObjId);
  (** line 149 *)
  tr_named_states_flat : list LeafVal;
  tr_named_states_spec : TreeSpec;
  (** line 150, and the store it leaves *)
  tr_fake_named_states_flat : list ObjId;
  tr_before_trace : World;
  (** line 179, and the store it leaves *)
  tr_fx_g : Callable;
  tr_after_trace : World;
  (** line 192 *)
  tr_functional_fx_g : Callable;
}.

Section Compilation.
Context `{Torch}.

(** [_compile_fn mod_ fake_inputs], started in [w], goes through the values
    of [tr], leaves the store [w'] and returns [c]: each statement of lines
    62-207 in turn, with the store it starts in and the store it leaves. *)
Definition compilation (mod_ : GraphModule) (fake_inputs : list ObjId)
    (w : World) (tr : Trace) (w' : World) (c : Callable) : Prop :=
  let params_flat := params_flat_of mod_ in
  let params_spec := params_spec_of mod_ in
  let params_len := length params_flat in
  let opt := __optimizer_0 mod_ in
  let m := tr_fake_mode tr in
  let fake_params_flat := tr_fake_params_flat tr in
  let named_states_flat := tr_named_states_flat tr in
  let full_fake_args :=
    fake_params_flat ++ tr_fake_named_states_flat tr ++ fake_inputs in
  (* lines 62-63 *)
  assert_no_fake_params_or_buffers mod_ (set_grad_enabled_w true w)
    = Return tt ∧
  (* lines 64-68 *)
  (∃ x0 tx, fake_inputs !! 0%nat = Some x0 ∧ tensors w !! x0 = Some tx ∧
            t_fake_mode tx = Some (FakeTensorMode m)) ∧
  (* lines 81-87 *)
  fakeify_inputs m (map LTensor params_flat) (set_grad_enabled_w true w)
    = (tr_after_fakeify tr, Return fake_params_flat) ∧
  (* line 89 *)
  has___optimizer_0 mod_ = true ∧
  (* line 118 *)
  (∃ p0 t0, params_flat !! 0%nat = Some p0 ∧
            tensors (tr_after_fakeify tr) !! p0 = Some t0 ∧
            tr_dev tr = t_device t0) ∧
  (* lines 129-130 *)
  functional_call mod_ opt params_len 0 params_spec
    (fake_params_flat ++ fake_inputs)
    (set_allow_non_fake_inputs_w
       (<[m := true]> (allow_non_fake_inputs (tr_after_fakeify tr)))
       (tr_after_fakeify tr))
    = (tr_after_warm_up tr, Return (tr_first_loss tr)) ∧
  (* lines 131-141 *)
  convert_fake_states (tr_dev tr)
    (set_allow_non_fake_inputs_w
       (<[m := false]> (allow_non_fake_inputs (tr_after_warm_up tr)))
       (tr_after_warm_up tr))
    = (tr_after_conversion tr, Return tt) ∧
  (* lines 143-149 *)
  unflatten_dict fake_params_flat params_spec (tr_after_conversion tr)
    = (tr_after_conversion tr, Return (tr_fake_params tr)) ∧
  build_named_states (tr_fake_params tr) (tr_after_conversion tr)
    = (tr_after_conversion tr, Return (tr_named_states tr)) ∧
  flatten_named_states (tr_named_states tr) (tr_after_conversion tr)
    = (tr_after_conversion tr,
       Return (named_states_flat, tr_named_states_spec tr)) ∧
  (* line 150 *)
  fakeify_inputs m named_states_flat (tr_after_conversion tr)
    = (tr_before_trace tr, Return (tr_fake_named_states_flat tr)) ∧
  (* lines 151-179 *)
  make_fx (functional_call_2 mod_ opt params_len (length named_states_flat)
             params_spec (tr_named_states_spec tr))
    full_fake_args (tr_before_trace tr)
    = (tr_after_trace tr, Return (tr_fx_g tr)) ∧
  (* lines 180-192 *)
  with_inference_mode
    (make_fx (functionalize (Interpreter_run (tr_fx_g tr))) full_fake_args)
    (set_grad_enabled_w false (tr_after_trace tr))
    = (w', Return (tr_functional_fx_g tr)) ∧
  (* lines 201-207 *)
  c = call_without_params (tr_functional_fx_g tr) params_flat
        (leaf_ids named_states_flat).

End Compilation.
End TracePredicates.

(** ** Further stores and modules used in the examples *)

Module MoreExamples.
Import Py PyTree TrainStep Examples.
Local Open Scope py_scope.

(** A store whose optimizer has no parameter group. *)
Definition no_group_world : World :=
  mkWorld true false ∅ ∅ ∅ ∅ ∅ [] [].

(** A module without parameters and buffers. *)
Definition stateless_module : GraphModule :=
  mkGraphModule [] [] true (Some optimizer_obj) (train_step (VTuple [VNone])).

(** A module with the parameter 1 and no optimizer attached. *)
Definition module_without_optimizer : GraphModule :=
  mkGraphModule [("w", 1%positive)] [] true None
    (train_step (VTuple [VNone])).

(** A module with the parameter 1 on which the attribute
    [__optimizer_0] is not set. *)
Definition module_without_attribute : GraphModule :=
  mkGraphModule [("w", 1%positive)] [] false None
    (train_step (VTuple [VNone])).

(** A computation without side effects: every element of the first [n]
    arguments plus one. *)
Definition add_one (n : nat) (ts : list Tensor) : list (list Z) * Value :=
  (map (fun t => map Z.succ (t_data t)) (take n ts), VTuple [VNone]).

(** A [make_fx] that runs the callable once on the sample arguments and
    returns a functionalized graph, the one of [add_one] on the first [n]
    arguments. *)
Definition functionalizing_torch (n : nat) : Torch :=
  mkTorch no_fake_params_or_buffers
    (fun f args => f args ;; ret (functionalized_graph n (add_one n)))
    (fun f => f) (fun f => f).

End MoreExamples.

(** * Part II: properties *)

(** ** Dictionaries *)

Module PyDictFacts.
Section Facts.
Context {K V : Type} `{EqDecision K}.
Implicit Types (k : K) (v : V) (d : list (K * V)).

Lemma get_set_eq k v d : PyDict.get k (PyDict.set k v d) = Some v.
Proof.
  induction d as [|[k' v'] d IH]; simpl.
  - by rewrite decide_True.
  - destruct (decide (k' = k)) as [->|Hne]; simpl.
    + by rewrite decide_True.
    + by rewrite decide_False.
Qed.

Lemma get_set_ne k k' v d :
  k ≠ k' → PyDict.get k' (PyDict.set k v d) = PyDict.get k' d.
Proof.
  intros Hne. induction d as [|[k0 v0] d IH]; simpl.
  - by rewrite decide_False.
  - destruct (decide (k0 = k)) as [->|Hne0]; simpl.
    + by rewrite !decide_False.
    + destruct (decide (k0 = k')); [done | apply IH].
Qed.

Lemma keys_set_present k v d :
  is_Some (PyDict.get k d) → PyDict.keys (PyDict.set k v d) = PyDict.keys d.
Proof.
  unfold PyDict.keys. induction d as [|[k0 v0] d IH]; simpl.
  - by intros [? ?].
  - destruct (decide (k0 = k)) as [->|Hne]; simpl; [done|].
    intros Hs. by rewrite IH.
Qed.

Lemma get_of_key k d : k ∈ PyDict.keys d → is_Some (PyDict.get k d).
Proof.
  unfold PyDict.keys. induction d as [|[k0 v0] d IH]; simpl.
  - by intros Hin%elem_of_nil.
  - destruct (decide (k0 = k)) as [->|Hne]; [by eexists|].
    intros [Heq|Hin]%elem_of_cons; [by subst | by apply IH].
Qed.

Lemma key_of_get k v d : PyDict.get k d = Some v → k ∈ PyDict.keys d.
Proof.
  unfold PyDict.keys. induction d as [|[k0 v0] d IH]; simpl; [done|].
  destruct (decide (k0 = k)) as [->|Hne]; intros Hg.
  - apply list_elem_of_here.
  - apply list_elem_of_further. by apply IH.
Qed.
End Facts.
End PyDictFacts.

(** ** The structure flattener *)

Module PyTreeFacts.
Import PyTree.
Section Facts.
Context {A : Type}.
Implicit Types (t : tree A) (xs rest : list A).

(** Induction on a tree with the hypothesis for every child. *)
Lemma tree_nested_ind (P : tree A → Prop) :
  (∀ a, P (Leaf a)) →
  (∀ items, Forall (λ kv, P kv.2) items → P (Dict items)) →
  (∀ ts, Forall P ts → P (PyList ts)) →
  (∀ ts, Forall P ts → P (PyTuple ts)) →
  ∀ t, P t.
Proof.
  intros HL HD HLi HT.
  fix IH 1. intros [a|items|ts|ts].
  - apply HL.
  - apply HD. induction items as [|[k c] items IHi]; constructor; [apply IH | apply IHi].
  - apply HLi. induction ts as [|c ts IHt]; constructor; [apply IH | apply IHt].
  - apply HT. induction ts as [|c ts IHt]; constructor; [apply IH | apply IHt].
Qed.

Lemma num_leaves_spec_of t : num_leaves (spec_of t) = length (leaves t).
Proof.
  induction t as [a|items IH|ts IH|ts IH] using tree_nested_ind; simpl; [done| | |].
  - induction IH as [|[k c] items Hc _ IHi]; simpl in *; [done|].
    rewrite length_app. by rewrite Hc, IHi.
  - induction IH as [|c ts Hc _ IHt]; simpl in *; [done|].
    rewrite length_app. by rewrite Hc, IHt.
  - induction IH as [|c ts Hc _ IHt]; simpl in *; [done|].
    rewrite length_app. by rewrite Hc, IHt.
Qed.

(** Children that rebuild one by one rebuild as a list. *)
Lemma build_children_spec_of (ts : list (tree A)) rest :
  Forall (λ c, ∀ rest, build (spec_of c) (leaves c ++ rest) = Some (c, rest)) ts →
  build_children build (map spec_of ts) (flat_map leaves ts ++ rest)
  = Some (ts, rest).
Proof.
  induction 1 as [|c ts Hc _ IHt]; simpl; [done|].
  rewrite <- app_assoc, Hc, IHt. done.
Qed.

Lemma zip_fst_snd_items (items : list (string * tree A)) :
  zip (map fst items) (map snd items) = items.
Proof. induction items as [|[k c] items IH]; simpl; [done | by rewrite IH]. Qed.

Lemma build_spec_of t rest :
  build (spec_of t) (leaves t ++ rest) = Some (t, rest).
Proof.
  revert rest.
  induction t as [a|items IH|ts IH|ts IH] using tree_nested_ind;
    intros rest; simpl; [done| | |].
  - assert (build_children build (map (λ kv, spec_of kv.2) items)
              (flat_map (λ kv, leaves kv.2) items ++ rest)
            = Some (map snd items, rest)) as ->.
    { induction IH as [|[k c] items Hc _ IHi]; simpl in *; [done|].
      by rewrite <- app_assoc, Hc, IHi. }
    by rewrite zip_fst_snd_items.
  - by rewrite build_children_spec_of.
  - by rewrite build_children_spec_of.
Qed.

(** C9.  Flattening a nested structure to a sequence and a descriptor and
    unflattening that sequence with that descriptor gives the structure
    back: the same nesting, the same keys in the same order, the same
    leaves. *)
Theorem unflatten_flatten t :
  tree_unflatten (tree_flatten t).1 (tree_flatten t).2 = Some t.
Proof.
  unfold tree_unflatten, tree_flatten; simpl.
  rewrite decide_True by (symmetry; apply num_leaves_spec_of).
  pose proof (build_spec_of t []) as Hb.
  rewrite app_nil_r in Hb. by rewrite Hb.
Qed.

(** A sequence of the wrong length is refused. *)
Lemma unflatten_length_mismatch xs (s : TreeSpec) :
  length xs ≠ num_leaves s → tree_unflatten xs s = None.
Proof. intros Hne. unfold tree_unflatten. by rewrite decide_False. Qed.

(** The leaves of a rebuilt structure are the sequence it was built from. *)
Lemma build_children_leaves (cs : list TreeSpec) :
  Forall (λ s, ∀ xs t rest, build s xs = Some (t, rest) → xs = leaves t ++ rest) cs →
  ∀ xs ts rest,
    build_children build cs xs = Some (ts, rest) →
    xs = flat_map leaves ts ++ rest.
Proof.
  induction 1 as [|c cs Hc _ IHc]; intros xs ts rest; simpl.
  - by intros [= <- <-].
  - destruct (build c xs) as [[t r1]|] eqn:Hb; [|done].
    destruct (build_children build cs r1) as [[ts' r2]|] eqn:Hbs; [|done].
    intros [= <- <-]. simpl.
    rewrite (Hc _ _ _ Hb), (IHc _ _ _ Hbs). by rewrite app_assoc.
Qed.

End Facts.
End PyTreeFacts.

(** ** Running computations *)

Module MonadFacts.
Import Py.

Lemma bind_return {A B} (c : M A) (k : A → M B) w w1 a :
  c w = (w1, Return a) → bind c k w = k a w1.
Proof. intros Hc. unfold bind. by rewrite Hc. Qed.

Lemma bind_raise {A B} (c : M A) (k : A → M B) w w1 e :
  c w = (w1, Raise e) → bind c k w = (w1, Raise e).
Proof. intros Hc. unfold bind. by rewrite Hc. Qed.

(** A sequence that returns has run both its parts. *)
Lemma bind_inv {A B} (c : M A) (k : A → M B) w w' b :
  bind c k w = (w', Return b) →
  ∃ w1 a, c w = (w1, Return a) ∧ k a w1 = (w', Return b).
Proof.
  unfold bind. destruct (c w) as [w1 [a|e]]; [|done]. intros Hk. by exists w1, a.
Qed.

Lemma lift_opt_inv {A} (o : option A) e w w1 a :
  lift_opt o e w = (w1, Return a) → w1 = w ∧ o = Some a.
Proof. destruct o; simpl; [|done]. by intros [= <- <-]. Qed.

(** A [try ... finally] that returns: the body returned and so did the
    [finally] block. *)
Lemma try_finally_inv {A} (body : M A) (cleanup : M unit) w w' a :
  try_finally body cleanup w = (w', Return a) →
  ∃ w1, body w = (w1, Return a) ∧ cleanup w1 = (w', Return tt).
Proof.
  unfold try_finally. destruct (body w) as [w1 r].
  destruct (cleanup w1) as [w2 [[]|e]] eqn:Hc; [|done].
  intros [= <- ->]. by exists w1.
Qed.

Lemma with_inv {S A} (enter : M S) (leave : S → M unit) (body : M A) w w' a :
  with_ enter leave body w = (w', Return a) →
  ∃ w1 s w2, enter w = (w1, Return s) ∧ body w1 = (w2, Return a) ∧
             leave s w2 = (w', Return tt).
Proof.
  unfold with_. intros (w1 & s & He & Hb)%bind_inv.
  apply try_finally_inv in Hb as (w2 & Hb & Hl). by exists w1, s, w2.
Qed.

End MonadFacts.

(** ** The state rematerializer *)

Module RematerializeFacts.
Import Py TrainStep Examples MonadFacts.
Local Open Scope py_scope.

Lemma set_opt_state_same w : set_opt_state (opt_state w) w = w.
Proof. by destruct w. Qed.

(** Lines 28-31: when every name of [named_states] names a parameter, the
    merge runs to its end and writes to [opt.state] only. *)
Lemma merge_named_states ns params (l : list string) :
  (∀ n, n ∈ l → is_Some (PyDict.get n ns) ∧ is_Some (PyDict.get n params)) →
  ∀ w, ∃ st,
    for_each l (λ n,
      v <- lift_opt (PyDict.get n ns) (KeyError n) ;;
      p <- lift_opt (PyDict.get n params) (KeyError n) ;;
      modify (λ w, set_opt_state (<[p := v]> (opt_state w)) w)) w
    = (set_opt_state st w, Return tt).
Proof.
  induction l as [|n l IH]; intros Hl w.
  - exists (opt_state w). simpl. by rewrite set_opt_state_same.
  - destruct (Hl n) as [[v Hv] [p Hp]]; [apply list_elem_of_here|].
    destruct (IH (λ n' Hn', Hl n' (list_elem_of_further _ _ _ Hn'))
                 (set_opt_state (<[p := v]> (opt_state w)) w)) as [st Hst].
    exists st. simpl. unfold bind at 1. unfold bind at 1.
    rewrite Hv. simpl. unfold bind at 1. rewrite Hp. simpl.
    by rewrite Hst.
Qed.

(** What the scope looks like once it is entered. *)
Lemma rematerialize_enter o ns params w g orig :
  (∀ n, n ∈ PyDict.keys (truthy ns) → is_Some (PyDict.get n params)) →
  opt_param_groups w !! 0%nat = Some g →
  group_of w g !! "params" = Some orig →
  ∃ st,
    _rematerialize_optimizer_enter (Some o) ns params w
    = (set_groups (<[g := <["params" := GDictValues params]> (group_of w g)]>
                     (groups w))
         (set_opt_state st w),
       Return (mkSaved (opt_state w) g orig)).
Proof.
  intros Hns Hg Horig.
  destruct (merge_named_states (truthy ns) params (PyDict.keys (truthy ns))
              (λ n Hn, conj (PyDictFacts.get_of_key _ _ Hn) (Hns n Hn)) w)
    as [st Hst].
  exists st. unfold _rematerialize_optimizer_enter.
  rewrite (bind_return _ _ w w tt) by reflexivity.
  rewrite (bind_return _ _ w w (opt_state w)) by reflexivity.
  rewrite (bind_return _ _ _ _ _ Hst).
  rewrite (bind_return _ _ _ (set_opt_state st w) g) by (simpl; by rewrite Hg).
  rewrite (bind_return _ _ _ (set_opt_state st w) orig)
    by (unfold group_getitem, group_of in *; simpl; by rewrite Horig).
  reflexivity.
Qed.

(** C1, as amended.  Once the scope is entered, whatever the body does and
    whether it returns or raises, on exit the ["params"] entry of the first
    parameter group holds again what it held before entry, and every entry
    the state map had before entry is there again with the same record: no
    entry is lost.  The exit merges the saved map over the current one
    ([opt.state.update]) and removes nothing, so a key that was not in the
    map before entry keeps what the scope left under it. *)
Theorem rematerialize_optimizer_exit {A} (body : M A) o ns params w g orig :
  (∀ n, n ∈ PyDict.keys (truthy ns) → is_Some (PyDict.get n params)) →
  opt_param_groups w !! 0%nat = Some g →
  group_of w g !! "params" = Some orig →
  ∃ w1 w2 r w3,
    _rematerialize_optimizer_enter (Some o) ns params w
      = (w1, Return (mkSaved (opt_state w) g orig)) ∧
    group_of w1 g !! "params" = Some (GDictValues params) ∧
    body w1 = (w2, r) ∧
    _rematerialize_optimizer (Some o) ns params body w = (w3, r) ∧
    group_of w3 g !! "params" = Some orig ∧
    opt_state w3 = opt_state w ∪ opt_state w2 ∧
    (∀ p rcd, opt_state w !! p = Some rcd → opt_state w3 !! p = Some rcd) ∧
    (∀ p, opt_state w !! p = None → opt_state w3 !! p = opt_state w2 !! p) ∧
    tensors w3 = tensors w2 ∧ records w3 = records w2 ∧
    opt_param_groups w3 = opt_param_groups w2.
Proof.
  intros Hns Hg Horig.
  destruct (rematerialize_enter o ns params w g orig Hns Hg Horig) as [st He].
  set (w1 := set_groups _ _) in He.
  destruct (body w1) as [w2 r] eqn:Hb.
  exists w1, w2, r.
  exists (set_opt_state (opt_state w ∪ opt_state w2)
            (set_groups (<[g := <["params" := orig]> (group_of w2 g)]>
                           (groups w2)) w2)).
  split; [exact He|]. split.
  { unfold group_of, w1. simpl. rewrite lookup_insert_eq. simpl.
    by rewrite lookup_insert_eq. }
  split; [exact Hb|]. split.
  { unfold _rematerialize_optimizer, with_.
    rewrite (bind_return _ _ _ _ _ He).
    unfold try_finally. rewrite Hb. reflexivity. }
  split.
  { unfold group_of. simpl. rewrite lookup_insert_eq. simpl.
    by rewrite lookup_insert_eq. }
  split; [reflexivity|]. split.
  { intros p rcd Hp. simpl. by apply lookup_union_Some_l. }
  split; [|done].
  intros p Hp. simpl. by apply lookup_union_r.
Qed.

Lemma rematerialize_optimizer_exit_witness :
  ∃ w1 w2 r w3,
    _rematerialize_optimizer_enter (Some optimizer_obj)
        (Some [("w", 40%positive)]) [("w", 1%positive)] remat_world
      = (w1, Return (mkSaved (opt_state remat_world) 20%positive
                       (GObj 30%positive))) ∧
    group_of w1 20%positive !! "params"
      = Some (GDictValues [("w", 1%positive)]) ∧
    raise (OtherError "the body fails") w1 = (w2, r) ∧
    _rematerialize_optimizer (A := unit) (Some optimizer_obj)
        (Some [("w", 40%positive)]) [("w", 1%positive)]
        (raise (OtherError "the body fails")) remat_world = (w3, r) ∧
    group_of w3 20%positive !! "params" = Some (GObj 30%positive) ∧
    opt_state w3 = opt_state remat_world ∪ opt_state w2 ∧
    (∀ p rcd, opt_state remat_world !! p = Some rcd →
              opt_state w3 !! p = Some rcd) ∧
    (∀ p, opt_state remat_world !! p = None →
          opt_state w3 !! p = opt_state w2 !! p) ∧
    tensors w3 = tensors w2 ∧ records w3 = records w2 ∧
    opt_param_groups w3 = opt_param_groups w2.
Proof.
  apply (rematerialize_optimizer_exit (A := unit)
           (raise (OtherError "the body fails")) optimizer_obj
           (Some [("w", 40%positive)]) [("w", 1%positive)] remat_world
           20%positive (GObj 30%positive)).
  - intros n Hn. apply list_elem_of_singleton in Hn as ->.
    simpl. by eexists.
  - reflexivity.
  - reflexivity.
Defined.

(** C1 as stated fails: with an empty state map before entry, a named state
    merged in at entry is still in the map after the exit, although the
    body did nothing. *)
Lemma rematerialize_state_not_identical :
  let w' := (_rematerialize_optimizer (Some optimizer_obj)
               (Some [("w", 40%positive)]) [("w", 1%positive)]
               (ret tt) remat_world).1 in
  opt_state remat_world !! 1%positive = None ∧
  opt_state w' !! 1%positive = Some 40%positive.
Proof. split; reflexivity. Qed.

(** The saved map is a shallow copy: the records are shared with the map
    the body works on.  A body that assigns to an entry of a record changes
    the record the restored map refers to, and the exit does not undo it. *)
Example rematerialize_shares_records :
  let w' := (_rematerialize_optimizer (Some optimizer_obj) None
               [("w", 1%positive)]
               (record_setitem 50%positive "exp_avg" (LTensor 6%positive))
               stateful_world).1 in
  opt_state w' = opt_state stateful_world ∧
  records stateful_world !! 50%positive
    = Some [("exp_avg", LTensor 4%positive)] ∧
  records w' !! 50%positive = Some [("exp_avg", LTensor 6%positive)].
Proof. split_and!; vm_compute; reflexivity. Qed.

(** Without an optimizer the scope is not entered: the assertion of line
    24 fails and the body does not run. *)
Example rematerialize_needs_optimizer {A} (body : M A) ns params w :
  _rematerialize_optimizer None ns params body w = (w, Raise (AssertionError "")).
Proof. reflexivity. Qed.

End RematerializeFacts.

(** ** The warm-up pass *)

Module WarmUpFacts.
Import Py TrainStep WarmUpPredicates Examples MonadFacts.
Local Open Scope py_scope.

Lemma zero_data_idem t : zero_data (zero_data t) = zero_data t.
Proof.
  unfold zero_data; simpl. f_equal.
  induction (t_data t) as [|z l IH]; simpl; [done | by rewrite IH].
Qed.

Lemma all_zero_zero_data t : all_zero (zero_data t).
Proof.
  unfold all_zero, zero_data; simpl.
  induction (t_data t) as [|z l IH]; simpl; constructor; done.
Qed.

Lemma zero_data_all_zero t : all_zero t → zero_data t = t.
Proof.
  unfold all_zero, zero_data. destruct t as [sh dt dv fm d]; simpl.
  intros Hz. f_equal. induction Hz as [|z l -> _ IH]; simpl; [done | by rewrite IH].
Qed.

Lemma all_zero_zeros sh dt dv : all_zero (zeros_tensor sh dt dv).
Proof.
  unfold all_zero, zeros_tensor; simpl.
  induction (numel sh) as [|n IH]; simpl; constructor; done.
Qed.

Lemma fresh_tensor_None w : tensors w !! fresh (dom (tensors w)) = None.
Proof. apply not_elem_of_dom, is_fresh. Qed.

(** What one run of the loop body does to the store. *)
Lemma convert_state_result dev r name w w1 :
  convert_state dev r name w = (w1, Return tt) →
  ∃ rec state,
    records w !! r = Some rec ∧ PyDict.get name rec = Some state ∧
    ((∃ ph, as_fake_tensor w state = Some ph ∧
        w1 = set_records
               (<[r := PyDict.set name (LTensor (fresh (dom (tensors w)))) rec]>
                  (records w))
               (set_tensors
                  (<[fresh (dom (tensors w)) :=
                       zeros_tensor (t_shape ph) (t_dtype ph) dev]> (tensors w))
                  w))
     ∨ (∃ id t, state = LTensor id ∧ tensors w !! id = Some t ∧
          t_fake_mode t = None ∧
          w1 = set_tensors (<[id := zero_data t]> (tensors w)) w)).
Proof.
  unfold convert_state, bind, get_record, lift_opt, gets, ret, raise.
  destruct (records w !! r) as [rec|] eqn:Hrec; [|done].
  destruct (PyDict.get name rec) as [state|] eqn:Hstate; [|done].
  intros Hrun. exists rec, state. split; [done|]. split; [done|].
  destruct (as_fake_tensor w state) as [ph|] eqn:Hfk.
  - left. exists ph. split; [done|].
    revert Hrun. unfold torch_zeros, new_tensor, record_setitem, bind,
      get_record, lift_opt, modify, ret. simpl. rewrite Hrec. simpl.
    rewrite lookup_insert_eq. simpl. rewrite PyDictFacts.get_set_eq.
    unfold zero_, bind, get_tensor, lift_opt, put_tensor, modify, ret. simpl.
    rewrite lookup_insert_eq. simpl.
    intros [= <-]. unfold set_records, set_tensors; simpl.
    rewrite insert_insert_eq.
    by rewrite (zero_data_all_zero _ (all_zero_zeros _ _ _)).
  - right. revert Hrun. rewrite Hrec. simpl. rewrite Hstate.
    destruct state as [id|z]; simpl; [|done].
    unfold bind, get_tensor, lift_opt, put_tensor, modify, ret, raise.
    simpl in Hfk.
    destruct (tensors w !! id) as [t|] eqn:Ht; [|done].
    intros [= <-]. exists id, t. repeat split; try done.
    by destruct (t_fake_mode t).
Qed.

Section Pass.
Variable dev : Device.
(** The store when the pass begins. *)
Variable w0 : World.
Abbreviation converted := (converted dev w0).
Abbreviation pass_inv := (pass_inv dev w0).

Lemma pass_inv_init : pass_inv (λ _ _, False) w0.
Proof.
  split; try done.
  - intros id t0 Ht. by left.
  - intros id t H1 H2. congruence.
  - intros r rec0 Hr. exists rec0. repeat split; try done.
    intros name x0 Hx. exists x0. split; [done|]. right. split; [tauto | done].
Qed.

Lemma pass_inv_weaken (V V' : ObjId → string → Prop) w :
  (∀ r name, V' r name → V r name) → pass_inv V w → pass_inv V' w.
Proof.
  intros HV [H1 H2 H3 H4 H5]. split; try done.
  intros r rec0 Hr. destruct (H5 r rec0 Hr) as (rec & Hrec & Hk & Hx).
  exists rec. repeat split; try done.
  intros name x0 Hx0. destruct (Hx name x0 Hx0) as (x & Hg & [Hc|[Hn ->]]).
  - exists x. split; [done|]. by left.
  - exists x0. split; [done|]. right. split; [|done]. intros Hv. by apply Hn, HV.
Qed.

(** A converted entry stays converted when a tensor is allocated. *)
Lemma converted_alloc x0 w x t' ts :
  converted x0 w x →
  converted x0 (set_records ts
                  (set_tensors (<[fresh (dom (tensors w)) := t']> (tensors w)) w)) x.
Proof.
  intros (id & t & -> & Ht & Hreal & Hzero & Hrel).
  exists id, t. repeat split; try done. simpl.
  rewrite lookup_insert_ne; [done|].
  intros Heq. rewrite <- Heq, fresh_tensor_None in Ht. done.
Qed.

(** A converted entry stays converted when a real tensor is zeroed. *)
Lemma converted_zero x0 w x id' t' :
  tensors w !! id' = Some t' →
  converted x0 w x →
  converted x0 (set_tensors (<[id' := zero_data t']> (tensors w)) w) x.
Proof.
  intros Ht' (id & t & -> & Ht & Hreal & Hzero & Hrel).
  exists id, t. repeat split; try done. simpl.
  destruct (decide (id' = id)) as [->|Hne].
  - rewrite lookup_insert_eq. rewrite Ht in Ht'. injection Ht' as <-.
    by rewrite zero_data_all_zero.
  - by rewrite lookup_insert_ne.
Qed.

Lemma as_fake_tensor_Some w x ph :
  as_fake_tensor w x = Some ph →
  ∃ id fm, x = LTensor id ∧ tensors w !! id = Some ph ∧ t_fake_mode ph = Some fm.
Proof.
  destruct x as [id|z]; simpl; [|done].
  destruct (tensors w !! id) as [t|] eqn:Ht; [|done].
  destruct (t_fake_mode t) as [fm|] eqn:Hfm; [|done].
  intros [= <-]. by exists id, fm.
Qed.

Lemma as_fake_tensor_real w id t :
  tensors w !! id = Some t → t_fake_mode t = None →
  as_fake_tensor w (LTensor id) = None.
Proof. intros Ht Hr. simpl. by rewrite Ht, Hr. Qed.

(** Under the invariant a placeholder of the current store is a
    placeholder of the store the pass began in. *)
Lemma placeholder_is_old V w id ph fm :
  pass_inv V w → tensors w !! id = Some ph → t_fake_mode ph = Some fm →
  tensors w0 !! id = Some ph.
Proof.
  intros Hinv Ht Hfm.
  destruct (tensors w0 !! id) as [t0|] eqn:H0.
  - destruct (inv_old Hinv id t0 H0) as [H1|[Hr H1]].
    + congruence.
    + rewrite H1 in Ht. injection Ht as <-. simpl in Hfm. congruence.
  - destruct (inv_new Hinv id ph H0 Ht) as [Hr _].
    unfold is_real in Hr. congruence.
Qed.

(** Under the invariant a real tensor of the current store is no
    placeholder of the store the pass began in, and zeroing it gives the
    zeroed tensor it began as. *)
Lemma real_is_old_real V w id t :
  pass_inv V w → tensors w !! id = Some t → t_fake_mode t = None →
  as_fake_tensor w0 (LTensor id) = None ∧
  ∀ t0, tensors w0 !! id = Some t0 → zero_data t = zero_data t0.
Proof.
  intros Hinv Ht Hr. simpl.
  destruct (tensors w0 !! id) as [t0|] eqn:H0.
  - destruct (inv_old Hinv id t0 H0) as [H1|[Hr0 H1]].
    + assert (t0 = t) as -> by congruence. rewrite Hr.
      split; [done|]. by intros ? [= <-].
    + rewrite Hr0. split; [done|]. intros ? [= <-].
      assert (t = zero_data t0) as -> by congruence. apply zero_data_idem.
  - split; [done|]. done.
Qed.

(** One run of the loop body keeps the invariant and marks its entry. *)
Lemma convert_state_inv V r name w w1 :
  pass_inv V w →
  convert_state dev r name w = (w1, Return tt) →
  pass_inv (λ r' n', V r' n' ∨ (r' = r ∧ n' = name)) w1.
Proof.
  intros Hinv Hrun.
  destruct (convert_state_result _ _ _ _ _ Hrun)
    as (rec & state & Hrec & Hstate & [(ph & Hfk & ->)|(id & t & -> & Ht & Hreal & ->)]).
  - (* a placeholder: a new tensor replaces it *)
    destruct (as_fake_tensor_Some _ _ _ Hfk) as (id0 & fm & -> & Hph & Hfm).
    pose proof (placeholder_is_old _ _ _ _ _ Hinv Hph Hfm) as Hph0.
    set (z := fresh (dom (tensors w))).
    assert (tensors w !! z = None) as Hz by apply fresh_tensor_None.
    split; simpl.
    + apply (inv_opt_state Hinv).
    + intros id t0 H0.
      assert (id ≠ z) as Hne.
      { intros ->. destruct (inv_old Hinv z t0 H0) as [H1|[_ H1]]; congruence. }
      rewrite lookup_insert_ne by done. by apply (inv_old Hinv).
    + intros id t H0. destruct (decide (z = id)) as [<-|Hne].
      * rewrite lookup_insert_eq. intros [= <-].
        split; [done | apply all_zero_zeros].
      * rewrite lookup_insert_ne by done. by apply (inv_new Hinv).
    + intros r' Hr'. pose proof (inv_no_new_record Hinv r' Hr') as Hn.
      rewrite lookup_insert_ne; [done|]. intros ->. congruence.
    + intros r' rec0 Hr0.
      destruct (inv_records Hinv r' rec0 Hr0) as (rec' & Hrec' & Hk & Hx).
      destruct (decide (r = r')) as [<-|Hner].
      * assert (rec' = rec) as -> by congruence.
        exists (PyDict.set name (LTensor z) rec). split_and!.
        { by rewrite lookup_insert_eq. }
        { rewrite PyDictFacts.keys_set_present; [done | by eexists]. }
        intros name' x0 Hx0. destruct (Hx name' x0 Hx0) as (x & Hg & Hcase).
        destruct (decide (name = name')) as [<-|Hnen].
        -- exists (LTensor z). split; [apply PyDictFacts.get_set_eq|]. left.
           assert (x = LTensor id0) as -> by congruence.
           assert (x0 = LTensor id0) as ->.
           { destruct Hcase as [(id & t & [= <-] & Ht & Hr & _)|[_ ->]]; [|done].
             unfold is_real in Hr. congruence. }
           exists z, (zeros_tensor (t_shape ph) (t_dtype ph) dev).
           split_and!; try done.
           ++ simpl. by rewrite lookup_insert_eq.
           ++ apply all_zero_zeros.
           ++ simpl. rewrite Hph0, Hfm. split; [|done].
              destruct (tensors w0 !! z) as [tz|] eqn:Hz0; [|done].
              destruct (inv_old Hinv z tz Hz0) as [H1|[_ H1]]; congruence.
        -- exists x. split; [by rewrite PyDictFacts.get_set_ne|].
           destruct Hcase as [Hc|[Hv ->]].
           ++ left. by apply converted_alloc.
           ++ right. split; [|done]. intros [Hv'|[_ Heq]]; [by apply Hv | done].
      * exists rec'. split_and!; try done.
        { by rewrite lookup_insert_ne. }
        intros name' x0 Hx0. destruct (Hx name' x0 Hx0) as (x & Hg & Hcase).
        exists x. split; [done|].
        destruct Hcase as [Hc|[Hv ->]].
        -- left. by apply converted_alloc.
        -- right. split; [|done]. intros [Hv'|[Heq _]]; [by apply Hv | done].
  - (* a real tensor: zeroed in place *)
    destruct (real_is_old_real _ _ _ _ Hinv Ht Hreal) as [Hnf Hzd].
    split; simpl.
    + apply (inv_opt_state Hinv).
    + intros id' t0 H0. destruct (decide (id = id')) as [<-|Hne].
      * rewrite lookup_insert_eq. right.
        destruct (inv_old Hinv id t0 H0) as [H1|[Hr0 H1]].
        -- assert (t0 = t) as -> by congruence. done.
        -- split; [done|]. by rewrite (Hzd t0 H0).
      * rewrite lookup_insert_ne by done. by apply (inv_old Hinv).
    + intros id' t' H0. destruct (decide (id = id')) as [<-|Hne].
      * rewrite lookup_insert_eq. intros [= <-].
        split; [done | apply all_zero_zero_data].
      * rewrite lookup_insert_ne by done. by apply (inv_new Hinv).
    + apply (inv_no_new_record Hinv).
    + intros r' rec0 Hr0.
      destruct (inv_records Hinv r' rec0 Hr0) as (rec' & Hrec' & Hk & Hx).
      exists rec'. split_and!; try done.
      intros name' x0 Hx0. destruct (Hx name' x0 Hx0) as (x & Hg & Hcase).
      exists x. split; [done|].
      destruct Hcase as [Hc|[Hv ->]].
      * left. by apply converted_zero.
      * destruct (decide (r' = r ∧ name' = name)) as [[-> ->]|Hne].
        -- left. assert (rec' = rec) as -> by congruence.
           assert (x0 = LTensor id) as -> by congruence.
           exists id, (zero_data t). split_and!; try done.
           ++ simpl. by rewrite lookup_insert_eq.
           ++ apply all_zero_zero_data.
           ++ rewrite Hnf. split; [done|]. intros t0 H0. by apply Hzd.
        -- right. split; [|done]. intros [Hv'|Heq]; [by apply Hv | by apply Hne].
Qed.

(** The inner loop (lines 136-141) over the names of one record. *)
Lemma convert_record_inv r names : ∀ (V : ObjId → string → Prop) w w',
  pass_inv V w →
  for_each names (convert_state dev r) w = (w', Return tt) →
  pass_inv (λ r' n', V r' n' ∨ (r' = r ∧ n' ∈ names)) w'.
Proof.
  induction names as [|n names IH]; intros V w w' Hinv Hrun; simpl in Hrun.
  - injection Hrun as <-. revert Hinv. apply pass_inv_weaken.
    intros r' n' [Hv|[_ Hin%elem_of_nil]]; done.
  - apply bind_inv in Hrun as (w1 & [] & H1 & H2).
    pose proof (convert_state_inv _ _ _ _ _ Hinv H1) as Hinv1.
    pose proof (IH _ _ _ Hinv1 H2) as Hinv2.
    revert Hinv2. apply pass_inv_weaken.
    intros r' n' [Hv|[-> [->|Hin]%elem_of_cons]]; [by left; left | by left; right | by right].
Qed.

(** The outer loop (lines 134-141) over the entries of [opt.state]. *)
Lemma convert_records_inv pairs : ∀ (V : ObjId → string → Prop) w w',
  pass_inv V w →
  for_each pairs (convert_record dev) w = (w', Return tt) →
  pass_inv (λ r' n', V r' n' ∨
              ∃ p rec0, (p, r') ∈ pairs ∧ records w0 !! r' = Some rec0 ∧
                        n' ∈ PyDict.keys rec0) w'.
Proof.
  induction pairs as [|[p r] pairs IH]; intros V w w' Hinv Hrun; simpl in Hrun.
  - injection Hrun as <-. revert Hinv. apply pass_inv_weaken.
    intros r' n' [Hv|(p & rec0 & Hin%elem_of_nil & _)]; done.
  - apply bind_inv in Hrun as (w1 & [] & H1 & H2).
    unfold convert_record in H1.
    apply bind_inv in H1 as (wa & rec & Hg & H1). simpl in *.
    unfold get_record, lift_opt in Hg.
    destruct (records w !! r) as [rec'|] eqn:Hrec; [|done].
    injection Hg as <- <-.
    pose proof (convert_record_inv _ _ _ _ _ Hinv H1) as Hinv1.
    pose proof (IH _ _ _ Hinv1 H2) as Hinv2.
    revert Hinv2. apply pass_inv_weaken.
    intros r' n' [Hv|(p' & rec0 & [[= -> ->]|Hin]%elem_of_cons & Hr0 & Hn)].
    + by left; left.
    + left; right. split; [done|].
      destruct (inv_records Hinv r rec0 Hr0) as (rec1 & Hrec1 & Hk & _).
      assert (rec1 = rec') as -> by congruence. by rewrite Hk.
    + right. by exists p', rec0.
Qed.

(** The loop reads the record of every entry it reaches. *)
Lemma convert_records_reads pairs : ∀ (V : ObjId → string → Prop) w w',
  pass_inv V w →
  for_each pairs (convert_record dev) w = (w', Return tt) →
  ∀ p r, (p, r) ∈ pairs → is_Some (records w0 !! r).
Proof.
  induction pairs as [|[p r] pairs IH]; intros V w w' Hinv Hrun p' r' Hin.
  - by apply elem_of_nil in Hin.
  - simpl in Hrun.
    apply bind_inv in Hrun as (w1 & [] & H1 & H2).
    unfold convert_record in H1.
    apply bind_inv in H1 as (wa & rec & Hg & H1). simpl in *.
    unfold get_record, lift_opt in Hg.
    destruct (records w !! r) as [rec'|] eqn:Hrec; [|done].
    injection Hg as <- <-.
    apply elem_of_cons in Hin as [[= -> ->]|Hin].
    + destruct (records w0 !! r) as [rec0|] eqn:Hr0; [by eexists|].
      pose proof (inv_no_new_record Hinv r Hr0). congruence.
    + pose proof (convert_record_inv _ _ _ _ _ Hinv H1) as Hinv1.
      by apply (IH _ _ _ Hinv1 H2 p' r').
Qed.

End Pass.

(** C2, as amended.  When the conversion of the optimizer states (lines
    134-141) completes, [opt.state] still maps the same parameters to the
    same records, each record has the names it had, and under every name
    there is a real tensor all of whose elements are zero.  Where the entry
    was a placeholder, the tensor is newly allocated and has the shape and
    the dtype of the placeholder; its device is [dev], the device of the
    first real parameter, whatever the device of the placeholder.  Where the
    entry was a real tensor, it is that tensor, zeroed in place. *)
Theorem convert_fake_states_zero dev w w' :
  convert_fake_states dev w = (w', Return tt) →
  opt_state w' = opt_state w ∧
  ∀ p r, opt_state w !! p = Some r →
    ∃ rec0 rec,
      records w !! r = Some rec0 ∧ records w' !! r = Some rec ∧
      PyDict.keys rec = PyDict.keys rec0 ∧
      ∀ name x0, PyDict.get name rec0 = Some x0 →
        ∃ id t,
          PyDict.get name rec = Some (LTensor id) ∧
          tensors w' !! id = Some t ∧ is_real t ∧ all_zero t ∧
          match as_fake_tensor w x0 with
          | Some ph =>
              tensors w !! id = None ∧
              t_shape t = t_shape ph ∧ t_dtype t = t_dtype ph ∧
              t_device t = dev ∧
              t_data t = replicate (numel (t_shape ph)) 0%Z
          | None =>
              x0 = LTensor id ∧
              ∀ t0, tensors w !! id = Some t0 → t = zero_data t0
          end.
Proof.
  unfold convert_fake_states. intros Hrun.
  apply bind_inv in Hrun as (wa & st & Hg & Hrun).
  injection Hg as <- <-.
  pose proof (convert_records_inv dev w _ _ _ _ (pass_inv_init dev w) Hrun)
    as Hinv.
  split; [apply (inv_opt_state Hinv)|].
  intros p r Hp.
  destruct (records w !! r) as [rec0|] eqn:Hrec0.
  - destruct (inv_records Hinv r rec0 Hrec0) as (rec & Hrec & Hk & Hx).
    exists rec0, rec. split_and!; try done.
    intros name x0 Hx0. destruct (Hx name x0 Hx0) as (x & Hgx & Hcase).
    destruct Hcase as [(id & t & -> & Ht & Hr & Hz & Hrel)|[Hv _]].
    + exists id, t. split_and!; try done.
      destruct (as_fake_tensor w x0) as [ph|]; [|done].
      destruct Hrel as [Hnew ->]. by split_and!.
    + exfalso. apply Hv. right. exists p, rec0. split_and!; try done.
      * by apply elem_of_map_to_list.
      * by apply (PyDictFacts.key_of_get _ x0).
  - destruct (convert_records_reads dev w _ _ _ _ (pass_inv_init dev w) Hrun p r)
      as [rec0 Hr0]; [by apply elem_of_map_to_list | congruence].
Qed.

Lemma convert_fake_states_zero_witness :
  let w' := (convert_fake_states (cuda 0) warm_world).1 in
  opt_state w' = opt_state warm_world ∧
  ∀ p r, opt_state warm_world !! p = Some r →
    ∃ rec0 rec,
      records warm_world !! r = Some rec0 ∧ records w' !! r = Some rec ∧
      PyDict.keys rec = PyDict.keys rec0 ∧
      ∀ name x0, PyDict.get name rec0 = Some x0 →
        ∃ id t,
          PyDict.get name rec = Some (LTensor id) ∧
          tensors w' !! id = Some t ∧ is_real t ∧ all_zero t ∧
          match as_fake_tensor warm_world x0 with
          | Some ph =>
              tensors warm_world !! id = None ∧
              t_shape t = t_shape ph ∧ t_dtype t = t_dtype ph ∧
              t_device t = cuda 0 ∧
              t_data t = replicate (numel (t_shape ph)) 0%Z
          | None =>
              x0 = LTensor id ∧
              ∀ t0, tensors warm_world !! id = Some t0 → t = zero_data t0
          end.
Proof.
  apply (convert_fake_states_zero (cuda 0) warm_world).
  vm_compute. reflexivity.
Defined.

(** C2 as stated fails on the device: the placeholder under ["step"] is on
    the CPU, and the zero tensor that replaces it is on [cuda:0], the device
    of the first parameter. *)
Lemma warmup_device_not_matched :
  let w' := (convert_fake_states (cuda 0) warm_world).1 in
  (convert_fake_states (cuda 0) warm_world).2 = Return tt ∧
  as_fake_tensor warm_world (LTensor 4%positive)
    = Some (mkTensor [] float32 cpu (Some (FakeTensorMode 9%positive)) []) ∧
  ∃ id,
    (records w' !! 50%positive ≫= PyDict.get "step") = Some (LTensor id) ∧
    (t_device <$> tensors w' !! id) = Some (cuda 0).
Proof.
  split; [vm_compute; reflexivity|]. split; [reflexivity|].
  exists 6%positive. split; vm_compute; reflexivity.
Qed.

(** The conversion takes every state for a tensor (line 141 calls [zero_]
    on it): on a state that is a number it raises. *)
Example conversion_needs_tensors :
  (convert_fake_states cpu counting_world).2 = Raise (AttributeError "zero_").
Proof. vm_compute. reflexivity. Qed.

End WarmUpFacts.

(** ** The parallel modes *)

Module ParallelModeFacts.
Import Py PyTree ParallelMode ParallelPredicates ParallelExamples.

Section Facts.
Context {GM : Type}.
Implicit Types (self : DTensorFallbackMode) (acc : list Inp * list Schema).

Lemma add_params_all rs (l : list LeafVal) : ∀ acc,
  fold_outcome (add_param rs) l acc
  = match List.find (λ p, negb (is_tensor p)) l with
    | Some p =>
        Raise (AssertionError
                 (String.append "expecting Tensor but got " (type_repr p)))
    | None => Return (acc.1 ++ map inp_of l, acc.2 ++ map (λ _, rs) l)
    end.
Proof.
  induction l as [|x l IH]; intros [inps schemas]; simpl.
  - by rewrite !app_nil_r.
  - destruct x as [id|z]; simpl; [|done].
    rewrite IH. simpl.
    destruct (List.find (λ p, negb (is_tensor p)) l); [done|].
    by rewrite <- !app_assoc.
Qed.

Lemma add_states_all rs (l : list LeafVal) : ∀ acc,
  fold_left (add_state rs) l acc
  = (acc.1 ++ map inp_of l, acc.2 ++ map (λ _, rs) l).
Proof.
  induction l as [|x l IH]; intros [inps schemas]; simpl.
  - by rewrite !app_nil_r.
  - rewrite IH. destruct x; simpl; by rewrite <- !app_assoc.
Qed.

Lemma add_args_all self ws (l : list LeafVal) : ∀ acc,
  fold_left (add_arg self (mkDeviceMesh "cuda" (seq 0 ws))
               (mkSchema (mkDeviceMesh "cuda" (seq 0 ws)) [Shard 0])) l acc
  = (acc.1 ++ map inp_of l, acc.2 ++ map (arg_schema self ws) l).
Proof.
  induction l as [|x l IH]; intros [inps schemas]; simpl.
  - by rewrite !app_nil_r.
  - rewrite IH. destruct x; simpl; by rewrite <- !app_assoc.
Qed.

(** The two sequences in closed form. *)
Lemma expand_inputs_closed self ws params states args kwargs :
  expand_inputs self ws params states args kwargs
  = let ps := leaves (Dict params) in
    let ss := leaves (Dict states) in
    let fs := leaves (PyList (args ++ PyDict.values kwargs)) in
    let rs := mkSchema (mkDeviceMesh "cuda" (seq 0 ws)) [Replicate] in
    match List.find (λ p, negb (is_tensor p)) ps with
    | Some p =>
        Raise (AssertionError
                 (String.append "expecting Tensor but got " (type_repr p)))
    | None =>
        Return (map inp_of ps ++ map inp_of ss ++ map inp_of fs,
                map (λ _, rs) ps ++ map (λ _, rs) ss
                  ++ map (arg_schema self ws) fs)
    end.
Proof.
  unfold expand_inputs, tree_flatten. cbn [fst].
  rewrite add_params_all. cbn zeta.
  destruct (List.find (λ p, negb (is_tensor p)) (leaves (Dict params)));
    [done|].
  cbn [obind fst snd]. rewrite add_states_all, add_args_all. cbn [fst snd].
  by rewrite <- !app_assoc.
Qed.

(** C5.  Whatever the converter is, [expand] either fails the assertion of
    line 67, on the first leaf of the parameters and buffers that is no
    tensor, and then does not call the converter; or it returns what the
    converter returns when called, with partial conversion disallowed, on
    the graph, a value sequence and a schema sequence of which the
    following holds.  With [P] flattened parameters and buffers, [S]
    flattened state leaves and [A] flattened arguments, the two sequences
    have [P + S + A] entries each, position for position; the first
    [P + S] schemas are [Replicate]; and the schema of the [j]-th argument
    is the override registered for its identity when it is a tensor with
    one, and [Shard 0] otherwise. *)
Theorem expand_placements
    (convert : GM → list Inp → list Schema → bool → Outcome (DistGraph GM))
    self ws gm params states args kwargs :
  let ps := leaves (Dict params) in
  let ss := leaves (Dict states) in
  let fs := leaves (PyList (args ++ PyDict.values kwargs)) in
  let m := mkDeviceMesh "cuda" (seq 0 ws) in
  match List.find (λ p, negb (is_tensor p)) ps with
  | Some p =>
      expand_with convert self ws gm params states args kwargs
      = Raise (AssertionError
                 (String.append "expecting Tensor but got " (type_repr p)))
  | None =>
      ∃ inps schemas,
        expand_with convert self ws gm params states args kwargs
        = convert gm inps schemas false ∧
        length inps = length ps + length ss + length fs ∧
        length schemas = length ps + length ss + length fs ∧
        (∀ i, i < length ps + length ss →
           schemas !! i = Some (mkSchema m [Replicate])) ∧
        (∀ i x, (ps ++ ss ++ fs) !! i = Some x →
           inps !! i = Some (inp_of x)) ∧
        (∀ j id pl, fs !! j = Some (LTensor id) →
           _placements_override self !! id = Some pl →
           schemas !! (length ps + length ss + j) = Some (mkSchema m pl)) ∧
        (∀ j id, fs !! j = Some (LTensor id) →
           _placements_override self !! id = None →
           schemas !! (length ps + length ss + j)
           = Some (mkSchema m [Shard 0])) ∧
        (∀ j z, fs !! j = Some (LOther z) →
           schemas !! (length ps + length ss + j)
           = Some (mkSchema m [Shard 0]))
  end.
Proof.
  intros ps ss fs m. unfold expand_with. rewrite expand_inputs_closed.
  cbn zeta. fold ps ss fs m.
  destruct (List.find (λ p, negb (is_tensor p)) ps) as [p|] eqn:Hps; [done|].
  cbn [obind fst snd].
  assert (∀ j a, fs !! j = Some a →
            (map (λ _, mkSchema m [Replicate]) ps
               ++ map (λ _, mkSchema m [Replicate]) ss
               ++ map (arg_schema self ws) fs) !! (length ps + length ss + j)
            = Some (arg_schema self ws a)) as Harg.
  { intros j a Hj. rewrite app_assoc.
    rewrite lookup_app_r; rewrite length_app, !length_map; [|lia].
    replace (length ps + length ss + j - (length ps + length ss)) with j by lia.
    by rewrite list_lookup_fmap, Hj. }
  eexists _, _. split; [reflexivity|]. split_and!.
  - rewrite !length_app, !length_map. lia.
  - rewrite !length_app, !length_map. lia.
  - intros i Hi. rewrite app_assoc.
    rewrite lookup_app_l by (rewrite length_app, !length_map; lia).
    rewrite <- map_app.
    destruct ((ps ++ ss) !! i) as [x|] eqn:Hx.
    + by rewrite list_lookup_fmap, Hx.
    + apply lookup_ge_None in Hx. rewrite length_app in Hx. lia.
  - intros i x Hx. rewrite <- !map_app. by rewrite list_lookup_fmap, Hx.
  - intros j id pl Hj Ho. rewrite (Harg j _ Hj). simpl. by rewrite Ho.
  - intros j id Hj Ho. rewrite (Harg j _ Hj). simpl. by rewrite Ho.
  - intros j z Hj. by rewrite (Harg j _ Hj).
Qed.

(** Whatever the converter, [expand] calls it once, on the graph and the two
    sequences, with [_allow_partial=False], and returns what it returns. *)
Lemma expand_with_calls
    (convert : GM → list Inp → list Schema → bool → Outcome (DistGraph GM))
    self ws gm params states args kwargs inps schemas :
  expand_inputs self ws params states args kwargs = Return (inps, schemas) →
  expand_with convert self ws gm params states args kwargs
  = convert gm inps schemas false.
Proof. intros Hi. unfold expand_with. by rewrite Hi. Qed.

(** C7.  [expand] calls the converter with partial conversion disallowed:
    when some value cannot be placed under the schema it was given, the
    result is the failure [PlacementConversionFailure]; when [expand]
    returns a graph, every value is placed under exactly the schema
    [expand] computed for it.  No other placement is ever substituted. *)
Theorem expand_no_partial (can_place : Inp → Schema → bool)
    self ws (gm : GM) params states args kwargs :
  match expand_inputs self ws params states args kwargs with
  | Raise e =>
      expand can_place self ws gm params states args kwargs = Raise e
  | Return (inps, schemas) =>
      (Exists (λ vs, can_place vs.1 vs.2 = false) (zip inps schemas) →
       expand can_place self ws gm params states args kwargs
       = Raise PlacementConversionFailure) ∧
      (Forall (λ vs, can_place vs.1 vs.2 = true) (zip inps schemas) →
       expand can_place self ws gm params states args kwargs
       = Return (mkDistGraph gm (zip inps schemas))) ∧
      (∀ g, expand can_place self ws gm params states args kwargs = Return g →
            dg_inputs g = zip inps schemas)
  end.
Proof.
  unfold expand, expand_with.
  destruct (expand_inputs self ws params states args kwargs)
    as [[inps schemas]|e]; [|done].
  cbn [obind fst snd]. unfold _convert_to_distributed.
  destruct (forallb (λ vs : Inp * Schema, can_place vs.1 vs.2)
              (zip inps schemas)) eqn:Hall.
  - split_and!; try done.
    + intros Hex. apply Exists_exists in Hex as (vs & Hin & Hvs).
      rewrite forallb_forall in Hall.
      apply list_elem_of_In in Hin. rewrite (Hall vs Hin) in Hvs. done.
    + by intros g [= <-].
  - split_and!; try done.
    intros Hfa. exfalso.
    assert (forallb (λ vs : Inp * Schema, can_place vs.1 vs.2)
              (zip inps schemas) = true) as Ht; [|congruence].
    apply forallb_forall. intros vs Hin.
    rewrite Forall_forall in Hfa. apply Hfa. by apply list_elem_of_In.
Qed.

(** Were partial conversion allowed, the same call would return a graph in
    which the value that cannot be sharded is replicated instead. *)
Example partial_conversion_would_fall_back :
  _convert_to_distributed (GM := unit) cannot_shard_8 tt [Given 8%positive]
    [mkSchema (mkDeviceMesh "cuda" [0; 1]) [Shard 0]] true
  = Return (mkDistGraph tt
              [(Given 8%positive,
                mkSchema (mkDeviceMesh "cuda" [0; 1]) [Replicate])]).
Proof. reflexivity. Qed.

Example expand_fails_hard :
  expand (GM := unit) cannot_shard_8 __init__ 2 tt [] []
    [Leaf (LTensor 8%positive)] []
  = Raise PlacementConversionFailure.
Proof. reflexivity. Qed.

Example expand_places_override :
  expand (GM := unit) cannot_shard_8 mode_with_override 2 tt
    [("w", Leaf (LTensor 1%positive))]
    [("w", Dict [("step", Leaf (LOther 0)); ("exp_avg", Leaf (LTensor 2%positive))])]
    [Leaf (LTensor 7%positive); Leaf (LOther 3)]
    [("y", Leaf (LTensor 9%positive))]
  = Return (mkDistGraph tt
      [(Given 1%positive, mkSchema (mkDeviceMesh "cuda" [0; 1]) [Replicate]);
       (Empty0, mkSchema (mkDeviceMesh "cuda" [0; 1]) [Replicate]);
       (Given 2%positive, mkSchema (mkDeviceMesh "cuda" [0; 1]) [Replicate]);
       (Given 7%positive, mkSchema (mkDeviceMesh "cuda" [0; 1]) [Replicate]);
       (Empty0, mkSchema (mkDeviceMesh "cuda" [0; 1]) [Shard 0]);
       (Given 9%positive, mkSchema (mkDeviceMesh "cuda" [0; 1]) [Shard 0])]).
Proof. reflexivity. Qed.

(** A subclass of [ParallelMode] can be instantiated only if it defines
    [optimize], and [expand], itself. *)
Lemma subclass_needs_optimize methods :
  instantiate (Class_ ParallelMode_class methods) = Return __init__ →
  (∃ d, PyDict.get m_expand methods = Some d ∧ is_abstractmethod d = false) ∧
  (∃ d, PyDict.get m_optimize methods = Some d ∧ is_abstractmethod d = false).
Proof.
  unfold instantiate, abstractmethods. cbn [List.filter lookup_method].
  destruct (PyDict.get m_expand methods) as [[[] be]|] eqn:He;
    cbn [is_abstractmethod ParallelMode_class lookup_method PyDict.get];
    try (rewrite ?decide_True by done; simpl; done).
  destruct (PyDict.get m_optimize methods) as [[[] bo]|] eqn:Ho;
    cbn [is_abstractmethod ParallelMode_class lookup_method PyDict.get];
    try (rewrite ?decide_True, ?decide_False by done; simpl; done).
  intros _. split; eexists; done.
Qed.

(** C8, as amended.  In [ParallelMode], [expand] and [optimize] are both
    abstract: the class cannot be instantiated, and a strategy can be only
    if it defines both.  Their bodies in [ParallelMode], and the body of
    [configure_optimization_passes], which is not abstract and is inherited
    as it is, raise [NotImplementedError].  [DTensorFallbackMode] can be
    instantiated; calling [optimize] or [configure_optimization_passes] on
    it raises [NotImplementedError], and calling [expand] runs the expansion
    it defines. *)
Theorem parallel_mode_interface (can_place : Inp → Schema → bool) :
  abstractmethods ParallelMode_class = [m_expand; m_optimize] ∧
  instantiate ParallelMode_class
    = Raise (TypeError "Can't instantiate abstract class with abstract methods") ∧
  (∀ m, body <$> lookup_method ParallelMode_class m
        = Some RaiseNotImplementedError) ∧
  (∀ methods,
     instantiate (Class_ ParallelMode_class methods) = Return __init__ →
     (∃ d, PyDict.get m_expand methods = Some d ∧ is_abstractmethod d = false) ∧
     (∃ d, PyDict.get m_optimize methods = Some d ∧ is_abstractmethod d = false)) ∧
  abstractmethods DTensorFallbackMode_class = [] ∧
  instantiate DTensorFallbackMode_class = Return __init__ ∧
  (∀ self (gm : GM),
     invoke can_place DTensorFallbackMode_class self (call_optimize gm)
     = Raise NotImplementedError) ∧
  (∀ self passes,
     invoke (GM := GM) can_place DTensorFallbackMode_class self
       (call_configure_optimization_passes passes)
     = Raise NotImplementedError) ∧
  (∀ self ws (gm : GM) ps ns args kwargs,
     invoke can_place DTensorFallbackMode_class self
       (call_expand ws gm ps ns args kwargs)
     = obind (expand can_place self ws gm ps ns args kwargs)
         (λ g, Return (Some g))).
Proof.
  split_and!; try reflexivity.
  - by intros [].
  - apply subclass_needs_optimize.
Qed.

(** C8 as stated fails: [optimize] has no default a strategy could leave in
    place.  A strategy that defines [expand] and nothing else still has the
    abstract method [optimize] and cannot be instantiated. *)
Lemma expand_alone_is_not_enough :
  abstractmethods ExpandOnly_class = [m_optimize] ∧
  instantiate ExpandOnly_class
    = Raise (TypeError "Can't instantiate abstract class with abstract methods").
Proof. split; reflexivity. Qed.

End Facts.
End ParallelModeFacts.

(** ** The train-step compiler *)

Module CompileFacts.
Import Py PyTree TrainStep FlagPredicates TracePredicates Examples MonadFacts.
Local Open Scope py_scope.

(** *** Frame lemmas for [allow_non_fake_inputs] *)

Lemma keeps_ret {A} (a : A) : keeps_flags (ret a).
Proof. done. Qed.

Lemma keeps_raise {A} e : keeps_flags (raise (A := A) e).
Proof. done. Qed.

Lemma keeps_gets {A} (f : World → A) : keeps_flags (gets f).
Proof. done. Qed.

Lemma keeps_check {A} (f : World → Outcome A) : keeps_flags (check f).
Proof. done. Qed.

Lemma keeps_lift_opt {A} (o : option A) e : keeps_flags (lift_opt o e).
Proof. by destruct o. Qed.

Lemma keeps_assert c msg : keeps_flags (assert_ c msg).
Proof. by destruct c. Qed.

Lemma keeps_modify (f : World → World) :
  (∀ w, allow_non_fake_inputs (f w) = allow_non_fake_inputs w) →
  keeps_flags (modify f).
Proof. intros Hf w. apply Hf. Qed.

Lemma keeps_bind {A B} (c : M A) (k : A → M B) :
  keeps_flags c → (∀ a, keeps_flags (k a)) → keeps_flags (bind c k).
Proof.
  intros Hc Hk w. unfold bind. specialize (Hc w).
  destruct (c w) as [w1 [a|e]]; simpl in *; [|done].
  by rewrite Hk.
Qed.

Lemma keeps_for_each {A} (l : list A) (f : A → M unit) :
  (∀ x, keeps_flags (f x)) → keeps_flags (for_each l f).
Proof.
  intros Hf. induction l as [|x l IH]; simpl; [apply keeps_ret|].
  apply keeps_bind; [apply Hf | by intros _].
Qed.

Lemma keeps_map_m {A B} (f : A → M B) (l : list A) :
  (∀ x, keeps_flags (f x)) → keeps_flags (map_m f l).
Proof.
  intros Hf. induction l as [|x l IH]; simpl; [apply keeps_ret|].
  apply keeps_bind; [apply Hf|]. intros y.
  apply keeps_bind; [apply IH|]. intros ys. apply keeps_ret.
Qed.

Lemma keeps_try_finally {A} (body : M A) (cleanup : M unit) :
  keeps_flags body → keeps_flags cleanup → keeps_flags (try_finally body cleanup).
Proof.
  intros Hb Hc w. unfold try_finally. specialize (Hb w).
  destruct (body w) as [w1 r]. specialize (Hc w1).
  destruct (cleanup w1) as [w2 [[]|e]]; simpl in *; congruence.
Qed.

Lemma keeps_with {S A} (enter : M S) (leave : S → M unit) (body : M A) :
  keeps_flags enter → (∀ s, keeps_flags (leave s)) → keeps_flags body →
  keeps_flags (with_ enter leave body).
Proof.
  intros He Hl Hb. apply keeps_bind; [done|].
  intros s. by apply keeps_try_finally.
Qed.

Lemma keeps_fun_lift_opt {A} (f : World → option A) e :
  keeps_flags (λ w, lift_opt (f w) e w).
Proof. intros w. by destruct (f w). Qed.

Create HintDb keeps discriminated.
#[local] Hint Resolve keeps_ret keeps_raise keeps_gets keeps_check
  keeps_lift_opt keeps_assert keeps_bind keeps_for_each keeps_map_m
  keeps_try_finally keeps_with keeps_fun_lift_opt : keeps.

Ltac keeps_step :=
  match goal with
  | |- keeps_flags (match ?x with _ => _ end) => destruct x
  | |- keeps_flags (modify _) => apply keeps_modify; intros ?; reflexivity
  | |- keeps_flags (bind _ _) => apply keeps_bind
  | |- keeps_flags (for_each _ _) => apply keeps_for_each
  | |- keeps_flags (map_m _ _) => apply keeps_map_m
  | |- keeps_flags (with_ _ _ _) => apply keeps_with
  | |- keeps_flags (λ w, lift_opt _ _ w) => apply keeps_fun_lift_opt
  | |- keeps_flags _ => solve [auto with keeps]
  | |- ∀ _, _ => intros ?
  end.
Ltac keeps := repeat keeps_step.

Lemma keeps_get_tensor x : keeps_flags (get_tensor x).
Proof. unfold get_tensor. keeps. Qed.

Lemma keeps_new_tensor t : keeps_flags (new_tensor t).
Proof. done. Qed.

Lemma keeps_put_tensor x t : keeps_flags (put_tensor x t).
Proof. done. Qed.

Lemma keeps_get_record r : keeps_flags (get_record r).
Proof. unfold get_record. keeps. Qed.

Lemma keeps_new_record rec : keeps_flags (new_record rec).
Proof. done. Qed.

#[local] Hint Resolve keeps_get_tensor keeps_new_tensor keeps_put_tensor
  keeps_get_record keeps_new_record : keeps.

Lemma keeps_record_setitem r n v : keeps_flags (record_setitem r n v).
Proof. unfold record_setitem. keeps. Qed.

Lemma keeps_group_getitem g k : keeps_flags (group_getitem g k).
Proof. unfold group_getitem. keeps. Qed.

Lemma keeps_group_setitem g k v : keeps_flags (group_setitem g k v).
Proof. done. Qed.

Lemma keeps_set_grad_enabled b : keeps_flags (set_grad_enabled b).
Proof. done. Qed.

Lemma keeps_zero_ x : keeps_flags (zero_ x).
Proof. unfold zero_. keeps. Qed.

Lemma keeps_from_tensor m t : keeps_flags (from_tensor m t).
Proof. done. Qed.

#[local] Hint Resolve keeps_record_setitem keeps_group_getitem
  keeps_group_setitem keeps_set_grad_enabled keeps_zero_ keeps_from_tensor
  : keeps.

Lemma keeps_no_grad {A} (body : M A) :
  keeps_flags body → keeps_flags (no_grad body).
Proof. intros Hb. unfold no_grad. keeps. Qed.

Lemma keeps_with_inference_mode {A} (body : M A) :
  keeps_flags body → keeps_flags (with_inference_mode body).
Proof. intros Hb. unfold with_inference_mode. keeps. Qed.

Lemma keeps_fakeify_inputs m xs : keeps_flags (fakeify_inputs m xs).
Proof. unfold fakeify_inputs. keeps. Qed.

Lemma keeps_convert_state dev r name : keeps_flags (convert_state dev r name).
Proof. unfold convert_state, torch_zeros. keeps. Qed.

Lemma keeps_convert_fake_states dev : keeps_flags (convert_fake_states dev).
Proof.
  unfold convert_fake_states, convert_record. keeps.
  apply keeps_convert_state.
Qed.

Lemma keeps_build_named_states fp : keeps_flags (build_named_states fp).
Proof. unfold build_named_states. keeps. Qed.

Lemma keeps_flatten_named_states ns : keeps_flags (flatten_named_states ns).
Proof. unfold flatten_named_states. keeps. Qed.

Lemma keeps_unflatten_dict xs spec : keeps_flags (unflatten_dict xs spec).
Proof. unfold unflatten_dict. keeps. Qed.

Lemma keeps_unflatten_named_states xs spec :
  keeps_flags (unflatten_named_states xs spec).
Proof. unfold unflatten_named_states. keeps. Qed.

Lemma keeps_rematerialize_optimizer {A} opt ns params (body : M A) :
  keeps_flags body → keeps_flags (_rematerialize_optimizer opt ns params body).
Proof.
  intros Hb. unfold _rematerialize_optimizer,
    _rematerialize_optimizer_enter, _rematerialize_optimizer_leave. keeps.
Qed.

Lemma keeps_reparametrize_module {A} params (body : M A) :
  keeps_flags body → keeps_flags (_reparametrize_module params body).
Proof. intros Hb. unfold _reparametrize_module. keeps. Qed.

Lemma keeps_call_module mod_ opt ns pd args :
  callable_keeps_flags (forward mod_) →
  keeps_flags (call_module mod_ opt ns pd args).
Proof.
  intros Hf. unfold call_module.
  apply keeps_reparametrize_module, keeps_rematerialize_optimizer, Hf.
Qed.

Lemma keeps_check_output out : keeps_flags (check_output out).
Proof. unfold check_output. keeps. Qed.

Lemma keeps_functional_call mod_ opt pl nl spec :
  callable_keeps_flags (forward mod_) →
  callable_keeps_flags (functional_call mod_ opt pl nl spec).
Proof.
  intros Hf args. unfold functional_call.
  apply keeps_bind; [apply keeps_unflatten_dict|]. intros pd.
  apply keeps_bind; [by apply keeps_call_module|]. apply keeps_check_output.
Qed.

Lemma keeps_functional_call_2 mod_ opt pl nl spec nspec :
  callable_keeps_flags (forward mod_) →
  callable_keeps_flags (functional_call_2 mod_ opt pl nl spec nspec).
Proof.
  intros Hf args. unfold functional_call_2.
  apply keeps_bind; [apply keeps_unflatten_dict|]. intros pd.
  apply keeps_bind; [apply keeps_unflatten_named_states|]. intros nd.
  apply keeps_bind; [by apply keeps_call_module|]. apply keeps_check_output.
Qed.

(** *** The preconditions (lines 62-68) *)

(** The check that the name [assert_no_fake_params_or_buffers] describes
    rejects a module exactly when one of its parameters or buffers is a
    placeholder; a module whose parameters and buffers are all materialized
    passes it. *)
Lemma no_fake_params_or_buffers_rejects mod_ w :
  (no_fake_params_or_buffers mod_ w = Return tt ↔
   ∀ n x, (n, x) ∈ named_buffers mod_ ++ named_parameters mod_ →
          is_fake w x = false) ∧
  (no_fake_params_or_buffers mod_ w
     = Raise (AssertionError "Unexpected fake param or buffer") ↔
   ∃ n x, (n, x) ∈ named_buffers mod_ ++ named_parameters mod_ ∧
          is_fake w x = true).
Proof.
  unfold no_fake_params_or_buffers.
  induction (named_buffers mod_ ++ named_parameters mod_) as [|[n x] l [IH1 IH2]];
    simpl.
  - split; split; try done.
    + by intros _ n x Hin%elem_of_nil.
    + by intros (n & x & Hin%elem_of_nil & _).
  - destruct (is_fake w x) eqn:Hx; simpl.
    + split; split; try done.
      * intros Hall. specialize (Hall n x (list_elem_of_here _ _)). congruence.
      * intros _. exists n, x. split; [apply list_elem_of_here | done].
    + split; split.
      * intros Hl n' x' [[= -> ->]|Hin]%elem_of_cons; [done|].
        by apply (proj1 IH1 Hl n' x').
      * intros Hall. apply IH1. intros n' x' Hin.
        apply (Hall n' x'). by apply list_elem_of_further.
      * intros Hl. destruct (proj1 IH2 Hl) as (n' & x' & Hin & Hf).
        exists n', x'. split; [by apply list_elem_of_further | done].
      * intros (n' & x' & [[= -> ->]|Hin]%elem_of_cons & Hf); [congruence|].
        apply IH2. by exists n', x'.
Qed.

(** C3, as amended.  When the check [assert_no_fake_params_or_buffers]
    rejects the module, or there is no sample input, or the first input
    carries no [FakeTensorMode] in its attribute [fake_mode], the compiler
    raises; it does so whatever [make_fx], [functionalize] and the
    interpreter are, that is, before they are called; and all it has done to
    the store is to switch gradient tracking on.  The exception is the one
    of the check, or of the two assertions, or the [AttributeError] of an
    input without the attribute [fake_mode]. *)
Theorem compile_fn_aborts_before_tracing (T : Torch) mod_ fake_inputs w :
  (∃ e, assert_no_fake_params_or_buffers mod_ (set_grad_enabled_w true w)
        = Raise e) ∨
  fake_inputs = [] ∨
  (∃ x0, fake_inputs !! 0%nat = Some x0 ∧
         ∀ m, tensors w !! x0 ≫= t_fake_mode ≠ Some (FakeTensorMode m)) →
  ∃ e,
    (assert_no_fake_params_or_buffers mod_ (set_grad_enabled_w true w)
       = Raise e ∨
     e = AssertionError "Expected at least one input" ∨
     e = AttributeError "fake_mode" ∨
     e = AssertionError "Expected a valid FakeTensorMode on dynamo inputs") ∧
    ∀ mk fn ir,
      @_compile_fn (mkTorch (@assert_no_fake_params_or_buffers T) mk fn ir)
        mod_ fake_inputs w
      = (set_grad_enabled_w true w, Raise e).
Proof.
  intros Hpre.
  destruct (assert_no_fake_params_or_buffers mod_ (set_grad_enabled_w true w))
    as [[]|e] eqn:Hchk.
  2:{ exists e. split; [by left|]. intros mk fn ir.
      unfold _compile_fn, bind, set_grad_enabled, modify, check. simpl.
      by rewrite Hchk. }
  destruct Hpre as [[e He]|[->|(x0 & Hx0 & Hmode)]]; [done| |].
  - exists (AssertionError "Expected at least one input").
    split; [by right; left|]. intros mk fn ir.
    unfold _compile_fn, bind, set_grad_enabled, modify, check. simpl.
    by rewrite Hchk.
  - destruct fake_inputs as [|x fake_inputs]; [done|].
    injection Hx0 as ->.
    destruct (tensors w !! x0 ≫= t_fake_mode) as [[m|]|] eqn:Hfm.
    + by destruct (Hmode m).
    + exists (AssertionError "Expected a valid FakeTensorMode on dynamo inputs").
      split; [by right; right; right|]. intros mk fn ir.
      unfold _compile_fn, bind, set_grad_enabled, modify, check. simpl.
      rewrite Hchk. simpl. by rewrite Hfm.
    + exists (AttributeError "fake_mode").
      split; [by right; right; left|]. intros mk fn ir.
      unfold _compile_fn, bind, set_grad_enabled, modify, check. simpl.
      rewrite Hchk. simpl. by rewrite Hfm.
Qed.

Lemma compile_fn_aborts_before_tracing_witness :
  ∃ e,
    (no_fake_params_or_buffers (demo_module (VTuple [VNone]))
       (set_grad_enabled_w true fake_param_world) = Raise e ∨
     e = AssertionError "Expected at least one input" ∨
     e = AttributeError "fake_mode" ∨
     e = AssertionError "Expected a valid FakeTensorMode on dynamo inputs") ∧
    ∀ mk fn ir,
      @_compile_fn (mkTorch no_fake_params_or_buffers mk fn ir)
        (demo_module (VTuple [VNone])) [2%positive] fake_param_world
      = (set_grad_enabled_w true fake_param_world, Raise e).
Proof.
  apply (compile_fn_aborts_before_tracing demo_torch
           (demo_module (VTuple [VNone])) [2%positive] fake_param_world).
  left. eexists. vm_compute. reflexivity.
Defined.

(** C3 as stated fails: the parameter of the module is materialized (a real
    tensor), there is a sample input and it carries a [FakeTensorMode]; the
    check passes and the compilation runs to its end. *)
Lemma materialized_parameters_are_accepted :
  is_fake (compile_world false) 1%positive = false ∧
  no_fake_params_or_buffers (demo_module (VTuple [VNone]))
    (set_grad_enabled_w true (compile_world false)) = Return tt ∧
  returned (@_compile_fn demo_torch (demo_module (VTuple [VNone]))
              [2%positive] (compile_world false)) = true.
Proof. split_and!; vm_compute; reflexivity. Qed.

(** *** The stages of a compilation that returns *)

Lemma keeps_run {A} (c : M A) w w1 r :
  keeps_flags c → c w = (w1, r) →
  allow_non_fake_inputs w1 = allow_non_fake_inputs w.
Proof. intros Hk Hc. specialize (Hk w). by rewrite Hc in Hk. Qed.

(** What has happened when [_compile_fn] returns: each line in turn, with
    the store it ran in. *)
Lemma compile_fn_trace (T : Torch) mod_ fake_inputs w w' c :
  _compile_fn mod_ fake_inputs w = (w', Return c) →
  ∃ tr, compilation mod_ fake_inputs w tr w' c.
Proof.
  unfold _compile_fn. intros H.
  apply bind_inv in H as (w1 & [] & H1 & H). injection H1 as <-.
  apply bind_inv in H as (w2 & [] & H2 & H).
  unfold check in H2. injection H2 as <- H2.
  apply bind_inv in H as (w3 & [] & H3 & H).
  destruct fake_inputs as [|x0 fake_inputs]; [done|]. injection H3 as <-.
  apply bind_inv in H as (w4 & x0' & H4 & H). injection H4 as <- <-.
  apply bind_inv in H as (w5 & fm & H5 & H).
  apply lift_opt_inv in H5 as [-> H5]. simpl in H5.
  destruct (tensors w !! x0) as [tx|] eqn:Hx0; [|done]. simpl in H5.
  apply bind_inv in H as (w6 & m' & H6 & H).
  destruct fm as [m|]; [|done]. injection H6 as <- <-.
  cbn [tree_flatten] in H.
  apply bind_inv in H as (w7 & fpf & H7 & H).
  apply bind_inv in H as (w7' & opt & Hopt & H).
  unfold getattr___optimizer_0 in Hopt.
  destruct (has___optimizer_0 mod_) eqn:Hattr; [|done].
  injection Hopt as <- <-.
  apply bind_inv in H as (w8 & p0 & H8 & H).
  apply lift_opt_inv in H8 as [-> H8].
  apply bind_inv in H as (w9 & t0 & H9 & H).
  apply lift_opt_inv in H9 as [-> H9].
  apply bind_inv in H as (w10 & [] & H10 & H). injection H10 as <-.
  apply bind_inv in H as (w11 & first_loss & H11 & H).
  apply bind_inv in H as (w12 & [] & H12 & H). injection H12 as <-.
  apply bind_inv in H as (w13 & [] & H13 & H).
  apply bind_inv in H as (w14 & fake_params & H14 & H).
  assert (w14 = w13) as ->.
  { revert H14. unfold unflatten_dict.
    destruct (tree_unflatten _ _) as [t|]; [|done].
    intros [-> _]%lift_opt_inv. done. }
  apply bind_inv in H as (w15 & named_states & H15 & H).
  assert (w15 = w13) as -> by (by injection H15 as <- _).
  apply bind_inv in H as (w16 & [nsf nss] & H16 & H).
  assert (w16 = w13) as ->.
  { revert H16. unfold flatten_named_states. intros H16.
    apply bind_inv in H16 as (wa & items & Hm & Hr). injection Hr as <- _.
    revert Hm. generalize items. clear.
    induction named_states as [|[n r] l IH]; simpl; intros items Hm.
    - by injection Hm as <- _.
    - apply bind_inv in Hm as (wb & y & Hy & Hm).
      apply bind_inv in Hy as (wc & rec & Hrec & Hy).
      unfold get_record in Hrec. apply lift_opt_inv in Hrec as [-> _].
      injection Hy as <- _.
      apply bind_inv in Hm as (wd & ys & Hys & Hm). injection Hm as <- _.
      by apply (IH ys). }
  apply bind_inv in H as (w17 & fnsf & H17 & H).
  apply bind_inv in H as (w18 & fx_g & H18 & H).
  apply bind_inv in H as (w19 & [] & H19 & H). injection H19 as <-.
  apply bind_inv in H as (w20 & ffg & H20 & H). injection H as <- <-.
  exists (mkTrace m fpf w7 (t_device t0) first_loss w11 w13 fake_params
            named_states nsf nss fnsf w17 fx_g w18 ffg).
  unfold compilation. simpl. split_and!; try done.
  - by exists x0, tx.
  - by exists p0, t0.
Qed.

(** The other way round: a run that goes through these values is a run of
    [_compile_fn] that returns. *)
Lemma compilation_run (T : Torch) mod_ fake_inputs w tr w' c :
  compilation mod_ fake_inputs w tr w' c →
  _compile_fn mod_ fake_inputs w = (w', Return c).
Proof.
  intros (Hchk & (x0 & tx & Hx0 & Htx & Hm) & H7 & Hattr
          & (p0 & t0 & Hp0 & Ht0 & Hdev) & H11 & H13 & H14 & H15 & H16 & H17
          & H18 & H20 & ->).
  unfold _compile_fn.
  rewrite (bind_return _ _ w (set_grad_enabled_w true w) tt) by reflexivity.
  rewrite (bind_return _ _ _ (set_grad_enabled_w true w) tt)
    by (unfold check; by rewrite Hchk).
  rewrite (bind_return _ _ _ (set_grad_enabled_w true w) tt)
    by (by destruct fake_inputs).
  rewrite (bind_return _ _ _ (set_grad_enabled_w true w) x0)
    by (by rewrite Hx0).
  rewrite (bind_return _ _ _ (set_grad_enabled_w true w)
             (FakeTensorMode (tr_fake_mode tr)))
    by (simpl; rewrite Htx; simpl; by rewrite Hm).
  rewrite (bind_return _ _ _ (set_grad_enabled_w true w) (tr_fake_mode tr))
    by reflexivity.
  cbn [tree_flatten].
  erewrite bind_return by exact H7.
  erewrite (bind_return _ _ _ (tr_after_fakeify tr) (__optimizer_0 mod_))
    by (unfold getattr___optimizer_0; by rewrite Hattr).
  erewrite (bind_return _ _ _ (tr_after_fakeify tr) p0)
    by (change (leaves (of_flat_items
                  (PyDict.merge (PyDict.of_pairs (named_parameters mod_))
                     (PyDict.of_pairs (named_buffers mod_)))))
          with (params_flat_of mod_); by rewrite Hp0).
  erewrite (bind_return _ _ _ (tr_after_fakeify tr) t0)
    by (unfold get_tensor; by rewrite Ht0).
  erewrite bind_return by reflexivity.
  erewrite bind_return by exact H11.
  erewrite bind_return by reflexivity.
  rewrite <- Hdev.
  erewrite bind_return by exact H13.
  erewrite bind_return by exact H14.
  erewrite bind_return by exact H15.
  erewrite bind_return by exact H16.
  cbv beta iota.
  erewrite bind_return by exact H17.
  erewrite bind_return by exact H18.
  erewrite bind_return by reflexivity.
  erewrite bind_return by exact H20.
  reflexivity.
Qed.

Lemma compile_fn_stages (T : Torch) mod_ fake_inputs w w' c :
  _compile_fn mod_ fake_inputs w = (w', Return c) →
  ∃ x0 tx m fpf w7 p0 t0 w11 first_loss w13 fake_params named_states
    nsf nss fnsf w17 fx_g w18 ffg,
    assert_no_fake_params_or_buffers mod_ (set_grad_enabled_w true w)
      = Return tt ∧
    fake_inputs !! 0%nat = Some x0 ∧ tensors w !! x0 = Some tx ∧
    t_fake_mode tx = Some (FakeTensorMode m) ∧
    fakeify_inputs m (map LTensor (params_flat_of mod_))
      (set_grad_enabled_w true w) = (w7, Return fpf) ∧
    params_flat_of mod_ !! 0%nat = Some p0 ∧ tensors w7 !! p0 = Some t0 ∧
    functional_call mod_ (__optimizer_0 mod_) (length (params_flat_of mod_)) 0
      (params_spec_of mod_) (fpf ++ fake_inputs)
      (set_allow_non_fake_inputs_w (<[m := true]> (allow_non_fake_inputs w7)) w7)
      = (w11, Return first_loss) ∧
    convert_fake_states (t_device t0)
      (set_allow_non_fake_inputs_w (<[m := false]> (allow_non_fake_inputs w11)) w11)
      = (w13, Return tt) ∧
    unflatten_dict fpf (params_spec_of mod_) w13 = (w13, Return fake_params) ∧
    build_named_states fake_params w13 = (w13, Return named_states) ∧
    flatten_named_states named_states w13 = (w13, Return (nsf, nss)) ∧
    fakeify_inputs m nsf w13 = (w17, Return fnsf) ∧
    make_fx (functional_call_2 mod_ (__optimizer_0 mod_)
               (length (params_flat_of mod_)) (length nsf)
               (params_spec_of mod_) nss)
      (fpf ++ fnsf ++ fake_inputs) w17 = (w18, Return fx_g) ∧
    with_inference_mode
      (make_fx (functionalize (Interpreter_run fx_g))
         (fpf ++ fnsf ++ fake_inputs))
      (set_grad_enabled_w false w18) = (w', Return ffg) ∧
    c = call_without_params ffg (params_flat_of mod_) (leaf_ids nsf).
Proof.
  intros ([m fpf w7 dev first_loss w11 w13 fake_params named_states nsf nss
           fnsf w17 fx_g w18 ffg]
          & Hchk & (x0 & tx & Hx0 & Htx & Hm) & H7 & Hattr
          & (p0 & t0 & Hp0 & Ht0 & Hdev) & H11 & H13 & H14 & H15 & H16 & H17
          & H18 & H20 & Hc)%compile_fn_trace.
  simpl in *. subst dev.
  exists x0, tx, m, fpf, w7, p0, t0, w11, first_loss, w13, fake_params,
    named_states, nsf, nss, fnsf, w17, fx_g, w18, ffg.
  split_and!; done.
Qed.

(** *** The output check (lines 105-109 and 173-177) *)

(** When the call inside the two scopes returns, the module returned that
    value. *)
Lemma call_module_inv mod_ opt ns pd args w w' out :
  call_module mod_ opt ns pd args w = (w', Return out) →
  ∃ wi wo, forward mod_ args wi = (wo, Return out).
Proof.
  unfold call_module, _reparametrize_module, _rematerialize_optimizer.
  intros (w1 & s & w2 & _ & Hb & _)%with_inv.
  apply with_inv in Hb as (w3 & s' & w4 & _ & Hf & _). by exists w3, w4.
Qed.

(** A wrapper that returns has called the module on the runtime arguments,
    and what the module returned was a tuple or a list. *)
Lemma functional_call_inv mod_ opt pl nl spec args w w' out :
  functional_call mod_ opt pl nl spec args w = (w', Return out) →
  is_tuple_or_list out = true ∧
  ∃ wi wo, forward mod_ (drop (pl + nl) args) wi = (wo, Return out).
Proof.
  unfold functional_call.
  intros (w1 & pd & _ & (w2 & out' & Hcall & Hchk)%bind_inv)%bind_inv.
  unfold check_output in Hchk.
  destruct (is_tuple_or_list out') eqn:Hseq; [|done]. injection Hchk as _ ->.
  split; [done|]. by apply call_module_inv in Hcall.
Qed.

(** [fakeify_inputs] returns one placeholder for each element. *)
Lemma fakeify_inputs_length m xs : ∀ w w' ys,
  fakeify_inputs m xs w = (w', Return ys) → length ys = length xs.
Proof.
  unfold fakeify_inputs.
  induction xs as [|x xs IH]; intros w w' ys Hrun; simpl in *.
  - by injection Hrun as _ <-.
  - apply bind_inv in Hrun as (w1 & y & Hy & Hrun).
    apply bind_inv in Hrun as (w2 & ys' & Hys & Hrun). injection Hrun as _ <-.
    simpl. by rewrite (IH _ _ _ Hys).
Qed.

(** C4, as amended.  In both wrappers, once the module has been called
    inside the two scopes and has returned [out], the wrapper raises the
    [RuntimeError] of lines 106-108 when [out] is neither a tuple nor a
    list, and returns [out] when it is one of the two, flat or not: the
    check is [isinstance(out, (tuple, list))] and does not look inside.
    The error is not caught: a compilation that returns has called the
    module on the sample inputs in its warm-up, and what the module returned
    there was a tuple or a list. *)
Theorem wrappers_check_output mod_ :
  (∀ opt pl nl spec args w pd w1 out,
     unflatten_dict (take pl args) spec w = (w, Return pd) →
     call_module mod_ opt None pd (drop (pl + nl) args) w = (w1, Return out) →
     functional_call mod_ opt pl nl spec args w
     = (w1, if is_tuple_or_list out then Return out else Raise output_error)) ∧
  (∀ opt pl nl spec nspec args w pd wb nd w1 out,
     unflatten_dict (take pl args) spec w = (w, Return pd) →
     unflatten_named_states (take nl (drop pl args)) nspec w
       = (wb, Return nd) →
     call_module mod_ opt (Some nd) pd (drop (pl + nl) args) wb
       = (w1, Return out) →
     functional_call_2 mod_ opt pl nl spec nspec args w
     = (w1, if is_tuple_or_list out then Return out else Raise output_error)) ∧
  (∀ (T : Torch) fake_inputs w0 w' c,
     _compile_fn mod_ fake_inputs w0 = (w', Return c) →
     ∃ wi wo out,
       forward mod_ fake_inputs wi = (wo, Return out) ∧
       is_tuple_or_list out = true).
Proof.
  split_and!.
  - intros opt pl nl spec args w pd w1 out Hpd Hcall. unfold functional_call.
    rewrite (bind_return _ _ _ _ _ Hpd).
    rewrite (bind_return _ _ _ _ _ Hcall).
    unfold check_output. by destruct (is_tuple_or_list out).
  - intros opt pl nl spec nspec args w pd wb nd w1 out Hpd Hnd Hcall.
    unfold functional_call_2.
    rewrite (bind_return _ _ _ _ _ Hpd).
    rewrite (bind_return _ _ _ _ _ Hnd).
    rewrite (bind_return _ _ _ _ _ Hcall).
    unfold check_output. by destruct (is_tuple_or_list out).
  - intros T fake_inputs w0 w' c Hrun.
    destruct (compile_fn_stages _ _ _ _ _ _ Hrun)
      as (x0 & tx & m & fpf & w7 & p0 & t0 & w11 & first_loss & w13
          & fake_params & named_states & nsf & nss & fnsf & w17 & fx_g & w18
          & ffg & _ & _ & _ & _ & H7 & _ & _ & H11 & _).
    apply fakeify_inputs_length in H7. rewrite length_map in H7.
    apply functional_call_inv in H11 as (Hseq & wi & wo & Hf).
    rewrite Nat.add_0_r, <- H7, drop_app_length in Hf.
    by exists wi, wo, first_loss.
Qed.

Lemma wrappers_check_output_witness :
  functional_call (demo_module (VTensor 2%positive)) (Some optimizer_obj)
    1 0 (params_spec_of (demo_module (VTensor 2%positive)))
    [1%positive; 2%positive] (compile_world true)
  = ((call_module (demo_module (VTensor 2%positive)) (Some optimizer_obj)
        None [("w", 1%positive)] [2%positive] (compile_world true)).1,
     Raise output_error).
Proof.
  apply (proj1 (wrappers_check_output (demo_module (VTensor 2%positive)))
           (Some optimizer_obj) 1 0
           (params_spec_of (demo_module (VTensor 2%positive)))
           [1%positive; 2%positive] (compile_world true) [("w", 1%positive)]
           _ (VTensor 2%positive)).
  - reflexivity.
  - vm_compute. reflexivity.
Defined.

(** A body that returns a bare tensor: the compilation raises the error of
    the check, out of the warm-up call (the mode still allows non-fake
    inputs: line 131 has not run). *)
Example bare_tensor_is_refused :
  let r := @_compile_fn demo_torch (demo_module (VTensor 2%positive))
             [2%positive] (compile_world false) in
  r.2 = Raise output_error ∧
  allow_non_fake_inputs r.1 !! 9%positive = Some true.
Proof. split; vm_compute; reflexivity. Qed.

(** C4 as stated fails: the output is a tuple that holds a tuple, so it is
    not a flat sequence; the check accepts it and the compilation returns. *)
Lemma nested_output_is_accepted :
  is_flat_sequence nested_output = false ∧
  check_output nested_output (compile_world false)
    = (compile_world false, Return nested_output) ∧
  returned (@_compile_fn demo_torch (demo_module nested_output)
              [2%positive] (compile_world false)) = true.
Proof. split_and!; vm_compute; reflexivity. Qed.

(** *** The flag [allow_non_fake_inputs] (lines 129-131) *)

Lemma returned_Return {A} (r : World * Outcome A) :
  returned r = true → ∃ a, r = (r.1, Return a).
Proof. destruct r as [w [a|e]]; [|done]. intros _. by exists a. Qed.

Lemma keeps_train_step out : callable_keeps_flags (train_step out).
Proof.
  intros args. unfold train_step, adam_like_init. keeps.
Qed.

Lemma demo_torch_keeps_flags : tracing_keeps_flags demo_torch.
Proof.
  split; simpl; try done.
  - intros f args Hf. unfold trace_by_running.
    apply keeps_bind; [apply Hf | intros _; apply keeps_ret].
  - intros f args w w' g Hf Hrun. unfold trace_by_running in Hrun.
    apply bind_inv in Hrun as (w1 & v & _ & Hr). by injection Hr as _ <-.
Qed.

(** C10, as amended.  A run of [_compile_fn] that returns has gone through
    lines 62-207 in turn ([compilation]), and the attribute
    [allow_non_fake_inputs] of the modes has this history, [m] being the
    mode of the first input.  Up to line 128 nothing writes it.  The
    warm-up call of line 130 starts in the store line 87 left, with the
    attribute of [m] set to [True] (line 129) and nothing else changed.  The
    statement after the warm-up call, the conversion of lines 134-141,
    starts in the store the warm-up call left with the attribute of [m] set
    to [False] (line 131) and nothing else changed: the attribute is reset
    as soon as the call has returned, and it is set to [False], not to what
    it was on entry.  Lines 134-150 do not write it.  Whether it is still
    [False] on return is up to the code that runs in between and is not in
    this file: if calling the module does not write the attribute, the
    warm-up call leaves it as line 129 set it; if moreover [make_fx],
    [functionalize] and the interpreter write it only when the callable
    they run does, then on return the attribute of [m] is [False] and the
    attribute of every other mode is as on entry, so that the attributes are
    unchanged by the compilation if, and only if, the attribute of [m] was
    [False] on entry. *)
Theorem compile_fn_resets_flag (T : Torch) mod_ fake_inputs w w' c :
  _compile_fn mod_ fake_inputs w = (w', Return c) →
  ∃ tr,
    compilation mod_ fake_inputs w tr w' c ∧
    let m := tr_fake_mode tr in
    let before_warm_up :=
      set_allow_non_fake_inputs_w
        (<[m := true]> (allow_non_fake_inputs (tr_after_fakeify tr)))
        (tr_after_fakeify tr) in
    let after_reset :=
      set_allow_non_fake_inputs_w
        (<[m := false]> (allow_non_fake_inputs (tr_after_warm_up tr)))
        (tr_after_warm_up tr) in
    (* lines 62-128 *)
    allow_non_fake_inputs (tr_after_fakeify tr) = allow_non_fake_inputs w ∧
    (* lines 129-130 *)
    functional_call mod_ (__optimizer_0 mod_) (length (params_flat_of mod_)) 0
      (params_spec_of mod_) (tr_fake_params_flat tr ++ fake_inputs)
      before_warm_up
      = (tr_after_warm_up tr, Return (tr_first_loss tr)) ∧
    allow_non_fake_inputs before_warm_up
      = <[m := true]> (allow_non_fake_inputs w) ∧
    (* line 131 and the statement after it *)
    convert_fake_states (tr_dev tr) after_reset
      = (tr_after_conversion tr, Return tt) ∧
    allow_non_fake_inputs after_reset !! m = Some false ∧
    (* lines 134-150 *)
    allow_non_fake_inputs (tr_after_conversion tr)
      = allow_non_fake_inputs after_reset ∧
    allow_non_fake_inputs (tr_before_trace tr)
      = allow_non_fake_inputs after_reset ∧
    (* a module that does not write the attribute *)
    (callable_keeps_flags (forward mod_) →
     allow_non_fake_inputs (tr_after_warm_up tr)
       = <[m := true]> (allow_non_fake_inputs w) ∧
     allow_non_fake_inputs after_reset
       = <[m := false]> (allow_non_fake_inputs w) ∧
     (* and tracing that does not write it *)
     (tracing_keeps_flags T →
      allow_non_fake_inputs (tr_after_trace tr)
        = <[m := false]> (allow_non_fake_inputs w) ∧
      allow_non_fake_inputs w' = <[m := false]> (allow_non_fake_inputs w) ∧
      allow_non_fake_inputs w' !! m = Some false ∧
      (allow_non_fake_inputs w !! m = Some false ↔
       allow_non_fake_inputs w' = allow_non_fake_inputs w))).
Proof.
  intros Hrun.
  destruct (compile_fn_trace _ _ _ _ _ _ Hrun) as (tr & Hc).
  exists tr. split; [exact Hc|].
  destruct Hc as (_ & _ & H7 & _ & _ & H11 & H13 & _ & _ & _ & H17 & H18
                  & H20 & _).
  pose proof (keeps_run _ _ _ _ (keeps_fakeify_inputs _ _) H7) as F7.
  pose proof (keeps_run _ _ _ _ (keeps_convert_fake_states _) H13) as F13.
  pose proof (keeps_run _ _ _ _ (keeps_fakeify_inputs _ _) H17) as F17.
  simpl in F7, F13, F17. cbn zeta.
  split_and!.
  - exact F7.
  - exact H11.
  - simpl. by rewrite F7.
  - exact H13.
  - simpl. apply lookup_insert_eq.
  - exact F13.
  - simpl. by rewrite F17, F13.
  - intros Hfwd.
    pose proof (keeps_run _ _ _ _
                  (keeps_functional_call _ _ _ _ _ Hfwd _) H11) as F11.
    simpl in F11.
    assert (<[tr_fake_mode tr := false]>
              (allow_non_fake_inputs (tr_after_warm_up tr))
            = <[tr_fake_mode tr := false]> (allow_non_fake_inputs w))
      as Hreset by (rewrite F11, F7; apply insert_insert_eq).
    split_and!.
    + by rewrite F11, F7.
    + exact Hreset.
    + intros HT.
      pose proof (keeps_functional_call_2 mod_ (__optimizer_0 mod_)
                    (length (params_flat_of mod_))
                    (length (tr_named_states_flat tr))
                    (params_spec_of mod_) (tr_named_states_spec tr) Hfwd)
        as Hfc2.
      pose proof (keeps_run _ _ _ _ (make_fx_keeps T HT _ _ Hfc2) H18) as F18.
      pose proof (make_fx_graph_keeps T HT _ _ _ _ _ Hfc2 H18) as Hg.
      pose proof (keeps_run _ _ _ _
                    (keeps_with_inference_mode _
                       (make_fx_keeps T HT _
                          (tr_fake_params_flat tr
                             ++ tr_fake_named_states_flat tr ++ fake_inputs)
                          (functionalize_keeps T HT _
                             (Interpreter_run_keeps T HT _ Hg)))) H20) as F20.
      simpl in F18, F20.
      assert (allow_non_fake_inputs w'
              = <[tr_fake_mode tr := false]> (allow_non_fake_inputs w))
        as Hfinal by (by rewrite F20, F18, F17, F13).
      split_and!.
      * by rewrite F18, F17, F13.
      * exact Hfinal.
      * rewrite Hfinal. apply lookup_insert_eq.
      * rewrite Hfinal. split.
        -- intros Hf. by apply insert_id.
        -- intros Heq. rewrite <- Heq. apply lookup_insert_eq.
Qed.

Lemma compile_fn_resets_flag_witness :
  let w := compile_world true in
  let r := @_compile_fn demo_torch (demo_module (VTuple [VNone]))
             [2%positive] w in
  ∃ tr,
    allow_non_fake_inputs (tr_after_fakeify tr) = allow_non_fake_inputs w ∧
    allow_non_fake_inputs (tr_after_warm_up tr)
      = <[tr_fake_mode tr := true]> (allow_non_fake_inputs w) ∧
    allow_non_fake_inputs (tr_after_conversion tr)
      = <[tr_fake_mode tr := false]> (allow_non_fake_inputs w) ∧
    allow_non_fake_inputs r.1
      = <[tr_fake_mode tr := false]> (allow_non_fake_inputs w).
Proof.
  intros w r.
  destruct (returned_Return r) as [c Hc]; [vm_compute; reflexivity|].
  destruct (compile_fn_resets_flag demo_torch (demo_module (VTuple [VNone]))
              [2%positive] w r.1 c Hc)
    as (tr & _ & F7 & _ & _ & _ & _ & F13 & _ & Hmod).
  destruct (Hmod (keeps_train_step _)) as (F11 & Hreset & Htrace).
  destruct (Htrace demo_torch_keeps_flags) as (_ & Hfinal & _).
  exists tr. split_and!.
  - exact F7.
  - exact F11.
  - exact (eq_trans F13 Hreset).
  - exact Hfinal.
Defined.

(** C10 as stated fails in its last part: a mode that allows non-fake
    inputs on entry does not after a compilation that returns. *)
Lemma flag_is_not_restored :
  let r := @_compile_fn demo_torch (demo_module (VTuple [VNone]))
             [2%positive] (compile_world true) in
  returned r = true ∧
  allow_non_fake_inputs (compile_world true) !! 9%positive = Some true ∧
  allow_non_fake_inputs r.1 !! 9%positive = Some false.
Proof. split_and!; vm_compute; reflexivity. Qed.

(** *** The compiled callable (lines 201-207) *)

(** [fakeify_inputs] asserts that every element is a tensor, so a sequence
    it has accepted is the sequence of its tensors. *)
Lemma fakeify_inputs_tensors m xs : ∀ w w' ys,
  fakeify_inputs m xs w = (w', Return ys) →
  map LTensor (leaf_ids xs) = xs.
Proof.
  unfold fakeify_inputs.
  induction xs as [|x xs IH]; intros w w' ys Hrun; simpl in *; [done|].
  apply bind_inv in Hrun as (w1 & y & Hy & Hrun).
  apply bind_inv in Hrun as (w2 & ys' & Hys & Hrun).
  destruct x as [id|z]; [|done].
  unfold leaf_ids in *. simpl. by rewrite (IH _ _ _ Hys).
Qed.


(** The compiled callable of the example, called on one runtime argument:
    it returns the output of the train step and leaves gradient tracking as
    it found it. *)
Example compiled_callable_runs :
  let r := @_compile_fn demo_torch (demo_module (VTuple [VNone]))
             [2%positive] (compile_world false) in
  match r.2 with
  | Return c =>
      (c [2%positive] (set_grad_enabled_w true r.1)).2 = Return (VTuple [VNone]) ∧
      grad_enabled (c [2%positive] (set_grad_enabled_w true r.1)).1 = true
  | Raise _ => False
  end.
Proof. vm_compute. split; reflexivity. Qed.

End CompileFacts.

(** ** The optimizer scope: entry, failure and round trip *)

Module ScopeFacts.
Import Py TrainStep ScopePredicates Examples MoreExamples MonadFacts.
Local Open Scope py_scope.

Lemma set_opt_state_twice st st' w :
  set_opt_state st (set_opt_state st' w) = set_opt_state st w.
Proof. done. Qed.

Lemma set_opt_state_id w : set_opt_state (opt_state w) w = w.
Proof. by destruct w. Qed.

(** The loop of lines 28-31 over names that all name a state and a
    parameter. *)
Lemma merge_loop ns params (l : list string) : ∀ w,
  (∀ n, n ∈ l → is_Some (PyDict.get n ns) ∧ is_Some (PyDict.get n params)) →
  for_each l (λ n,
    v <- lift_opt (PyDict.get n ns) (KeyError n) ;;
    p <- lift_opt (PyDict.get n params) (KeyError n) ;;
    modify (λ w, set_opt_state (<[p := v]> (opt_state w)) w)) w
  = (set_opt_state (merge_states ns params l (opt_state w)) w, Return tt).
Proof.
  induction l as [|n l IH]; intros w Hl.
  - simpl. by rewrite set_opt_state_id.
  - destruct (Hl n) as [[v Hv] [p Hp]]; [apply list_elem_of_here|].
    simpl. unfold bind at 1. unfold bind at 1.
    rewrite Hv. simpl. unfold bind at 1. rewrite Hp. simpl.
    rewrite IH by (intros n' Hn'; apply Hl; by apply list_elem_of_further).
    by rewrite set_opt_state_twice.
Qed.

(** The loop stops at the first name that names no parameter. *)
Lemma merge_loop_stops ns params (before after : list string) n w :
  (∀ m, m ∈ before →
     is_Some (PyDict.get m ns) ∧ is_Some (PyDict.get m params)) →
  is_Some (PyDict.get n ns) → PyDict.get n params = None →
  for_each (before ++ n :: after) (λ n,
    v <- lift_opt (PyDict.get n ns) (KeyError n) ;;
    p <- lift_opt (PyDict.get n params) (KeyError n) ;;
    modify (λ w, set_opt_state (<[p := v]> (opt_state w)) w)) w
  = (set_opt_state (merge_states ns params before (opt_state w)) w,
     Raise (KeyError n)).
Proof.
  revert w. induction before as [|m before IH]; intros w Hb [v Hv] Hp.
  - simpl. unfold bind at 1. unfold bind at 1. rewrite Hv. simpl.
    unfold bind at 1. rewrite Hp. simpl. by rewrite set_opt_state_id.
  - destruct (Hb m) as [[v' Hv'] [p' Hp']]; [apply list_elem_of_here|].
    simpl. unfold bind at 1. unfold bind at 1.
    rewrite Hv'. simpl. unfold bind at 1. rewrite Hp'. simpl.
    rewrite IH; [by rewrite set_opt_state_twice | | by eexists | done].
    intros m' Hm'. apply Hb. by apply list_elem_of_further.
Qed.

Lemma first_unknown {V} (params : list (string * V)) (l : list string) n :
  n ∈ l → PyDict.get n params = None →
  ∃ before n' after,
    l = before ++ n' :: after ∧
    (∀ m, m ∈ before → is_Some (PyDict.get m params)) ∧
    PyDict.get n' params = None.
Proof.
  induction l as [|m l IH]; intros Hin Hn; [by apply elem_of_nil in Hin|].
  destruct (PyDict.get m params) as [p|] eqn:Hm.
  - apply elem_of_cons in Hin as [->|Hin]; [congruence|].
    destruct (IH Hin Hn) as (before & n' & after & -> & Hb & Hn').
    exists (m :: before), n', after. split_and!; try done.
    intros m' [->|Hm']%elem_of_cons; [by eexists | by apply Hb].
  - exists [], m, l. split_and!; try done.
    by intros m' Hm'%elem_of_nil.
Qed.

(** A name that is not in the loop leaves the lookup of [p] alone. *)
Lemma merge_states_other ns params (l : list string) p : ∀ st,
  (∀ n, n ∈ l → PyDict.get n params ≠ Some p) →
  merge_states ns params l st !! p = st !! p.
Proof.
  unfold merge_states.
  induction l as [|n l IH]; intros st Hl; simpl; [done|].
  rewrite IH by (intros n' Hn'; apply Hl; by apply list_elem_of_further).
  destruct (PyDict.get n ns) as [v|]; [|done].
  destruct (PyDict.get n params) as [p'|] eqn:Hp'; [|done].
  apply lookup_insert_ne. intros ->.
  by apply (Hl n (list_elem_of_here _ _)).
Qed.

(** The last name that names [p] decides what the map holds under [p]. *)
Lemma merge_states_last ns params (l1 l2 : list string) n v p st :
  PyDict.get n ns = Some v → PyDict.get n params = Some p →
  (∀ n', n' ∈ l2 → PyDict.get n' params ≠ Some p) →
  merge_states ns params (l1 ++ n :: l2) st !! p = Some v.
Proof.
  intros Hv Hp Hl2. unfold merge_states. rewrite fold_left_app. simpl.
  rewrite Hv, Hp.
  fold (merge_states ns params l1 st).
  fold (merge_states ns params l2 (<[p := v]> (merge_states ns params l1 st))).
  rewrite merge_states_other by done. apply lookup_insert_eq.
Qed.

Lemma enter_with_names o ns params w :
  (∀ n, n ∈ PyDict.keys (truthy ns) → is_Some (PyDict.get n params)) →
  _rematerialize_optimizer_enter (Some o) ns params w
  = (param_group <-
       (λ w, lift_opt (opt_param_groups w !! 0%nat) IndexError w) ;;
     orig_params <- group_getitem param_group "params" ;;
     group_setitem param_group "params" (GDictValues params) ;;
     ret (mkSaved (opt_state w) param_group orig_params))
      (set_opt_state
         (merge_states (truthy ns) params (PyDict.keys (truthy ns))
            (opt_state w)) w).
Proof.
  intros Hns. unfold _rematerialize_optimizer_enter.
  rewrite (bind_return _ _ w w tt) by reflexivity.
  rewrite (bind_return _ _ w w (opt_state w)) by reflexivity.
  erewrite bind_return; [reflexivity|].
  apply merge_loop. intros n Hn. split; [|by apply Hns].
  by apply PyDictFacts.get_of_key.
Qed.

(** X1.  A named state whose name is not a name of [params]: line 31 raises
    [KeyError] for the first such name.  The scope is not entered: the body
    does not run and nothing is restored, so the states merged for the
    names before it stay in [opt.state]; the rest of the store is as it
    was. *)
Theorem rematerialize_unknown_name {A} (body : M A) o ns params w n :
  n ∈ PyDict.keys (truthy ns) → PyDict.get n params = None →
  ∃ before n' after,
    PyDict.keys (truthy ns) = before ++ n' :: after ∧
    (∀ m, m ∈ before → is_Some (PyDict.get m params)) ∧
    PyDict.get n' params = None ∧
    _rematerialize_optimizer (Some o) ns params body w
    = (set_opt_state
         (merge_states (truthy ns) params before (opt_state w)) w,
       Raise (KeyError n')).
Proof.
  intros Hin Hn.
  destruct (first_unknown params _ n Hin Hn)
    as (before & n' & after & Hk & Hb & Hn').
  exists before, n', after. split_and!; try done.
  assert (∀ m, m ∈ PyDict.keys (truthy ns) →
               is_Some (PyDict.get m (truthy ns))) as Hall
    by (intros m Hm; by apply PyDictFacts.get_of_key).
  unfold _rematerialize_optimizer, with_.
  apply bind_raise. unfold _rematerialize_optimizer_enter.
  rewrite (bind_return _ _ w w tt) by reflexivity.
  rewrite (bind_return _ _ w w (opt_state w)) by reflexivity.
  apply bind_raise. rewrite Hk. apply merge_loop_stops; try done.
  - intros m Hm. split; [|by apply Hb].
    apply Hall. rewrite Hk. apply elem_of_app. by left.
  - apply Hall. rewrite Hk. apply elem_of_app. right. apply list_elem_of_here.
Qed.

Lemma rematerialize_unknown_name_witness :
  ∃ before n' after,
    PyDict.keys (truthy (Some [("w", 40%positive); ("b", 41%positive);
                               ("c", 42%positive)]))
      = before ++ n' :: after ∧
    (∀ m, m ∈ before → is_Some (PyDict.get m [("w", 1%positive)])) ∧
    PyDict.get n' [("w", 1%positive)] = None ∧
    _rematerialize_optimizer (Some optimizer_obj)
      (Some [("w", 40%positive); ("b", 41%positive); ("c", 42%positive)])
      [("w", 1%positive)] (ret tt) remat_world
    = (set_opt_state
         (merge_states
            (truthy (Some [("w", 40%positive); ("b", 41%positive);
                           ("c", 42%positive)]))
            [("w", 1%positive)] before (opt_state remat_world)) remat_world,
       Raise (KeyError n')).
Proof.
  apply (rematerialize_unknown_name (ret tt) optimizer_obj
           (Some [("w", 40%positive); ("b", 41%positive); ("c", 42%positive)])
           [("w", 1%positive)] remat_world "c").
  - vm_compute. apply list_elem_of_further, list_elem_of_further,
      list_elem_of_here.
  - reflexivity.
Defined.

(** X2.  An optimizer without a parameter group, or whose first group has no
    entry ["params"]: line 34 raises [IndexError], line 35 [KeyError].  The
    named states have been merged by then and stay merged; the body does
    not run. *)
Theorem rematerialize_without_params_entry {A} (body : M A) o ns params w :
  (∀ n, n ∈ PyDict.keys (truthy ns) → is_Some (PyDict.get n params)) →
  (opt_param_groups w !! 0%nat ≫= λ g, group_of w g !! "params") = None →
  _rematerialize_optimizer (Some o) ns params body w
  = (set_opt_state
       (merge_states (truthy ns) params (PyDict.keys (truthy ns))
          (opt_state w)) w,
     Raise (no_params_entry w)).
Proof.
  intros Hns Hnone.
  unfold _rematerialize_optimizer, with_. apply bind_raise.
  rewrite enter_with_names by done.
  unfold no_params_entry, bind, group_getitem, group_of in *. simpl.
  destruct (opt_param_groups w !! 0%nat) as [g|]; simpl in *; [|done].
  by rewrite Hnone.
Qed.

Lemma rematerialize_without_params_entry_witness :
  _rematerialize_optimizer (Some optimizer_obj) (Some [("w", 40%positive)])
    [("w", 1%positive)] (ret tt) no_group_world
  = (set_opt_state
       (merge_states (truthy (Some [("w", 40%positive)])) [("w", 1%positive)]
          (PyDict.keys (truthy (Some [("w", 40%positive)])))
          (opt_state no_group_world)) no_group_world,
     Raise (no_params_entry no_group_world)).
Proof.
  apply (rematerialize_without_params_entry (ret tt) optimizer_obj
           (Some [("w", 40%positive)]) [("w", 1%positive)] no_group_world).
  - intros n Hn. apply list_elem_of_singleton in Hn as ->. simpl. by eexists.
  - reflexivity.
Defined.

(** X3.  What the body sees.  Once the scope is entered, the state map holds,
    under the parameter a name of [named_states] refers to, the state of
    the last such name (two names may refer to one parameter), and under
    any other key what it held before; the entry ["params"] of the first
    group is the values of [params], and the other entries of that group,
    the other groups and the rest of the store are as they were. *)
Theorem rematerialize_scope_view o ns params w g orig :
  (∀ n, n ∈ PyDict.keys (truthy ns) → is_Some (PyDict.get n params)) →
  opt_param_groups w !! 0%nat = Some g →
  group_of w g !! "params" = Some orig →
  ∃ w1,
    _rematerialize_optimizer_enter (Some o) ns params w
      = (w1, Return (mkSaved (opt_state w) g orig)) ∧
    (∀ l1 n l2 v p,
       PyDict.keys (truthy ns) = l1 ++ n :: l2 →
       PyDict.get n (truthy ns) = Some v → PyDict.get n params = Some p →
       (∀ n', n' ∈ l2 → PyDict.get n' params ≠ Some p) →
       opt_state w1 !! p = Some v) ∧
    (∀ p, (∀ n, n ∈ PyDict.keys (truthy ns) → PyDict.get n params ≠ Some p) →
       opt_state w1 !! p = opt_state w !! p) ∧
    group_of w1 g = <["params" := GDictValues params]> (group_of w g) ∧
    (∀ g', g' ≠ g → groups w1 !! g' = groups w !! g') ∧
    set_groups (groups w) (set_opt_state (opt_state w) w1) = w.
Proof.
  intros Hns Hg Horig.
  exists (set_groups (<[g := <["params" := GDictValues params]> (group_of w g)]>
                        (groups w))
            (set_opt_state
               (merge_states (truthy ns) params (PyDict.keys (truthy ns))
                  (opt_state w)) w)).
  split_and!.
  - rewrite enter_with_names by done.
    unfold bind, group_getitem, group_setitem, group_of, modify, ret in *.
    simpl. rewrite Hg. simpl. by rewrite Horig.
  - intros l1 n l2 v p Hk Hv Hp Hl2. simpl. rewrite Hk.
    by apply merge_states_last.
  - intros p Hp. simpl. by apply merge_states_other.
  - unfold group_of. simpl. by rewrite lookup_insert_eq.
  - intros g' Hne. simpl. by rewrite lookup_insert_ne.
  - by destruct w.
Qed.

Lemma rematerialize_scope_view_witness :
  ∃ w1,
    _rematerialize_optimizer_enter (Some optimizer_obj)
        (Some [("w", 40%positive)]) [("w", 1%positive)] remat_world
      = (w1, Return (mkSaved (opt_state remat_world) 20%positive
                       (GObj 30%positive))) ∧
    (∀ l1 n l2 v p,
       PyDict.keys (truthy (Some [("w", 40%positive)])) = l1 ++ n :: l2 →
       PyDict.get n (truthy (Some [("w", 40%positive)])) = Some v →
       PyDict.get n [("w", 1%positive)] = Some p →
       (∀ n', n' ∈ l2 → PyDict.get n' [("w", 1%positive)] ≠ Some p) →
       opt_state w1 !! p = Some v) ∧
    (∀ p, (∀ n, n ∈ PyDict.keys (truthy (Some [("w", 40%positive)])) →
                PyDict.get n [("w", 1%positive)] ≠ Some p) →
       opt_state w1 !! p = opt_state remat_world !! p) ∧
    group_of w1 20%positive
      = <["params" := GDictValues [("w", 1%positive)]]>
          (group_of remat_world 20%positive) ∧
    (∀ g', g' ≠ 20%positive → groups w1 !! g' = groups remat_world !! g') ∧
    set_groups (groups remat_world)
      (set_opt_state (opt_state remat_world) w1) = remat_world.
Proof.
  apply (rematerialize_scope_view optimizer_obj (Some [("w", 40%positive)])
           [("w", 1%positive)] remat_world 20%positive (GObj 30%positive)).
  - intros n Hn. apply list_elem_of_singleton in Hn as ->. simpl. by eexists.
  - reflexivity.
  - reflexivity.
Defined.

(** X4.  The round trip.  With no named states ([None] or an empty mapping), a
    body that leaves the state map and the parameter groups as it found
    them is run in a store that differs from the caller's in the entry
    ["params"] only, and on exit the state map and the parameter groups are
    exactly what they were before entry; the rest of the store is as the
    body left it. *)
Theorem rematerialize_round_trip {A} (body : M A) o ns params w g orig w2 r :
  truthy ns = [] →
  opt_param_groups w !! 0%nat = Some g →
  group_of w g !! "params" = Some orig →
  let w1 := set_groups
              (<[g := <["params" := GDictValues params]> (group_of w g)]>
                 (groups w)) w in
  body w1 = (w2, r) →
  opt_state w2 = opt_state w1 → groups w2 = groups w1 →
  _rematerialize_optimizer (Some o) ns params body w
  = (set_groups (groups w) (set_opt_state (opt_state w) w2), r).
Proof.
  intros Hns Hg Horig w1 Hb Hst Hgr.
  unfold _rematerialize_optimizer, with_.
  assert (_rematerialize_optimizer_enter (Some o) ns params w
          = (w1, Return (mkSaved (opt_state w) g orig))) as He.
  { rewrite enter_with_names by (rewrite Hns; by intros n Hn%elem_of_nil).
    rewrite Hns. simpl. rewrite set_opt_state_id.
    unfold bind, group_getitem, group_setitem, group_of, modify, ret in *.
    rewrite Hg. simpl. by rewrite Horig. }
  rewrite (bind_return _ _ _ _ _ He).
  unfold try_finally. rewrite Hb.
  unfold _rematerialize_optimizer_leave, bind, group_setitem, modify. simpl.
  f_equal.
  assert (groups w !! g = Some (group_of w g)) as Hgg.
  { unfold group_of in *. destruct (groups w !! g); [done|].
    simpl in Horig. by rewrite lookup_empty in Horig. }
  assert (<[g := <["params" := orig]> (group_of w2 g)]> (groups w2)
          = groups w) as ->.
  { unfold group_of at 1. rewrite Hgr. subst w1. simpl.
    rewrite lookup_insert_eq. simpl.
    rewrite !insert_insert_eq.
    rewrite (insert_id (group_of w g)) by done. by apply insert_id. }
  rewrite Hst. subst w1. simpl.
  assert (opt_state w ∪ opt_state w = opt_state w) as ->
    by apply map_union_idemp.
  by destruct w2.
Qed.

Lemma rematerialize_round_trip_witness :
  _rematerialize_optimizer (Some optimizer_obj) None [("w", 1%positive)]
    (put_tensor 7%positive (zeros_tensor [2] float32 cpu)) stateful_world
  = (set_groups (groups stateful_world)
       (set_opt_state (opt_state stateful_world)
          (set_tensors
             (<[7%positive := zeros_tensor [2] float32 cpu]>
                (tensors stateful_world))
             (set_groups
                (<[20%positive :=
                     <["params" := GDictValues [("w", 1%positive)]]>
                       (group_of stateful_world 20%positive)]>
                   (groups stateful_world)) stateful_world))),
     Return tt).
Proof.
  apply (rematerialize_round_trip
           (put_tensor 7%positive (zeros_tensor [2] float32 cpu))
           optimizer_obj None [("w", 1%positive)] stateful_world
           20%positive (GObj 30%positive)); reflexivity.
Defined.

End ScopeFacts.

(** ** Frame lemmas for an arbitrary observation of the store *)

Module FrameFacts.
Import Py PyTree TrainStep FramePredicates MonadFacts.
Local Open Scope py_scope.

Section Frame.
Context {X : Type} (f : World → X).

Lemma frame_ret {A} (a : A) : preserves f (ret a).
Proof. done. Qed.

Lemma frame_raise {A} e : preserves f (raise (A := A) e).
Proof. done. Qed.

Lemma frame_gets {A} (g : World → A) : preserves f (gets g).
Proof. done. Qed.

Lemma frame_check {A} (g : World → Outcome A) : preserves f (check g).
Proof. done. Qed.

Lemma frame_lift_opt {A} (o : option A) e : preserves f (lift_opt o e).
Proof. by destruct o. Qed.

Lemma frame_fun_lift_opt {A} (g : World → option A) e :
  preserves f (λ w, lift_opt (g w) e w).
Proof. intros w. by destruct (g w). Qed.

Lemma frame_assert c msg : preserves f (assert_ c msg).
Proof. by destruct c. Qed.

Lemma frame_modify (g : World → World) :
  (∀ w, f (g w) = f w) → preserves f (modify g).
Proof. intros Hg w. apply Hg. Qed.

Lemma frame_bind {A B} (c : M A) (k : A → M B) :
  preserves f c → (∀ a, preserves f (k a)) → preserves f (bind c k).
Proof.
  intros Hc Hk w. unfold bind. specialize (Hc w).
  destruct (c w) as [w1 [a|e]]; simpl in *; [|done].
  by rewrite Hk.
Qed.

Lemma frame_for_each {A} (l : list A) (g : A → M unit) :
  (∀ x, preserves f (g x)) → preserves f (for_each l g).
Proof.
  intros Hg. induction l as [|x l IH]; simpl; [apply frame_ret|].
  apply frame_bind; [apply Hg | by intros _].
Qed.

Lemma frame_map_m {A B} (g : A → M B) (l : list A) :
  (∀ x, preserves f (g x)) → preserves f (map_m g l).
Proof.
  intros Hg. induction l as [|x l IH]; simpl; [apply frame_ret|].
  apply frame_bind; [apply Hg|]. intros y.
  apply frame_bind; [apply IH|]. intros ys. apply frame_ret.
Qed.

Lemma frame_try_finally {A} (body : M A) (cleanup : M unit) :
  preserves f body → preserves f cleanup →
  preserves f (try_finally body cleanup).
Proof.
  intros Hb Hc w. unfold try_finally. specialize (Hb w).
  destruct (body w) as [w1 r]. specialize (Hc w1).
  destruct (cleanup w1) as [w2 [[]|e]]; simpl in *; congruence.
Qed.

Lemma frame_with {S A} (enter : M S) (leave : S → M unit) (body : M A) :
  preserves f enter → (∀ s, preserves f (leave s)) → preserves f body →
  preserves f (with_ enter leave body).
Proof.
  intros He Hl Hb. apply frame_bind; [done|].
  intros s. by apply frame_try_finally.
Qed.

Lemma frame_run {A} (c : M A) w w1 r :
  preserves f c → c w = (w1, r) → f w1 = f w.
Proof. intros Hk Hc. specialize (Hk w). by rewrite Hc in Hk. Qed.

(** The pure steps. *)
Lemma frame_check_output out : preserves f (check_output out).
Proof. unfold check_output. destruct (is_tuple_or_list out); done. Qed.

Lemma frame_unflatten_dict xs spec : preserves f (unflatten_dict xs spec).
Proof.
  unfold unflatten_dict. destruct (tree_unflatten xs spec); [|done].
  apply frame_lift_opt.
Qed.

Lemma frame_build_named_states fp : preserves f (build_named_states fp).
Proof. done. Qed.

(** Observations that do not depend on the tensors. *)
Section Tensors.
Hypothesis f_tensors : ∀ ts w, f (set_tensors ts w) = f w.

Lemma frame_get_tensor x : preserves f (get_tensor x).
Proof. apply frame_fun_lift_opt. Qed.

Lemma frame_new_tensor t : preserves f (new_tensor t).
Proof. intros w. apply f_tensors. Qed.

Lemma frame_put_tensor x t : preserves f (put_tensor x t).
Proof. intros w. apply f_tensors. Qed.

Lemma frame_zero_ x : preserves f (zero_ x).
Proof.
  destruct x as [id|z]; simpl; [|done].
  apply frame_bind; [apply frame_get_tensor|].
  intros t. apply frame_put_tensor.
Qed.

Lemma frame_fakeify_inputs m xs : preserves f (fakeify_inputs m xs).
Proof.
  unfold fakeify_inputs. apply frame_map_m. intros [id|z]; [|done].
  apply frame_bind; [done|]. intros [t|]; [|done].
  apply frame_new_tensor.
Qed.

(** Observations that depend neither on the tensors nor on the records. *)
Section Records.
Hypothesis f_records : ∀ rs w, f (set_records rs w) = f w.

Lemma frame_get_record r : preserves f (get_record r).
Proof. apply frame_fun_lift_opt. Qed.

Lemma frame_new_record rec : preserves f (new_record rec).
Proof. intros w. apply f_records. Qed.

Lemma frame_record_setitem r n v : preserves f (record_setitem r n v).
Proof.
  apply frame_bind; [apply frame_get_record|]. intros rec.
  intros w. apply f_records.
Qed.

Lemma frame_convert_state dev r name : preserves f (convert_state dev r name).
Proof.
  unfold convert_state.
  apply frame_bind; [apply frame_get_record|]. intros rec.
  apply frame_bind; [apply frame_lift_opt|]. intros state.
  apply frame_bind; [done|]. intros fk.
  apply frame_bind.
  { destruct fk as [t|]; [|done].
    apply frame_bind; [apply frame_new_tensor|]. intros z.
    apply frame_record_setitem. }
  intros _. apply frame_bind; [apply frame_get_record|]. intros rec'.
  apply frame_bind; [apply frame_lift_opt|]. intros cur.
  apply frame_zero_.
Qed.

Lemma frame_convert_fake_states dev : preserves f (convert_fake_states dev).
Proof.
  unfold convert_fake_states. apply frame_bind; [done|]. intros st.
  apply frame_for_each. intros kv. unfold convert_record.
  apply frame_bind; [apply frame_get_record|]. intros rec.
  apply frame_for_each. apply frame_convert_state.
Qed.

Lemma frame_flatten_named_states ns : preserves f (flatten_named_states ns).
Proof.
  unfold flatten_named_states. apply frame_bind; [|done].
  apply frame_map_m. intros nr.
  apply frame_bind; [apply frame_get_record | done].
Qed.

Lemma frame_unflatten_named_states xs spec :
  preserves f (unflatten_named_states xs spec).
Proof.
  unfold unflatten_named_states.
  destruct (tree_unflatten xs spec) as [[| | |]|]; try done.
  apply frame_map_m. intros kv.
  apply frame_bind; [apply frame_lift_opt|]. intros rec.
  apply frame_bind; [apply frame_new_record | done].
Qed.

(** Observations that, besides, do not depend on the optimizer's state
    map, on the parameter groups or on the bindings of the module. *)
Section Scopes.
Hypothesis f_opt_state : ∀ st w, f (set_opt_state st w) = f w.
Hypothesis f_groups : ∀ gs w, f (set_groups gs w) = f w.
Hypothesis f_module_params : ∀ ps w, f (set_module_params ps w) = f w.

Lemma frame_group_setitem g k v : preserves f (group_setitem g k v).
Proof. intros w. apply f_groups. Qed.

Lemma frame_rematerialize_optimizer {A} opt ns params (body : M A) :
  preserves f body →
  preserves f (_rematerialize_optimizer opt ns params body).
Proof.
  intros Hb. apply frame_with; [| |done].
  - unfold _rematerialize_optimizer_enter.
    apply frame_bind; [apply frame_assert|]. intros _.
    apply frame_bind; [done|]. intros st.
    apply frame_bind.
    { apply frame_for_each. intros n.
      apply frame_bind; [apply frame_lift_opt|]. intros v.
      apply frame_bind; [apply frame_lift_opt|]. intros p.
      intros w. apply f_opt_state. }
    intros _. apply frame_bind; [apply frame_fun_lift_opt|]. intros g.
    apply frame_bind; [apply frame_fun_lift_opt|]. intros orig.
    apply frame_bind; [apply frame_group_setitem | done].
  - intros s. unfold _rematerialize_optimizer_leave.
    apply frame_bind; [apply frame_group_setitem|]. intros _.
    intros w. apply f_opt_state.
Qed.

Lemma frame_reparametrize_module {A} params (body : M A) :
  preserves f body → preserves f (_reparametrize_module params body).
Proof.
  intros Hb. apply frame_with; [| |done].
  - apply frame_bind; [done|]. intros orig.
    apply frame_bind; [|done]. intros w. apply f_module_params.
  - intros orig w. apply f_module_params.
Qed.

Lemma frame_call_module mod_ opt ns pd args :
  callable_preserves f (forward mod_) →
  preserves f (call_module mod_ opt ns pd args).
Proof.
  intros Hf. unfold call_module.
  apply frame_reparametrize_module, frame_rematerialize_optimizer, Hf.
Qed.

Lemma frame_functional_call mod_ opt pl nl spec :
  callable_preserves f (forward mod_) →
  callable_preserves f (functional_call mod_ opt pl nl spec).
Proof.
  intros Hf args. unfold functional_call.
  apply frame_bind; [apply frame_unflatten_dict|]. intros pd.
  apply frame_bind; [by apply frame_call_module|]. apply frame_check_output.
Qed.

Lemma frame_functional_call_2 mod_ opt pl nl spec nspec :
  callable_preserves f (forward mod_) →
  callable_preserves f (functional_call_2 mod_ opt pl nl spec nspec).
Proof.
  intros Hf args. unfold functional_call_2.
  apply frame_bind; [apply frame_unflatten_dict|]. intros pd.
  apply frame_bind; [apply frame_unflatten_named_states|]. intros nd.
  apply frame_bind; [by apply frame_call_module|]. apply frame_check_output.
Qed.

End Scopes.
End Records.
End Tensors.

(** [with torch.inference_mode()] and an observation that does not depend
    on the inference mode. *)
Lemma frame_with_inference_mode {A} (body : M A) :
  (∀ b w, f (set_inference_mode_w b w) = f w) →
  preserves f body → preserves f (with_inference_mode body).
Proof.
  intros Hf Hb. apply frame_with; [| |done].
  - apply frame_bind; [done|]. intros prev.
    apply frame_bind; [|done]. intros w. apply Hf.
  - intros prev w. apply Hf.
Qed.

End Frame.
End FrameFacts.

(** ** The conversion of the optimizer states: refusal, frame, idempotence *)

Module ConversionFacts.
Import Py TrainStep WarmUpPredicates StatePredicates FramePredicates Examples
  MonadFacts WarmUpFacts FrameFacts.
Local Open Scope py_scope.

Lemma set_tensors_id w : set_tensors (tensors w) w = w.
Proof. by destruct w. Qed.

(** One turn of the outer loop (lines 134-141), on a record that is
    there. *)
Lemma for_each_record_at dev p r (l : list (ObjId * ObjId)) w rec :
  records w !! r = Some rec →
  for_each ((p, r) :: l) (convert_record dev) w
  = bind (for_each (PyDict.keys rec) (convert_state dev r))
      (λ _, for_each l (convert_record dev)) w.
Proof.
  intros Hrec. simpl. unfold convert_record at 1.
  unfold bind, get_record. simpl. by rewrite Hrec.
Qed.

(** What a conversion that returns has read, and what it leaves. *)
Lemma conversion_post dev w w' :
  convert_fake_states dev w = (w', Return tt) →
  pass_inv dev w (λ _ _, False) w' ∧
  ∀ p r, opt_state w !! p = Some r →
    ∃ rec0 rec,
      records w !! r = Some rec0 ∧ records w' !! r = Some rec ∧
      PyDict.keys rec = PyDict.keys rec0 ∧
      ∀ name x0, PyDict.get name rec0 = Some x0 →
        ∃ x, PyDict.get name rec = Some x ∧ converted dev w x0 w' x.
Proof.
  unfold convert_fake_states. intros Hrun.
  apply bind_inv in Hrun as (wa & st & Hg & Hrun).
  injection Hg as <- <-.
  pose proof (convert_records_inv dev w _ _ _ _ (pass_inv_init dev w) Hrun)
    as Hinv.
  split; [revert Hinv; apply pass_inv_weaken; tauto|].
  intros p r Hp.
  destruct (convert_records_reads dev w _ _ _ _ (pass_inv_init dev w) Hrun p r)
    as [rec0 Hrec0]; [by apply elem_of_map_to_list|].
  destruct (inv_records Hinv r rec0 Hrec0) as (rec & Hrec & Hk & Hx).
  exists rec0, rec. split_and!; try done.
  intros name x0 Hx0. destruct (Hx name x0 Hx0) as (x & Hgx & [Hc|[Hv _]]).
  - by exists x.
  - exfalso. apply Hv. right. exists p, rec0. split_and!; try done.
    + by apply elem_of_map_to_list.
    + by apply (PyDictFacts.key_of_get _ x0).
Qed.

Lemma converted_is_tensor dev w x0 w' x :
  converted dev w x0 w' x → is_tensor_leaf x0 = true ∧ zero_entry w' x.
Proof.
  intros (id & t & -> & Ht & Hr & Hz & Hrel). split; [|by exists id, t].
  destruct (as_fake_tensor w x0) as [ph|] eqn:Hfk.
  - by apply as_fake_tensor_Some in Hfk as (id0 & fm & -> & _).
  - by destruct Hrel as [-> _].
Qed.

(** X5.  A state that is no tensor stops the conversion (lines 134-141).  If,
    when the conversion starts, a record filed under [opt.state] holds a
    value that is no tensor (a step count kept as a number, say), the
    conversion does not return: it raises, at the latest when line 141
    calls [zero_()] on that value. *)
Theorem conversion_rejects_non_tensor dev w p r rec name z :
  opt_state w !! p = Some r → records w !! r = Some rec →
  PyDict.get name rec = Some (LOther z) →
  ∃ w' e, convert_fake_states dev w = (w', Raise e).
Proof.
  intros Hp Hrec Hname.
  destruct (convert_fake_states dev w) as [w' [[]|e]] eqn:Hrun;
    [exfalso | by exists w', e].
  destruct (conversion_post dev w w' Hrun) as [_ Hpost].
  destruct (Hpost p r Hp) as (rec0 & rec' & Hr0 & _ & _ & Hx).
  assert (rec0 = rec) as -> by congruence.
  destruct (Hx name (LOther z) Hname) as (x & _ & Hc).
  by apply converted_is_tensor in Hc as [? _].
Qed.

Lemma conversion_rejects_non_tensor_witness :
  ∃ w' e, convert_fake_states cpu counting_world = (w', Raise e).
Proof.
  apply (conversion_rejects_non_tensor cpu counting_world 1%positive
           50%positive [("step", LOther 0)] "step" 0); reflexivity.
Defined.

(** The exception in the example is the one of line 141. *)
Example step_count_is_refused :
  (convert_fake_states cpu counting_world).2 = Raise (AttributeError "zero_").
Proof. vm_compute. reflexivity. Qed.

(** On an entry that is a real tensor all of whose elements are zero, the
    loop body changes nothing. *)
Lemma convert_state_zero dev r name w rec x :
  records w !! r = Some rec → PyDict.get name rec = Some x →
  zero_entry w x →
  convert_state dev r name w = (w, Return tt).
Proof.
  intros Hrec Hx (id & t & -> & Ht & Hreal & Hzero).
  unfold is_real in Hreal.
  unfold convert_state, bind, get_record, lift_opt, gets, ret.
  rewrite Hrec. simpl. rewrite Hx. simpl. rewrite Ht, Hreal.
  rewrite Hrec. simpl. rewrite Hx. simpl.
  unfold bind, get_tensor, lift_opt, put_tensor, modify, ret.
  rewrite Ht. simpl. rewrite (zero_data_all_zero _ Hzero).
  rewrite insert_id by done. by rewrite set_tensors_id.
Qed.

Lemma convert_names_zero dev r w rec names :
  records w !! r = Some rec →
  (∀ n, n ∈ names → ∃ x, PyDict.get n rec = Some x ∧ zero_entry w x) →
  for_each names (convert_state dev r) w = (w, Return tt).
Proof.
  intros Hrec. induction names as [|n names IH]; intros Hn; [done|].
  destruct (Hn n (list_elem_of_here _ _)) as (x & Hx & Hz).
  simpl. rewrite (bind_return _ _ _ _ _ (convert_state_zero _ _ _ _ _ _ Hrec Hx Hz)).
  apply IH. intros n' Hn'. by apply Hn, list_elem_of_further.
Qed.

Lemma convert_records_zero dev w (l : list (ObjId * ObjId)) :
  (∀ p r, (p, r) ∈ l →
     ∃ rec, records w !! r = Some rec ∧
       ∀ n, n ∈ PyDict.keys rec →
         ∃ x, PyDict.get n rec = Some x ∧ zero_entry w x) →
  for_each l (convert_record dev) w = (w, Return tt).
Proof.
  induction l as [|[p r] l IH]; intros Hl; [done|].
  destruct (Hl p r (list_elem_of_here _ _)) as (rec & Hrec & Hz).
  rewrite (for_each_record_at dev p r l w rec Hrec).
  rewrite (bind_return _ _ _ _ _ (convert_names_zero dev r w rec _ Hrec Hz)).
  apply IH. intros p' r' Hin. by apply (Hl p'), list_elem_of_further.
Qed.

(** X6.  The conversion is idempotent: run again on the store a conversion has
    left, for whatever device, it returns and changes nothing. *)
Theorem conversion_idempotent dev dev' w w' :
  convert_fake_states dev w = (w', Return tt) →
  convert_fake_states dev' w' = (w', Return tt).
Proof.
  intros Hrun. destruct (conversion_post dev w w' Hrun) as [Hinv Hpost].
  change (for_each (map_to_list (opt_state w')) (convert_record dev') w'
          = (w', Return tt)).
  apply convert_records_zero.
  intros p r Hin%elem_of_map_to_list.
  rewrite (inv_opt_state Hinv) in Hin.
  destruct (Hpost p r Hin) as (rec0 & rec & Hr0 & Hr & Hk & Hx).
  exists rec. split; [done|]. intros n Hn. rewrite Hk in Hn.
  destruct (PyDictFacts.get_of_key n rec0 Hn) as [x0 Hx0].
  destruct (Hx n x0 Hx0) as (x & Hgx & Hc).
  exists x. split; [done|]. by apply converted_is_tensor in Hc as [_ ?].
Qed.

Lemma conversion_idempotent_witness :
  convert_fake_states cpu (convert_fake_states (cuda 0) warm_world).1
  = ((convert_fake_states (cuda 0) warm_world).1, Return tt).
Proof.
  apply (conversion_idempotent (cuda 0) cpu warm_world).
  vm_compute. reflexivity.
Defined.

(** X7.  What the conversion writes.  Whether it returns or raises, it leaves
    everything but the tensors and the records as it found it (the state
    map, the parameter groups, the bindings of the module, the modes).
    When it returns, no tensor has been removed and no placeholder has been
    changed: a tensor of before is as it was, or it was a real tensor and
    its elements are now zero; a tensor that is new is real and all zero;
    and no record has been created. *)
Theorem conversion_frame dev w :
  without_tensors_and_records (convert_fake_states dev w).1
    = without_tensors_and_records w ∧
  ∀ w', convert_fake_states dev w = (w', Return tt) →
    (∀ id t0, tensors w !! id = Some t0 →
       tensors w' !! id = Some t0 ∨
       (t_fake_mode t0 = None ∧ tensors w' !! id = Some (zero_data t0))) ∧
    (∀ id t, tensors w !! id = None → tensors w' !! id = Some t →
       is_real t ∧ all_zero t) ∧
    (∀ r, records w !! r = None → records w' !! r = None).
Proof.
  split.
  - by apply (frame_convert_fake_states without_tensors_and_records).
  - intros w' Hrun. destruct (conversion_post dev w w' Hrun) as [Hinv _].
    split_and!.
    + apply (inv_old Hinv).
    + apply (inv_new Hinv).
    + apply (inv_no_new_record Hinv).
Qed.

End ConversionFacts.

(** ** The stages of [_compile_fn]: inputs, failures, modes, slices *)

Module StageFacts.
Import Py PyTree TrainStep FlagPredicates StatePredicates FramePredicates
  Examples MoreExamples MonadFacts FrameFacts.
Local Open Scope py_scope.

(** *** [fakeify_inputs] (lines 70-76) *)

Lemma fakeify_step m id xs w t :
  tensors w !! id = Some t →
  fakeify_inputs m (LTensor id :: xs) w
  = bind (fakeify_inputs m xs)
      (λ ys, ret (fresh (dom (tensors w)) :: ys))
      (set_tensors
         (<[fresh (dom (tensors w)) := placeholder_of m t]> (tensors w)) w).
Proof.
  intros Ht. unfold fakeify_inputs. simpl.
  unfold bind at 1. unfold bind at 1. unfold gets. by rewrite Ht.
Qed.

Lemma alloc_keeps w t id t' :
  tensors w !! id = Some t' →
  tensors (set_tensors (<[fresh (dom (tensors w)) := t]> (tensors w)) w) !! id
  = Some t'.
Proof.
  intros Hid. simpl. rewrite lookup_insert_ne; [done|].
  intros Heq. rewrite <- Heq in Hid.
  by rewrite (proj1 (not_elem_of_dom _ _) (is_fresh _)) in Hid.
Qed.

Lemma alloc_keeps_live w t (xs : list LeafVal) :
  forallb (leaf_live w) xs = true →
  forallb
    (leaf_live
       (set_tensors (<[fresh (dom (tensors w)) := t]> (tensors w)) w)) xs
  = true.
Proof.
  rewrite !forallb_forall. intros Hall x Hx. specialize (Hall x Hx).
  destruct x as [id|z]; [|done]. unfold leaf_live in *.
  destruct (tensors w !! id) as [t'|] eqn:Hid; [|done].
  by rewrite (alloc_keeps w t id t' Hid).
Qed.

(** When every element is a tensor, one placeholder is made for each, in
    order, and no tensor of before is changed. *)
Lemma fakeify_inputs_returns m xs : ∀ w,
  forallb (leaf_live w) xs = true → forallb is_tensor_leaf xs = true →
  ∃ w' ys,
    fakeify_inputs m xs w = (w', Return ys) ∧ length ys = length xs ∧
    (∀ id t, tensors w !! id = Some t → tensors w' !! id = Some t) ∧
    (∀ i y, ys !! i = Some y →
       ∃ id t, xs !! i = Some (LTensor id) ∧ tensors w !! id = Some t ∧
         tensors w' !! y = Some (placeholder_of m t)).
Proof.
  induction xs as [|x xs IH]; intros w Hlive Hten.
  - exists w, []. by split_and!.
  - destruct x as [id|z]; [|done]. simpl in Hlive, Hten.
    destruct (tensors w !! id) as [t|] eqn:Ht; [|done]. simpl in Hlive.
    set (y0 := fresh (dom (tensors w))).
    set (w1 := set_tensors (<[y0 := placeholder_of m t]> (tensors w)) w).
    destruct (IH w1) as (w' & ys & Hrun & Hlen & Hold & Hnew);
      [by apply alloc_keeps_live | done |].
    exists w', (y0 :: ys). split_and!.
    + rewrite (fakeify_step m id xs w t Ht).
      fold y0 w1. by rewrite (bind_return _ _ _ _ _ Hrun).
    + simpl. by rewrite Hlen.
    + intros id' t' Hid'. apply Hold. by apply alloc_keeps.
    + intros [|i] y Hy; simpl in Hy.
      * injection Hy as <-. exists id, t. split_and!; try done.
        apply Hold. subst w1. simpl. by rewrite lookup_insert_eq.
      * destruct (Hnew i y Hy) as (id' & t' & Hxi & Hid' & Hyp).
        rewrite forallb_forall in Hlive.
        assert (leaf_live w (LTensor id') = true) as Hl'.
        { apply Hlive, list_elem_of_In. by apply list_elem_of_lookup_2 in Hxi. }
        simpl in Hl'. destruct (tensors w !! id') as [t''|] eqn:Hw; [|done].
        pose proof (alloc_keeps w (placeholder_of m t) id' t'' Hw) as Hw1.
        fold y0 w1 in Hw1.
        exists id', t'. split_and!; try done. congruence.
Qed.

(** When an element is no tensor, the assertion of line 73 fails. *)
Lemma fakeify_inputs_raises m xs : ∀ w,
  forallb (leaf_live w) xs = true → forallb is_tensor_leaf xs = false →
  ∃ w', fakeify_inputs m xs w = (w', Raise (AssertionError "")).
Proof.
  induction xs as [|x xs IH]; intros w Hlive Hten; [done|].
  destruct x as [id|z].
  - simpl in Hlive, Hten.
    destruct (tensors w !! id) as [t|] eqn:Ht; [|done]. simpl in Hlive.
    destruct (IH (set_tensors
                    (<[fresh (dom (tensors w)) := placeholder_of m t]>
                       (tensors w)) w)) as (w' & Hrun);
      [by apply alloc_keeps_live | done |].
    exists w'. rewrite (fakeify_step m id xs w t Ht).
    by apply bind_raise.
  - exists w. reflexivity.
Qed.

(** X8.  [fakeify_inputs] on a sequence whose references are live: it asserts
    that every element is a tensor (line 73) and raises [AssertionError]
    otherwise; when it returns, the result has one placeholder for each
    element, position for position, each with the shape, dtype and device
    of the tensor at its position, in the given mode and without data, and
    every tensor of before is in the store as it was. *)
Theorem fakeify_inputs_outcome m xs w :
  forallb (leaf_live w) xs = true →
  if forallb is_tensor_leaf xs
  then ∃ w' ys,
         fakeify_inputs m xs w = (w', Return ys) ∧ length ys = length xs ∧
         (∀ id t, tensors w !! id = Some t → tensors w' !! id = Some t) ∧
         (∀ i y, ys !! i = Some y →
            ∃ id t, xs !! i = Some (LTensor id) ∧ tensors w !! id = Some t ∧
              tensors w' !! y = Some (placeholder_of m t))
  else ∃ w', fakeify_inputs m xs w = (w', Raise (AssertionError "")).
Proof.
  intros Hlive. destruct (forallb is_tensor_leaf xs) eqn:Hten.
  - by apply fakeify_inputs_returns.
  - by apply fakeify_inputs_raises.
Qed.

Lemma fakeify_inputs_outcome_witness :
  ∃ w', fakeify_inputs 9%positive [LTensor 1%positive; LOther 3]
          stateful_world
        = (w', Raise (AssertionError "")).
Proof.
  apply (fakeify_inputs_outcome 9%positive [LTensor 1%positive; LOther 3]
           stateful_world).
  vm_compute. reflexivity.
Defined.

(** *** The mapping [params] (lines 81-84) *)

Section Merge.
Context {V : Type}.
Implicit Types (k : string) (l acc d : list (string * V)).

Lemma key_of_set k (v : V) d x :
  x ∈ PyDict.keys (PyDict.set k v d) → x = k ∨ x ∈ PyDict.keys d.
Proof.
  unfold PyDict.keys. induction d as [|[k' v'] d IH]; simpl.
  - intros ->%list_elem_of_singleton. by left.
  - destruct (decide (k' = k)) as [->|Hne]; simpl.
    + intros [->|Hx]%elem_of_cons; [by left|].
      right. by apply list_elem_of_further.
    + intros [->|Hx]%elem_of_cons; [right; apply list_elem_of_here|].
      destruct (IH Hx) as [->|Hin]; [by left|].
      right. by apply list_elem_of_further.
Qed.

Lemma NoDup_keys_set k (v : V) d :
  NoDup (PyDict.keys d) → NoDup (PyDict.keys (PyDict.set k v d)).
Proof.
  induction d as [|[k' v'] d IH]; simpl.
  { intros _. apply NoDup_singleton. }
  intros [Hk' Hd]%NoDup_cons.
  destruct (decide (k' = k)) as [->|Hne]; simpl.
  - by apply NoDup_cons.
  - apply NoDup_cons. split; [|by apply IH].
    intros [->|Hin]%key_of_set; done.
Qed.

Lemma get_app k (a b : list (string * V)) :
  PyDict.get k (a ++ b)
  = match PyDict.get k a with
    | Some v => Some v
    | None => PyDict.get k b
    end.
Proof.
  induction a as [|[k0 v0] a IHa]; simpl; [done|].
  by destruct (decide (k0 = k)).
Qed.

(** [dict(pairs)] and [{**a, **b}]: the keys are distinct, and a key holds
    the value of its last pair. *)
Lemma fold_set_lookup l : ∀ acc k,
  PyDict.get k (fold_left (λ acc kv, PyDict.set kv.1 kv.2 acc) l acc)
  = match PyDict.get k (rev l) with
    | Some v => Some v
    | None => PyDict.get k acc
    end.
Proof.
  induction l as [|[k' v'] l IH]; intros acc k; [done|].
  simpl. rewrite IH, get_app.
  destruct (PyDict.get k (rev l)) as [v|]; [done|].
  simpl. destruct (decide (k' = k)) as [->|Hne].
  - apply PyDictFacts.get_set_eq.
  - by apply PyDictFacts.get_set_ne.
Qed.

(** In a dictionary the order of the entries does not change a lookup. *)
Lemma get_rev d k :
  NoDup (PyDict.keys d) → PyDict.get k (rev d) = PyDict.get k d.
Proof.
  induction d as [|[k' v'] d IH]; [done|]. simpl.
  intros [Hk' Hd]%NoDup_cons. rewrite get_app, IH by done. simpl.
  destruct (decide (k' = k)) as [->|Hne].
  - destruct (PyDict.get k d) as [v|] eqn:Hg; [|done].
    by apply PyDictFacts.key_of_get in Hg.
  - by destruct (PyDict.get k d).
Qed.

Lemma fold_set_NoDup l : ∀ acc,
  NoDup (PyDict.keys acc) →
  NoDup (PyDict.keys (fold_left (λ acc kv, PyDict.set kv.1 kv.2 acc) l acc)).
Proof.
  induction l as [|[k v] l IH]; intros acc Hacc; [done|].
  simpl. by apply IH, NoDup_keys_set.
Qed.

End Merge.

(** X9.  The mapping [params] of lines 81-84 holds each name once.  Under a name
    it holds the buffer listed last under that name, and, when no buffer
    has the name, the parameter listed last under it: a buffer takes the
    place of a parameter of the same name. *)
Theorem params_merge mod_ n :
  NoDup (PyDict.keys (params_of mod_)) ∧
  PyDict.get n (params_of mod_)
  = match PyDict.get n (rev (named_buffers mod_)) with
    | Some b => Some b
    | None => PyDict.get n (rev (named_parameters mod_))
    end.
Proof.
  unfold params_of, PyDict.merge, PyDict.of_pairs. split.
  - apply fold_set_NoDup, fold_set_NoDup. apply NoDup_nil_2.
  - rewrite fold_set_lookup.
    rewrite get_rev by (apply fold_set_NoDup, NoDup_nil_2).
    rewrite !fold_set_lookup. simpl.
    destruct (PyDict.get n (rev (named_buffers mod_))); [done|].
    by destruct (PyDict.get n (rev (named_parameters mod_))).
Qed.

(** *** The named states (lines 143-147) *)

Lemma set_new {V} (k : string) (v : V) (d : list (string * V)) :
  k ∉ PyDict.keys d → PyDict.set k v d = d ++ [(k, v)].
Proof.
  unfold PyDict.keys. induction d as [|[k' v'] d IH]; simpl; [done|].
  intros Hk. destruct (decide (k' = k)) as [->|Hne].
  - destruct Hk. apply list_elem_of_here.
  - rewrite IH; [done|]. intros Hin. apply Hk. by apply list_elem_of_further.
Qed.

Lemma named_states_fold (st : gmap ObjId ObjId) fp : ∀ acc,
  NoDup (PyDict.keys acc ++ PyDict.keys fp) →
  fold_left (λ acc (np : string * ObjId),
               match st !! np.2 with
               | Some r => PyDict.set np.1 r acc
               | None => acc
               end) fp acc
  = acc ++ omap (λ np : string * ObjId, pair np.1 <$> st !! np.2) fp.
Proof.
  unfold PyDict.keys.
  induction fp as [|[n p] fp IH]; intros acc Hnd; simpl.
  - by rewrite app_nil_r.
  - apply NoDup_app in Hnd as (Hacc & Hdisj & Hfp). simpl in *.
    apply NoDup_cons in Hfp as [Hn Hfp].
    destruct (st !! p) as [r|] eqn:Hp; simpl.
    + rewrite IH.
      * rewrite set_new; [by rewrite <- app_assoc|].
        intros Hin. apply (Hdisj n Hin). apply list_elem_of_here.
      * rewrite set_new
          by (intros Hin; apply (Hdisj n Hin); apply list_elem_of_here).
        rewrite map_app. simpl. apply NoDup_app. split_and!; [| |done].
        -- apply NoDup_app. split_and!; [done| |apply NoDup_singleton].
           intros x Hx Hxn%list_elem_of_singleton. subst x.
           apply (Hdisj n Hx). apply list_elem_of_here.
        -- intros x [Hx|Hxn%list_elem_of_singleton]%elem_of_app Hin;
             [|by subst x].
           apply (Hdisj x Hx). by apply list_elem_of_further.
    + apply IH. apply NoDup_app. split_and!; [done| |done].
      intros x Hx Hin. apply (Hdisj x Hx). by apply list_elem_of_further.
Qed.

(** X10.  The mapping [named_states] of lines 143-147, for names that are
    distinct: it holds, in the order of the parameters, each name whose
    placeholder is a key of [opt.state], with the record filed under that
    placeholder; the store is only read. *)
Theorem build_named_states_closed fake_params w :
  NoDup (PyDict.keys fake_params) →
  build_named_states fake_params w
  = (w, Return (omap (λ np : string * ObjId,
                        pair np.1 <$> opt_state w !! np.2) fake_params)) ∧
  ∀ n p, PyDict.get n fake_params = Some p →
    PyDict.get n (omap (λ np : string * ObjId,
                          pair np.1 <$> opt_state w !! np.2) fake_params)
    = opt_state w !! p.
Proof.
  intros Hnd. split.
  - unfold build_named_states, bind, gets, ret.
    by rewrite (named_states_fold (opt_state w) fake_params []).
  - intros n p.
    induction fake_params as [|[n' p'] fp IH]; simpl; [done|].
    apply NoDup_cons in Hnd as [Hn' Hnd].
    destruct (decide (n' = n)) as [->|Hne].
    + intros [= ->]. destruct (opt_state w !! p) as [r|] eqn:Hp; simpl.
      * by rewrite decide_True.
      * destruct (PyDict.get n
                    (omap (λ np : string * ObjId,
                             pair np.1 <$> opt_state w !! np.2) fp))
          as [r|] eqn:Hg; [|done].
        apply PyDictFacts.key_of_get in Hg. destruct Hn'.
        unfold PyDict.keys in *.
        apply list_elem_of_fmap in Hg as ([n0 r0] & -> & Hin).
        apply list_elem_of_omap in Hin as ([n1 p1] & Hin1 & Hsome).
        simpl in Hsome. destruct (opt_state w !! p1); [|done].
        injection Hsome as <- <-.
        apply list_elem_of_fmap. by exists (n1, p1).
    + intros Hg. destruct (opt_state w !! p') as [r|]; simpl.
      * rewrite decide_False by done. by apply IH.
      * by apply IH.
Qed.

Lemma build_named_states_closed_witness :
  build_named_states [("w", 3%positive); ("b", 7%positive)] warm_world
  = (warm_world,
     Return (omap (λ np : string * ObjId,
                     pair np.1 <$> opt_state warm_world !! np.2)
               [("w", 3%positive); ("b", 7%positive)])) ∧
  ∀ n p, PyDict.get n [("w", 3%positive); ("b", 7%positive)] = Some p →
    PyDict.get n (omap (λ np : string * ObjId,
                          pair np.1 <$> opt_state warm_world !! np.2)
                    [("w", 3%positive); ("b", 7%positive)])
    = opt_state warm_world !! p.
Proof.
  apply (build_named_states_closed [("w", 3%positive); ("b", 7%positive)]
           warm_world).
  vm_compute. apply NoDup_cons. split.
  - intros [?| ?%elem_of_nil]%elem_of_cons; [discriminate | done].
  - apply NoDup_singleton.
Defined.

End StageFacts.

(** ** [_compile_fn]: edge cases, the modes it leaves, the slices *)

Module CompileStageFacts.
Import Py PyTree TrainStep FlagPredicates StatePredicates FramePredicates
  TracePredicates Examples MoreExamples MonadFacts FrameFacts CompileFacts.
Local Open Scope py_scope.

(** The run of [_compile_fn] up to the warm-up call, when the preconditions
    hold, the attribute [__optimizer_0] is set and the module has a first
    parameter. *)
Lemma compile_fn_until_warm_up (T : Torch) mod_ fake_inputs w x0 tx m
    w7 fpf p0 t0 w11 e :
  has___optimizer_0 mod_ = true →
  assert_no_fake_params_or_buffers mod_ (set_grad_enabled_w true w)
    = Return tt →
  fake_inputs !! 0%nat = Some x0 → tensors w !! x0 = Some tx →
  t_fake_mode tx = Some (FakeTensorMode m) →
  fakeify_inputs m (map LTensor (params_flat_of mod_))
    (set_grad_enabled_w true w) = (w7, Return fpf) →
  params_flat_of mod_ !! 0%nat = Some p0 → tensors w7 !! p0 = Some t0 →
  functional_call mod_ (__optimizer_0 mod_) (length (params_flat_of mod_)) 0
    (params_spec_of mod_) (fpf ++ fake_inputs)
    (set_allow_non_fake_inputs_w (<[m := true]> (allow_non_fake_inputs w7)) w7)
    = (w11, Raise e) →
  _compile_fn mod_ fake_inputs w = (w11, Raise e).
Proof.
  intros Hattr Hchk Hx0 Htx Hm H7 Hp0 Ht0 H11.
  unfold _compile_fn.
  rewrite (bind_return _ _ w (set_grad_enabled_w true w) tt) by reflexivity.
  rewrite (bind_return _ _ _ (set_grad_enabled_w true w) tt)
    by (unfold check; by rewrite Hchk).
  rewrite (bind_return _ _ _ (set_grad_enabled_w true w) tt)
    by (by destruct fake_inputs).
  rewrite (bind_return _ _ _ (set_grad_enabled_w true w) x0)
    by (by rewrite Hx0).
  rewrite (bind_return _ _ _ (set_grad_enabled_w true w) (FakeTensorMode m))
    by (simpl; rewrite Htx; simpl; by rewrite Hm).
  rewrite (bind_return _ _ _ (set_grad_enabled_w true w) m) by reflexivity.
  cbn [tree_flatten].
  erewrite bind_return by exact H7.
  erewrite (bind_return _ _ w7 w7 (__optimizer_0 mod_))
    by (unfold getattr___optimizer_0; by rewrite Hattr).
  erewrite (bind_return _ _ w7 w7 p0)
    by (change (leaves (of_flat_items
                  (PyDict.merge (PyDict.of_pairs (named_parameters mod_))
                     (PyDict.of_pairs (named_buffers mod_)))))
          with (params_flat_of mod_); by rewrite Hp0).
  erewrite (bind_return _ _ w7 w7 t0)
    by (unfold get_tensor; by rewrite Ht0).
  erewrite bind_return by reflexivity.
  by apply bind_raise.
Qed.

(** X11.  A module without parameters and buffers: once the preconditions
    have passed, line 87 has no placeholder to make, and the compilation
    raises before the warm-up and before anything is traced: line 89 raises
    [AttributeError] when the attribute [__optimizer_0] is not set on the
    module; when it is set, line 118 ([params_flat[0]]) raises
    [IndexError].  All that has been done to the store is to switch
    gradient tracking on. *)
Theorem compile_fn_without_parameters (T : Torch) mod_ fake_inputs w x0 tx m :
  named_parameters mod_ = [] → named_buffers mod_ = [] →
  assert_no_fake_params_or_buffers mod_ (set_grad_enabled_w true w)
    = Return tt →
  fake_inputs !! 0%nat = Some x0 → tensors w !! x0 = Some tx →
  t_fake_mode tx = Some (FakeTensorMode m) →
  _compile_fn mod_ fake_inputs w
  = (set_grad_enabled_w true w,
     Raise (if has___optimizer_0 mod_ then IndexError
            else AttributeError "__optimizer_0")).
Proof.
  intros Hp Hb Hchk Hx0 Htx Hm.
  unfold _compile_fn.
  rewrite (bind_return _ _ w (set_grad_enabled_w true w) tt) by reflexivity.
  rewrite (bind_return _ _ _ (set_grad_enabled_w true w) tt)
    by (unfold check; by rewrite Hchk).
  rewrite (bind_return _ _ _ (set_grad_enabled_w true w) tt)
    by (by destruct fake_inputs).
  rewrite (bind_return _ _ _ (set_grad_enabled_w true w) x0)
    by (by rewrite Hx0).
  rewrite (bind_return _ _ _ (set_grad_enabled_w true w) (FakeTensorMode m))
    by (simpl; rewrite Htx; simpl; by rewrite Hm).
  rewrite (bind_return _ _ _ (set_grad_enabled_w true w) m) by reflexivity.
  rewrite Hp, Hb. unfold getattr___optimizer_0.
  by destruct (has___optimizer_0 mod_).
Qed.

Lemma compile_fn_without_parameters_witness :
  @_compile_fn demo_torch stateless_module [2%positive] (compile_world false)
  = (set_grad_enabled_w true (compile_world false), Raise IndexError).
Proof.
  apply (compile_fn_without_parameters demo_torch stateless_module
           [2%positive] (compile_world false) 2%positive
           (mkTensor [3] float32 (cuda 0) (Some (FakeTensorMode 9%positive)) [])
           9%positive); reflexivity.
Defined.

(** A module with a parameter on which the attribute [__optimizer_0] is not
    set: line 89 raises after the placeholders of line 87 have been made,
    and before line 129. *)
Example attribute_is_read_before_the_warm_up :
  let r := @_compile_fn demo_torch module_without_attribute [2%positive]
             (compile_world false) in
  r.2 = Raise (AttributeError "__optimizer_0") ∧
  r.1 = (fakeify_inputs 9%positive [LTensor 1%positive]
           (set_grad_enabled_w true (compile_world false))).1 ∧
  allow_non_fake_inputs r.1 = allow_non_fake_inputs (compile_world false).
Proof. split_and!; vm_compute; reflexivity. Qed.

(** X12.  The two scopes of lines 100-103 and 168-171 for a module without an
    optimizer ([mod.__optimizer_0] is [None]): the assertion of line 24
    fails when the second scope is entered, the module is not called, the
    first scope is left again, and the store is exactly as it was. *)
Theorem call_module_needs_optimizer mod_ ns pd args w :
  call_module mod_ None ns pd args w = (w, Raise (AssertionError "")).
Proof.
  unfold call_module, _reparametrize_module, _rematerialize_optimizer,
    _rematerialize_optimizer_enter, with_, try_finally, bind, gets, modify,
    assert_, raise, ret. simpl.
  by destruct w.
Qed.

(** When the preconditions hold and the attribute [__optimizer_0] is not
    set, line 89 raises, in the store line 87 left. *)
Lemma compile_fn_without_attribute (T : Torch) mod_ fake_inputs w x0 tx m
    w7 fpf :
  has___optimizer_0 mod_ = false →
  assert_no_fake_params_or_buffers mod_ (set_grad_enabled_w true w)
    = Return tt →
  fake_inputs !! 0%nat = Some x0 → tensors w !! x0 = Some tx →
  t_fake_mode tx = Some (FakeTensorMode m) →
  fakeify_inputs m (map LTensor (params_flat_of mod_))
    (set_grad_enabled_w true w) = (w7, Return fpf) →
  _compile_fn mod_ fake_inputs w = (w7, Raise (AttributeError "__optimizer_0")).
Proof.
  intros Hattr Hchk Hx0 Htx Hm H7.
  unfold _compile_fn.
  rewrite (bind_return _ _ w (set_grad_enabled_w true w) tt) by reflexivity.
  rewrite (bind_return _ _ _ (set_grad_enabled_w true w) tt)
    by (unfold check; by rewrite Hchk).
  rewrite (bind_return _ _ _ (set_grad_enabled_w true w) tt)
    by (by destruct fake_inputs).
  rewrite (bind_return _ _ _ (set_grad_enabled_w true w) x0)
    by (by rewrite Hx0).
  rewrite (bind_return _ _ _ (set_grad_enabled_w true w) (FakeTensorMode m))
    by (simpl; rewrite Htx; simpl; by rewrite Hm).
  rewrite (bind_return _ _ _ (set_grad_enabled_w true w) m) by reflexivity.
  cbn [tree_flatten].
  erewrite bind_return by exact H7.
  apply bind_raise. unfold getattr___optimizer_0. by rewrite Hattr.
Qed.

(** X13.  A warm-up call that raises: the exception leaves [_compile_fn] as it
    is, and line 131 does not run, so the mode of the first input is left
    allowing non-fake inputs, whatever it allowed on entry; the attribute
    of other modes is as it was.  (On a module on which the attribute
    [__optimizer_0] is not set the warm-up call is not reached: line 89
    raises.) *)
Theorem warm_up_failure_leaves_flag (T : Torch) mod_ fake_inputs w x0 tx m
    w7 fpf p0 t0 w11 e :
  callable_keeps_flags (forward mod_) →
  assert_no_fake_params_or_buffers mod_ (set_grad_enabled_w true w)
    = Return tt →
  fake_inputs !! 0%nat = Some x0 → tensors w !! x0 = Some tx →
  t_fake_mode tx = Some (FakeTensorMode m) →
  fakeify_inputs m (map LTensor (params_flat_of mod_))
    (set_grad_enabled_w true w) = (w7, Return fpf) →
  params_flat_of mod_ !! 0%nat = Some p0 → tensors w7 !! p0 = Some t0 →
  functional_call mod_ (__optimizer_0 mod_) (length (params_flat_of mod_)) 0
    (params_spec_of mod_) (fpf ++ fake_inputs)
    (set_allow_non_fake_inputs_w (<[m := true]> (allow_non_fake_inputs w7)) w7)
    = (w11, Raise e) →
  _compile_fn mod_ fake_inputs w
  = (if has___optimizer_0 mod_ then (w11, Raise e)
     else (w7, Raise (AttributeError "__optimizer_0"))) ∧
  allow_non_fake_inputs w11 = <[m := true]> (allow_non_fake_inputs w).
Proof.
  intros Hfwd Hchk Hx0 Htx Hm H7 Hp0 Ht0 H11. split.
  - destruct (has___optimizer_0 mod_) eqn:Hattr.
    + by apply (compile_fn_until_warm_up T mod_ fake_inputs w x0 tx m
                  w7 fpf p0 t0).
    + by apply (compile_fn_without_attribute T mod_ fake_inputs w x0 tx m
                  w7 fpf).
  - pose proof (keeps_run _ _ _ _ (keeps_fakeify_inputs _ _) H7) as F7.
    pose proof (keeps_run _ _ _ _
                  (keeps_functional_call _ _ _ _ _ Hfwd _) H11) as F11.
    simpl in *. by rewrite F11, F7.
Qed.

Lemma warm_up_failure_leaves_flag_witness :
  let r := @_compile_fn demo_torch module_without_optimizer [2%positive]
             (compile_world false) in
  r = (r.1, Raise (AssertionError "")) ∧
  allow_non_fake_inputs r.1
  = <[9%positive := true]> (allow_non_fake_inputs (compile_world false)).
Proof.
  intros r.
  apply (warm_up_failure_leaves_flag demo_torch module_without_optimizer
           [2%positive] (compile_world false) 2%positive
           (mkTensor [3] float32 (cuda 0) (Some (FakeTensorMode 9%positive)) [])
           9%positive
           (fakeify_inputs 9%positive
              (map LTensor (params_flat_of module_without_optimizer))
              (set_grad_enabled_w true (compile_world false))).1
           [3%positive] 1%positive
           (mkTensor [2] float32 (cuda 0) None [5%Z; 7%Z])
           r.1 (AssertionError ""));
    try (vm_compute; reflexivity).
  apply keeps_train_step.
Defined.

(** *** Gradient tracking (lines 62 and 180) *)

Lemma grad_fakeify m xs : preserves grad_enabled (fakeify_inputs m xs).
Proof. by apply frame_fakeify_inputs. Qed.

Lemma grad_functional_call mod_ opt pl nl spec :
  callable_preserves grad_enabled (forward mod_) →
  callable_preserves grad_enabled (functional_call mod_ opt pl nl spec).
Proof. by apply frame_functional_call. Qed.

Lemma grad_functional_call_2 mod_ opt pl nl spec nspec :
  callable_preserves grad_enabled (forward mod_) →
  callable_preserves grad_enabled (functional_call_2 mod_ opt pl nl spec nspec).
Proof. by apply frame_functional_call_2. Qed.

Lemma grad_convert_fake_states dev :
  preserves grad_enabled (convert_fake_states dev).
Proof. by apply frame_convert_fake_states. Qed.

(** X14.  Gradient tracking through a compilation that returns, for a module
    and a tracer that leave it alone: line 62 switches it on, so the
    warm-up call and the first trace run with it on; line 180 switches it
    off, the second trace runs with it off, and it is off when
    [_compile_fn] returns, whatever it was on entry. *)
Theorem compile_fn_leaves_grad_off (T : Torch) mod_ fake_inputs w w' c :
  tracing_preserves grad_enabled T →
  callable_preserves grad_enabled (forward mod_) →
  _compile_fn mod_ fake_inputs w = (w', Return c) →
  (∃ fpf ws wf out,
     functional_call mod_ (__optimizer_0 mod_)
       (length (params_flat_of mod_)) 0 (params_spec_of mod_)
       (fpf ++ fake_inputs) ws = (wf, Return out) ∧
     grad_enabled ws = true) ∧
  (∃ (nsf : list LeafVal) nss args wt wu fx_g,
     make_fx (functional_call_2 mod_ (__optimizer_0 mod_)
                (length (params_flat_of mod_)) (length nsf)
                (params_spec_of mod_) nss) args wt = (wu, Return fx_g) ∧
     grad_enabled wt = true ∧
     ∃ ffg,
       with_inference_mode
         (make_fx (functionalize (Interpreter_run fx_g)) args)
         (set_grad_enabled_w false wu) = (w', Return ffg)) ∧
  grad_enabled w' = false.
Proof.
  intros HT Hfwd Hrun.
  destruct (compile_fn_stages _ _ _ _ _ _ Hrun)
    as (x0 & tx & m & fpf & w7 & p0 & t0 & w11 & first_loss & w13 & fake_params
        & named_states & nsf & nss & fnsf & w17 & fx_g & w18 & ffg
        & _ & Hx0 & Htx & Hm & H7 & _ & _ & H11 & H13 & _ & _ & _ & H17
        & H18 & H20 & _).
  pose proof (frame_run grad_enabled _ _ _ _ (grad_fakeify _ _) H7) as F7.
  pose proof (frame_run grad_enabled _ _ _ _
                (grad_functional_call _ _ _ _ _ Hfwd _) H11) as F11.
  pose proof (frame_run grad_enabled _ _ _ _
                (grad_convert_fake_states _) H13) as F13.
  pose proof (frame_run grad_enabled _ _ _ _ (grad_fakeify _ _) H17) as F17.
  pose proof (grad_functional_call_2 mod_ (__optimizer_0 mod_)
                (length (params_flat_of mod_)) (length nsf)
                (params_spec_of mod_) nss Hfwd) as Hfc2.
  pose proof (make_fx_graph_preserves grad_enabled T HT _ _ _ _ _ Hfc2 H18)
    as Hg.
  pose proof (frame_run grad_enabled _ _ _ _
                (frame_with_inference_mode grad_enabled _
                   (λ _ _, eq_refl)
                   (make_fx_preserves grad_enabled T HT _
                      (fpf ++ fnsf ++ fake_inputs)
                      (functionalize_preserves grad_enabled T HT _
                         (Interpreter_run_preserves grad_enabled T HT _ Hg))))
                H20) as F20.
  simpl in *. split_and!.
  - eexists fpf, _, w11, first_loss. split; [exact H11|]. simpl. by rewrite F7.
  - exists nsf, nss, (fpf ++ fnsf ++ fake_inputs), w17, w18, fx_g.
    split_and!; [done| |by exists ffg].
    by rewrite F17, F13, F11, F7.
  - by rewrite F20.
Qed.

Lemma grad_train_step out : callable_preserves grad_enabled (train_step out).
Proof.
  intros args. unfold train_step.
  apply frame_bind; [apply frame_fun_lift_opt|]. intros g.
  apply frame_bind; [apply frame_fun_lift_opt|]. intros ps.
  apply frame_bind; [|done].
  destruct ps as [| d |]; try done.
  apply frame_for_each. intros p. unfold adam_like_init.
  apply frame_bind; [done|]. intros st.
  destruct (st !! p); [done|].
  apply frame_bind; [apply frame_fun_lift_opt|]. intros t.
  apply frame_bind; [done|]. intros s1.
  apply frame_bind; [done|]. intros s2.
  apply frame_bind; done.
Qed.

Lemma demo_torch_preserves_grad : tracing_preserves grad_enabled demo_torch.
Proof.
  split; simpl; try done.
  - intros f args Hf. unfold trace_by_running.
    apply frame_bind; [apply Hf | done].
  - intros f args w w' g Hf Hrun. unfold trace_by_running in Hrun.
    apply bind_inv in Hrun as (w1 & v & _ & Hr). by injection Hr as _ <-.
Qed.

Lemma compile_fn_leaves_grad_off_witness :
  let w' := (@_compile_fn demo_torch (demo_module (VTuple [VNone]))
               [2%positive] (set_grad_enabled_w true (compile_world false))).1
  in
  (∃ fpf ws wf out,
     functional_call (demo_module (VTuple [VNone]))
       (__optimizer_0 (demo_module (VTuple [VNone])))
       (length (params_flat_of (demo_module (VTuple [VNone])))) 0
       (params_spec_of (demo_module (VTuple [VNone])))
       (fpf ++ [2%positive]) ws = (wf, Return out) ∧
     grad_enabled ws = true) ∧
  (∃ (nsf : list LeafVal) nss args wt wu fx_g,
     @make_fx demo_torch
       (functional_call_2 (demo_module (VTuple [VNone]))
          (__optimizer_0 (demo_module (VTuple [VNone])))
          (length (params_flat_of (demo_module (VTuple [VNone]))))
          (length nsf)
          (params_spec_of (demo_module (VTuple [VNone]))) nss) args wt
     = (wu, Return fx_g) ∧
     grad_enabled wt = true ∧
     ∃ ffg,
       with_inference_mode
         (@make_fx demo_torch
            (@functionalize demo_torch (@Interpreter_run demo_torch fx_g))
            args)
         (set_grad_enabled_w false wu) = (w', Return ffg)) ∧
  grad_enabled w' = false.
Proof.
  intros w'.
  destruct (returned_Return
              (@_compile_fn demo_torch (demo_module (VTuple [VNone]))
                 [2%positive]
                 (set_grad_enabled_w true (compile_world false))))
    as [c Hc]; [vm_compute; reflexivity|].
  exact (compile_fn_leaves_grad_off demo_torch (demo_module (VTuple [VNone]))
           [2%positive] (set_grad_enabled_w true (compile_world false)) _ c
           demo_torch_preserves_grad (grad_train_step _) Hc).
Defined.

(** *** The calling convention (lines 97-99, 152, 163-167, 203-205) *)

(** The slices of lines 97-99, with [named_states_len] as it is at the
    warm-up call: the parameters are the first part of the arguments and the
    user arguments the rest. *)
Lemma functional_call_slices mod_ opt spec (ps args : list ObjId) :
  functional_call mod_ opt (length ps) 0 spec (ps ++ args)
  = (pd <- unflatten_dict ps spec ;;
     out <- call_module mod_ opt None pd args ;;
     check_output out)%py.
Proof.
  unfold functional_call.
  by rewrite take_app_length, Nat.add_0_r, drop_app_length.
Qed.

(** The slices of lines 163-167. *)
Lemma functional_call_2_slices mod_ opt spec nspec (ps ss args : list ObjId) :
  functional_call_2 mod_ opt (length ps) (length ss) spec nspec
    (ps ++ ss ++ args)
  = (pd <- unflatten_dict ps spec ;;
     nd <- unflatten_named_states ss nspec ;;
     out <- call_module mod_ opt (Some nd) pd args ;;
     check_output out)%py.
Proof.
  unfold functional_call_2.
  rewrite take_app_length, drop_app_length, take_app_length.
  by rewrite <- drop_drop, !drop_app_length.
Qed.

(** X15.  The slices of the wrappers recover the parts of the argument lists
    that [_compile_fn] builds.  In a compilation that returns: the warm-up
    call, on [fake_params_flat + fake_inputs], unflattens
    [fake_params_flat] and calls the module on [fake_inputs]; the wrapper
    that is traced, on [fake_params_flat + fake_named_states_flat +
    fake_inputs] and with [params_len] and [named_states_len] as they are
    then, unflattens [fake_params_flat] and [fake_named_states_flat] and
    calls the module on [fake_inputs]; the compiled callable runs the graph
    on [params_flat + named_states_flat + runtime_args] (lines 203-205), a
    list on which the same wrapper unflattens [params_flat] and
    [named_states_flat] and calls the module on [runtime_args]. *)
Theorem compile_fn_slices (T : Torch) mod_ fake_inputs w w' c :
  _compile_fn mod_ fake_inputs w = (w', Return c) →
  ∃ tr,
    compilation mod_ fake_inputs w tr w' c ∧
    let opt := __optimizer_0 mod_ in
    let pf := params_flat_of mod_ in
    let pspec := params_spec_of mod_ in
    let fpf := tr_fake_params_flat tr in
    let fnsf := tr_fake_named_states_flat tr in
    let sf := leaf_ids (tr_named_states_flat tr) in
    let nss := tr_named_states_spec tr in
    let params_len := length pf in
    let named_states_len := length (tr_named_states_flat tr) in
    functional_call mod_ opt params_len 0 pspec (fpf ++ fake_inputs)
    = (pd <- unflatten_dict fpf pspec ;;
       out <- call_module mod_ opt None pd fake_inputs ;;
       check_output out)%py ∧
    functional_call_2 mod_ opt params_len named_states_len pspec nss
      (fpf ++ fnsf ++ fake_inputs)
    = (pd <- unflatten_dict fpf pspec ;;
       nd <- unflatten_named_states fnsf nss ;;
       out <- call_module mod_ opt (Some nd) pd fake_inputs ;;
       check_output out)%py ∧
    ∀ runtime_args,
      c runtime_args
      = no_grad (tr_functional_fx_g tr (pf ++ sf ++ runtime_args)) ∧
      functional_call_2 mod_ opt params_len named_states_len pspec nss
        (pf ++ sf ++ runtime_args)
      = (pd <- unflatten_dict pf pspec ;;
         nd <- unflatten_named_states sf nss ;;
         out <- call_module mod_ opt (Some nd) pd runtime_args ;;
         check_output out)%py.
Proof.
  intros Hrun.
  destruct (compile_fn_trace _ _ _ _ _ _ Hrun) as (tr & Hc).
  exists tr. split; [exact Hc|].
  destruct Hc as (_ & _ & H7 & _ & _ & _ & _ & _ & _ & _ & H17 & _ & _ & ->).
  pose proof (fakeify_inputs_length _ _ _ _ _ H7) as L7.
  rewrite length_map in L7.
  pose proof (fakeify_inputs_length _ _ _ _ _ H17) as L17.
  pose proof (fakeify_inputs_tensors _ _ _ _ _ H17) as Hsf.
  assert (length (leaf_ids (tr_named_states_flat tr))
          = length (tr_named_states_flat tr)) as Lsf
    by (rewrite <- Hsf at 2; by rewrite length_map).
  cbn zeta. split_and!.
  - rewrite <- L7. apply functional_call_slices.
  - rewrite <- L7, <- L17. apply functional_call_2_slices.
  - intros runtime_args. split; [done|].
    rewrite <- Lsf. apply functional_call_2_slices.
Qed.

Lemma compile_fn_slices_witness :
  let mod_ := demo_module (VTuple [VNone]) in
  let r := @_compile_fn demo_torch mod_ [2%positive] (compile_world false) in
  ∃ c tr,
    r = (r.1, Return c) ∧
    ∀ runtime_args,
      c runtime_args
      = no_grad
          (tr_functional_fx_g tr
             (params_flat_of mod_ ++ leaf_ids (tr_named_states_flat tr)
                ++ runtime_args)) ∧
      functional_call_2 mod_ (__optimizer_0 mod_) (length (params_flat_of mod_))
        (length (tr_named_states_flat tr)) (params_spec_of mod_)
        (tr_named_states_spec tr)
        (params_flat_of mod_ ++ leaf_ids (tr_named_states_flat tr)
           ++ runtime_args)
      = (pd <- unflatten_dict (params_flat_of mod_) (params_spec_of mod_) ;;
         nd <- unflatten_named_states (leaf_ids (tr_named_states_flat tr))
                 (tr_named_states_spec tr) ;;
         out <- call_module mod_ (__optimizer_0 mod_) (Some nd) pd
                  runtime_args ;;
         check_output out)%py.
Proof.
  intros mod_ r.
  destruct (returned_Return r) as [c Hc]; [vm_compute; reflexivity|].
  destruct (compile_fn_slices demo_torch mod_ [2%positive]
              (compile_world false) r.1 c Hc)
    as (tr & _ & _ & _ & H).
  exists c, tr. split; [exact Hc | exact H].
Defined.

End CompileStageFacts.

(** ** The compiled callable (lines 143-149 and 201-207) *)

Module CallableFacts.
Import Py PyTree TrainStep WarmUpPredicates FlagPredicates StatePredicates
  TracePredicates Examples MoreExamples PyDictFacts MonadFacts WarmUpFacts
  CompileFacts ConversionFacts.
Local Open Scope py_scope.

(** *** The state sequence that is closed over *)






(** *** A functionalized graph behind the compiled callable *)






(** The example with a tracer that returns a functionalized graph, the one
    that adds one to every element: the compiled callable is closed over
    the parameter 1 and over the two state tensors 6 and 7 of its record,
    and two calls in a row advance the three of them twice, in place. *)
Example compiled_callable_advances :
  let r := @_compile_fn (functionalizing_torch 3)
             (demo_module (VTuple [VNone])) [2%positive]
             (compile_world false) in
  match r.2 with
  | Return c =>
      let r1 := c [2%positive] (set_grad_enabled_w true r.1) in
      let r2 := c [2%positive] r1.1 in
      let data (w : World) :=
        (t_data <$> tensors w !! 1%positive,
         t_data <$> tensors w !! 6%positive,
         t_data <$> tensors w !! 7%positive) in
      r1.2 = Return (VTuple [VNone]) ∧ r2.2 = Return (VTuple [VNone]) ∧
      data r.1 = (Some [5; 7], Some [0], Some [0; 0])%Z ∧
      data r1.1 = (Some [6; 8], Some [1], Some [1; 1])%Z ∧
      data r2.1 = (Some [7; 9], Some [2], Some [2; 2])%Z ∧
      grad_enabled r2.1 = true
  | Raise _ => False
  end.
Proof. vm_compute. split_and!; reflexivity. Qed.

End CallableFacts.

(** ** The fallback mode without overrides *)

Module FallbackModeFacts.
Import Py PyTree ParallelMode ParallelPredicates ParallelExamples
  ParallelModeFacts.

Lemma map_const_replicate {A B} (b : B) (l : list A) :
  map (λ _, b) l = replicate (length l) b.
Proof. induction l as [|x l IH]; simpl; [done | by rewrite IH]. Qed.

(** X16.  [expand] for a mode in which no tensor among the arguments has an
    override registered, as is the case for every mode as [__init__] makes
    it (lines 45-47: the registry starts empty, and no method of the class
    writes it).  Whatever the converter is: when a leaf of the parameters
    and buffers is no tensor, [expand] fails the assertion of line 67 on the
    first such leaf, with the message of that line; otherwise it returns
    what the converter returns on the graph, the values, the schemas and
    [_allow_partial=False], where the schemas are [Replicate] for each leaf
    of the parameters, buffers and states, then [Shard 0] for each leaf of
    the arguments, tensor or not, and the values are the tensors, with an
    empty tensor in the place of each leaf that is no tensor. *)
Theorem expand_without_overrides {GM : Type}
    (convert : GM → list Inp → list Schema → bool → Outcome (DistGraph GM))
    self ws gm params states args kwargs :
  (∀ id, LTensor id ∈ leaves (PyList (args ++ PyDict.values kwargs)) →
         _placements_override self !! id = None) →
  let ps := leaves (Dict params) in
  let ss := leaves (Dict states) in
  let fs := leaves (PyList (args ++ PyDict.values kwargs)) in
  let m := mkDeviceMesh "cuda" (seq 0 ws) in
  expand_with convert self ws gm params states args kwargs
  = match List.find (λ p, negb (is_tensor p)) ps with
    | Some p =>
        Raise (AssertionError
                 (String.append "expecting Tensor but got " (type_repr p)))
    | None =>
        convert gm (map inp_of (ps ++ ss ++ fs))
          (replicate (length ps + length ss) (mkSchema m [Replicate])
             ++ replicate (length fs) (mkSchema m [Shard 0]))
          false
    end.
Proof.
  intros Hno ps ss fs m. unfold expand_with. rewrite expand_inputs_closed.
  cbn zeta. fold ps ss fs m.
  destruct (List.find (λ p, negb (is_tensor p)) ps); [done|].
  cbn [obind fst snd].
  rewrite !map_app, !map_const_replicate, replicate_add, <- app_assoc.
  do 3 f_equal. rewrite <- map_const_replicate.
  apply map_ext_in. intros [id|z] Hin%list_elem_of_In; [|done].
  simpl. by rewrite (Hno id Hin).
Qed.

Lemma expand_without_overrides_witness :
  expand_with (_convert_to_distributed (λ _ _, true)) __init__ 2 tt
    [("w", Leaf (LTensor 1%positive))]
    [("w", Dict [("step", Leaf (LOther 0))])]
    [Leaf (LTensor 7%positive)] [("lr", Leaf (LOther 1))]
  = Return
      (mkDistGraph tt
         [(Given 1%positive,
           mkSchema (mkDeviceMesh "cuda" [0; 1]) [Replicate]);
          (Empty0, mkSchema (mkDeviceMesh "cuda" [0; 1]) [Replicate]);
          (Given 7%positive,
           mkSchema (mkDeviceMesh "cuda" [0; 1]) [Shard 0]);
          (Empty0, mkSchema (mkDeviceMesh "cuda" [0; 1]) [Shard 0])]).
Proof.
  rewrite (expand_without_overrides (_convert_to_distributed (λ _ _, true))
             __init__ 2 tt
             [("w", Leaf (LTensor 1%positive))]
             [("w", Dict [("step", Leaf (LOther 0))])]
             [Leaf (LTensor 7%positive)] [("lr", Leaf (LOther 1))]).
  - reflexivity.
  - intros id _. reflexivity.
Defined.

(** A parameter that is no tensor: the message of line 67 names its type,
    and the converter is not called. *)
Example expand_refuses_a_number :
  ∀ convert : unit → list Inp → list Schema → bool → Outcome (DistGraph unit),
    expand_with convert __init__ 2 tt [("w", Leaf (LOther 3))] [] [] []
    = Raise (AssertionError "expecting Tensor but got <class 'int'>").
Proof. reflexivity. Qed.

End FallbackModeFacts.
